(** * manofwar: the media content handler and the process bootstrap

    A shallow embedding of [internal/web/handler.go] (the closure returned by
    [NewMediaHandler]) and of [cmd/server/main.go] (flag and environment
    resolution), together with the parts of the Go standard library the two
    files call: [strings.TrimPrefix], [path/filepath] ([Clean], [Join], [Ext],
    [Abs]) for slash-separated paths, and [net/http]'s [NotFound], [Error] and
    [ServeContent].

    Go strings are byte strings; they are modelled by [string] (a list of
    8-bit characters).  Maps with string keys ([http.Header], the process
    environment, the parsed command line) are [gmap string string].

    The library routines are written after the Go standard library as of
    Go 1.23 ([strings], [path/filepath], [strconv], [net/textproto],
    [net/http]'s fs.go, where [ServeContent] writes its errors through
    [serveError]); what depends on tables or on data outside the program
    (the MIME table, date parsing and formatting, the file system, the
    random boundary of a multipart body) is a field of [World].

    [os.Open] opens directories as well as regular files; both kinds of
    handle are modelled ([Handle]), and [ServeContent] on each of them.

    Two readings of the handler's text: its local variable for the joined
    path is called [filepath] in the source, and [filepath.Ext] on line 32
    is read as the function of the package; [file.ModTime()] on line 42 is
    read as the modification time of the opened file. *)

From Stdlib Require Import ZArith Ascii String List DecimalString.
From stdpp Require Import base option strings gmap list.

Local Open Scope string_scope.
Local Open Scope Z_scope.

(** ** Byte strings *)

Module Str.

(** [strings.HasPrefix(s, prefix)]. *)
Fixpoint HasPrefix (s prefix : string) {struct prefix} : bool :=
    match prefix, s with
    | EmptyString, _ => true
    | String _ _, EmptyString => false
    | String c prefix', String d s' =>
        if Ascii.eqb c d then HasPrefix s' prefix' else false
    end.

(** [s[n:]] for [n <= len(s)]. *)
Fixpoint drop (n : nat) (s : string) : string :=
    match n, s with
    | O, _ => s
    | S _, EmptyString => EmptyString
    | S n', String _ s' => drop n' s'
    end.

(** [strings.TrimPrefix(s, prefix)]: [s] without the leading [prefix];
      [s] itself when it does not start with [prefix]. *)
Definition TrimPrefix (s prefix : string) : string :=
    if HasPrefix s prefix then drop (String.length prefix) s else s.

(** [strings.Split(s, sep)] for the one-byte separator [sep]: the pieces
      between the separators, empty pieces included; never the empty list. *)
Fixpoint Split (sep : ascii) (s : string) : list string :=
    match s with
    | EmptyString => [EmptyString]
    | String c s' =>
        if Ascii.eqb c sep then EmptyString :: Split sep s'
        else match Split sep s' with
             | e :: es => String c e :: es
             | [] => [String c EmptyString]
             end
    end.

(** [strings.Join(elems, sep)]. *)
Fixpoint Join (elems : list string) (sep : string) : string :=
    match elems with
    | [] => EmptyString
    | [e] => e
    | e :: es => e +:+ sep +:+ Join es sep
    end.

Definition is_empty (s : string) : bool :=
    match s with EmptyString => true | _ => false end.

End Str.

(** ** [path/filepath] on a slash-separated platform *)

Module filepath.

Definition Separator : ascii := "/"%char.

Definition IsPathSeparator (c : ascii) : bool := Ascii.eqb c Separator.

(** One round of the loop of [Clean] on the path element [e].  [out] holds
      the elements written so far, the last one first.  An empty element and
      [.] are skipped; [..] removes the element before it when there is one
      to remove, stays at the root of a rooted path, and is kept when a
      relative path has nothing left to remove (the written elements are
      then all [..]); every other element is written. *)
Definition clean_step (rooted : bool) (out : list string) (e : string)
    : list string :=
    if Str.is_empty e || String.eqb e "." then out
    else if String.eqb e ".." then
      match out with
      | top :: out' => if String.eqb top ".." then e :: out else out'
      | [] => if rooted then [] else [e]
      end
    else e :: out.

(** [filepath.Clean(path)]: the shortest path name equivalent to [path] by
      purely lexical processing.  The empty result is turned into [.]. *)
Definition Clean (path : string) : string :=
    let rooted :=
      match path with
      | String c _ => IsPathSeparator c
      | EmptyString => false
      end in
    let out := fold_left (clean_step rooted) (Str.Split Separator path) [] in
    let body := Str.Join (rev out) "/" in
    if rooted then "/" +:+ body
    else if Str.is_empty body then "." else body.

(** [filepath.Join(elem...)]: the elements from the first non-empty one on,
      joined by the separator and cleaned; the empty string when all are
      empty. *)
Fixpoint Join (elem : list string) : string :=
    match elem with
    | [] => EmptyString
    | e :: rest =>
        if Str.is_empty e then Join rest else Clean (Str.Join elem "/")
    end.

(** The loop of [filepath.Ext]: [i] runs from the last byte down and stops
      at a separator; the first dot met gives the result [path[i:]].
      [rpath] is the part of the path not yet visited, reversed; [acc] is
      [path[i+1:]]. *)
Fixpoint ext_scan (rpath : list ascii) (acc : string) : string :=
    match rpath with
    | [] => EmptyString
    | c :: rpath' =>
        if IsPathSeparator c then EmptyString
        else if Ascii.eqb c "."%char then String c acc
        else ext_scan rpath' (String c acc)
    end.

(** [filepath.Ext(path)]: the suffix beginning at the final dot in the
      final element of [path]; empty if there is no dot. *)
Definition Ext (path : string) : string :=
    ext_scan (rev (list_ascii_of_string path)) EmptyString.

(** A path element [Clean] keeps as it is: not empty, not [.], not [..],
    and free of separators. *)
Definition plain (e : string) : bool :=
negb (Str.is_empty e) && negb (String.eqb e ".") && negb (String.eqb e "..")
&& forallb (fun c => negb (IsPathSeparator c)) (list_ascii_of_string e).

(** The rooted path with the elements [elems]. *)
Definition rooted (elems : list string) : string :=
"/" +:+ Str.Join elems "/".

(** [filepath.IsAbs(path)]. *)
Definition IsAbs (path : string) : bool := Str.HasPrefix path "/".

(** [filepath.Abs(path)]; [wd] is the result of [os.Getwd], [None] when it
      fails (the only error [Abs] reports). *)
Definition Abs (wd : option string) (path : string) : option string :=
    if IsAbs path then Some (Clean path)
    else match wd with
         | Some d => Some (Join [d; path])
         | None => None
         end.

End filepath.

(** ** [net/textproto] and [strconv] *)

Module textproto.

(** [isASCIISpace]: space, tab, line feed, carriage return. *)
Definition isASCIISpace (c : ascii) : bool :=
Ascii.eqb c " "%char || Ascii.eqb c "009"%char
|| Ascii.eqb c "010"%char || Ascii.eqb c "013"%char.

Fixpoint trim_left (s : string) : string :=
match s with
| String c s' => if isASCIISpace c then trim_left s' else s
| EmptyString => EmptyString
end.

Fixpoint trim_right (s : string) : string :=
match s with
| EmptyString => EmptyString
| String c s' =>
    match trim_right s' with
    | EmptyString => if isASCIISpace c then EmptyString else String c EmptyString
    | t => String c t
    end
end.

(** [textproto.TrimString(s)]: [s] without leading and trailing ASCII
    space. *)
Definition TrimString (s : string) : string := trim_right (trim_left s).

End textproto.

Module strconv.

Definition is_digit (c : ascii) : bool :=
(48 <=? Z.of_nat (nat_of_ascii c)) && (Z.of_nat (nat_of_ascii c) <=? 57).

Fixpoint parse_digits (s : string) (acc : Z) : option Z :=
match s with
| EmptyString => Some acc
| String c s' =>
    if is_digit c
    then parse_digits s' (10 * acc + (Z.of_nat (nat_of_ascii c) - 48))
    else None
end.

(** [strconv.ParseInt(s, 10, 64)]: an optional sign and at least one decimal
    digit, the value within the range of int64; [None] stands for every
    error (syntax or range). *)
Definition ParseInt (s : string) : option Z :=
match s with
| EmptyString => None
| String c s' =>
    let neg := Ascii.eqb c "-"%char in
    let digits := if neg || Ascii.eqb c "+"%char then s' else s in
    if Str.is_empty digits then None
    else match parse_digits digits 0 with
         | None => None
         | Some un =>
             if neg then (if un <=? 2 ^ 63 then Some (- un) else None)
             else (if un <? 2 ^ 63 then Some un else None)
         end
end.

(** [strconv.FormatInt(i, 10)], also what [%d] prints. *)
Definition FormatInt (i : Z) : string := NilZero.string_of_int (Z.to_int i).

End strconv.

(** ** [time] *)

Module time.

(** An instant: seconds since the Unix epoch and nanoseconds within the
    second. *)
Record Time : Type := mkTime { sec : Z; nsec : Z }.

(** The zero [time.Time]: January 1, year 1, 00:00:00 UTC. *)
Definition zero : Time := mkTime (-62135596800) 0.

(** [time.Unix(0, 0)]. *)
Definition unixEpochTime : Time := mkTime 0 0.

Definition Equal (t u : Time) : bool := (sec t =? sec u) && (nsec t =? nsec u).

Definition IsZero (t : Time) : bool := Equal t zero.

(** [t.Truncate(time.Second)]. *)
Definition TruncateSecond (t : Time) : Time := mkTime (sec t) 0.

(** [t.Compare(u)]: -1, 0 or +1. *)
Definition Compare (t u : Time) : Z :=
if sec t <? sec u then -1
else if sec u <? sec t then 1
else if nsec t <? nsec u then -1
else if nsec u <? nsec t then 1
else 0.

Definition Unix (t : Time) : Z := sec t.

End time.

Export time(Time, mkTime).

(** ** The world outside the handler *)

(** What [os.Open] can report.  The handler never looks at the cause. *)
Inductive Errno : Type :=
| ENOENT    (* no such file or directory *)
| EACCES    (* permission denied *)
| EISDIR    (* is a directory *)
| ENOTDIR   (* a path component is not a directory *)
| EOTHER (msg : string).

(** An open regular file: its bytes and its modification time (what the
    handler writes as [file.ModTime()]).  Positioning and reading it do not
    fail. *)
Record File : Type := mkFile { Data : string; ModTime : Time }.

(** An open directory.  [os.Open] opens a directory as it opens a file; the
    handle has a modification time, but no bytes can be read from it: every
    [Read] fails (with [EISDIR]).  Whether it can be positioned depends on
    the file system:
    [DirSize] is the size [content.Seek(0, io.SeekEnd)] reports when it and
    the [content.Seek(0, io.SeekStart)] after it succeed ([None] when one of
    them fails), and [DirSeek offset] is the text of the error of
    [content.Seek(offset, io.SeekStart)] ([None] when it succeeds). *)
Record Dir : Type := mkDir {
  DirModTime : Time;
  DirSize : option Z;
  DirSeek : Z -> option string
}.

(** What a successful [os.Open] returns. *)
Inductive Handle : Type :=
| Regular (f : File)
| Directory (d : Dir).

(** [file.ModTime()]. *)
Definition Handle_ModTime (h : Handle) : Time :=
match h with
| Regular f => ModTime f
| Directory d => DirModTime d
end.

(** The surroundings of one invocation: the file system as [os.Open] sees
    it, and the library tables and routines whose results come from outside
    the program text: the extension-to-type table of [mime.TypeByExtension]
    (the empty string for an unknown extension), content sniffing
    ([http.DetectContentType]), HTTP date parsing and formatting
    ([http.ParseTime], [t.UTC().Format(http.TimeFormat)]) and the random
    boundary the multipart writer draws for the response at hand (a new one
    for every response, see [with_boundary]). *)
Record World : Type := mkWorld {
  os_Open : string -> Errno + Handle;
  TypeByExtension : string -> string;
  DetectContentType : string -> string;
  ParseTime : string -> option Time;
  FormatTime : Time -> string;
  Boundary : string
}.

(** The world [W] at a response for which the multipart writer draws the
    boundary [b]. *)
Definition with_boundary (b : string) (W : World) : World :=
mkWorld (os_Open W) (TypeByExtension W) (DetectContentType W) (ParseTime W)
  (FormatTime W) b.

(** ** [net/http]: requests and response writers *)

Module http.

Definition StatusOK : Z := 200.
Definition StatusPartialContent : Z := 206.
Definition StatusNotModified : Z := 304.
Definition StatusNotFound : Z := 404.
Definition StatusPreconditionFailed : Z := 412.
Definition StatusRequestedRangeNotSatisfiable : Z := 416.
Definition StatusInternalServerError : Z := 500.

Definition LF : string := String "010"%char EmptyString.
Definition CRLF : string := String "013"%char LF.
Definition dquote : ascii := "034"%char.

(** The part of [*http.Request] the handler and [ServeContent] read.
    [Header] maps a canonical header name to its first value. *)
Record Request : Type := mkRequest {
  Method : string;
  URLPath : string;
  Header : gmap string string
}.

(** [h.Get(key)] for a canonical [key]: the empty string when absent. *)
Definition Header_get (h : gmap string string) (key : string) : string :=
default EmptyString (h !! key).

(** An [http.ResponseWriter] as a recorder sees it: the header map, the
    status code once the header is written, the bytes written. *)
Record ResponseWriter : Type := mkRW {
  Hdr : gmap string string;
  Code : option Z;
  Body : string
}.

(** A response writer nothing was written to. *)
Definition NewRecorder : ResponseWriter := mkRW ∅ None EmptyString.

Definition Header_Set (key value : string) (w : ResponseWriter) : ResponseWriter :=
mkRW (<[key := value]> (Hdr w)) (Code w) (Body w).

Definition Header_Del (key : string) (w : ResponseWriter) : ResponseWriter :=
mkRW (delete key (Hdr w)) (Code w) (Body w).

(** [w.WriteHeader(code)]: only the first call counts. *)
Definition WriteHeader (code : Z) (w : ResponseWriter) : ResponseWriter :=
match Code w with
| Some _ => w
| None => mkRW (Hdr w) (Some code) (Body w)
end.

(** [w.Write(data)]: writes the header with status 200 first if no header
    was written. *)
Definition Write (data : string) (w : ResponseWriter) : ResponseWriter :=
let w' := WriteHeader StatusOK w in
mkRW (Hdr w') (Code w') (Body w' +:+ data).

(** The status a client sees: 200 when the handler returned without writing
    a header. *)
Definition status (w : ResponseWriter) : Z := default StatusOK (Code w).

(** [http.Error(w, error, code)]. *)
Definition Error (error : string) (code : Z) (w : ResponseWriter) : ResponseWriter :=
let w := Header_Del "Content-Length" w in
let w := Header_Set "Content-Type" "text/plain; charset=utf-8" w in
let w := Header_Set "X-Content-Type-Options" "nosniff" w in
let w := WriteHeader code w in
Write (error +:+ LF) w.

(** [http.NotFound(w, r)]. *)
Definition NotFound (w : ResponseWriter) : ResponseWriter :=
Error "404 page not found" StatusNotFound w.

(** [serveError(w, text, code)] of fs.go: the headers a caller may have set
    for the content are taken away before the error is written. *)
Definition serveError (text : string) (code : Z) (w : ResponseWriter) : ResponseWriter :=
let w := Header_Del "Cache-Control" w in
let w := Header_Del "Content-Encoding" w in
let w := Header_Del "Etag" w in
let w := Header_Del "Last-Modified" w in
Error text code w.

(** *** Entity tags and preconditions (RFC 7232) *)

Inductive condResult : Type := condNone | condTrue | condFalse.

(** Bytes allowed inside an entity tag. *)
Definition etag_char (c : ascii) : bool :=
let n := Z.of_nat (nat_of_ascii c) in
(n =? 33) || ((35 <=? n) && (n <=? 126)) || (128 <=? n).

(** The loop of [scanETag] after the opening quote: the tag text up to and
    including the closing quote, and what follows it. *)
Fixpoint scan_quoted (s : string) : option (string * string) :=
match s with
| EmptyString => None
| String c s' =>
    if etag_char c then
      match scan_quoted s' with
      | Some (tag, remain) => Some (String c tag, remain)
      | None => None
      end
    else if Ascii.eqb c dquote then Some (String c EmptyString, s')
    else None
end.

(** The quoted part of an entity tag at the start of [q]: at least two
    bytes, the first one a quote. *)
Definition scan_opaque (q : string) : option (string * string) :=
match q with
| String c (String d q') =>
    if Ascii.eqb c dquote then
      match scan_quoted (String d q') with
      | Some (tag, remain) => Some (String c tag, remain)
      | None => None
      end
    else None
| _ => None
end.

(** [scanETag(s)]: a syntactically valid entity tag at the start of [s]
    (after leading space), weak or strong, and the rest; two empty strings
    when there is none. *)
Definition scanETag (s : string) : string * string :=
let s := textproto.TrimString s in
let weak := Str.HasPrefix s "W/" in
match scan_opaque (if weak then Str.drop 2 s else s) with
| Some (tag, remain) => ((if weak then "W/" else EmptyString) +:+ tag, remain)
| None => (EmptyString, EmptyString)
end.

Definition etagStrongMatch (a b : string) : bool :=
String.eqb a b
&& match a with String c _ => Ascii.eqb c dquote | EmptyString => false end.

Definition etagWeakMatch (a b : string) : bool :=
String.eqb (Str.TrimPrefix a "W/") (Str.TrimPrefix b "W/").

(** The loop shared by [checkIfMatch] and [checkIfNoneMatch] over a list of
    entity tags: [true] when a star or a tag matching [have] is met before
    the list ends or stops being well formed.  Every round drops at least
    one byte of the list, so [String.length list + 1] rounds of [fuel] are
    never used up. *)
Fixpoint etag_list_matches (fuel : nat) (weak : bool) (have list : string) : bool :=
match fuel with
| O => false
| S fuel' =>
    match textproto.TrimString list with
    | EmptyString => false
    | String c rest =>
        if Ascii.eqb c ","%char then etag_list_matches fuel' weak have rest
        else if Ascii.eqb c "*"%char then true
        else
          let '(etag, remain) := scanETag (String c rest) in
          if Str.is_empty etag then false
          else if (if weak then etagWeakMatch etag have
                   else etagStrongMatch etag have) then true
          else etag_list_matches fuel' weak have remain
    end
end.

Definition is_GET_or_HEAD (r : Request) : bool :=
String.eqb (Method r) "GET" || String.eqb (Method r) "HEAD".

(** [isZeroTime(t)]: the time is obviously unspecified, either the zero
    [Time] or the Unix epoch. *)
Definition isZeroTime (t : Time) : bool :=
time.IsZero t || time.Equal t time.unixEpochTime.

Definition checkIfMatch (w : ResponseWriter) (r : Request) : condResult :=
let im := Header_get (Header r) "If-Match" in
if Str.is_empty im then condNone
else if etag_list_matches (S (String.length im)) false
          (Header_get (Hdr w) "Etag") im
     then condTrue else condFalse.

Definition checkIfUnmodifiedSince (W : World) (r : Request) (modtime : Time)
  : condResult :=
let ius := Header_get (Header r) "If-Unmodified-Since" in
if Str.is_empty ius || isZeroTime modtime then condNone
else match ParseTime W ius with
     | None => condNone
     | Some t =>
         if time.Compare (time.TruncateSecond modtime) t <=? 0
         then condTrue else condFalse
     end.

Definition checkIfNoneMatch (w : ResponseWriter) (r : Request) : condResult :=
let inm := Header_get (Header r) "If-None-Match" in
if Str.is_empty inm then condNone
else if etag_list_matches (S (String.length inm)) true
          (Header_get (Hdr w) "Etag") inm
     then condFalse else condTrue.

Definition checkIfModifiedSince (W : World) (r : Request) (modtime : Time)
  : condResult :=
if negb (is_GET_or_HEAD r) then condNone
else
  let ims := Header_get (Header r) "If-Modified-Since" in
  if Str.is_empty ims || isZeroTime modtime then condNone
  else match ParseTime W ims with
       | None => condNone
       | Some t =>
           if time.Compare (time.TruncateSecond modtime) t <=? 0
           then condFalse else condTrue
       end.

Definition checkIfRange (W : World) (w : ResponseWriter) (r : Request)
  (modtime : Time) : condResult :=
if negb (is_GET_or_HEAD r) then condNone
else
  let ir := Header_get (Header r) "If-Range" in
  if Str.is_empty ir then condNone
  else
    let etag := fst (scanETag ir) in
    if negb (Str.is_empty etag) then
      (if etagStrongMatch etag (Header_get (Hdr w) "Etag")
       then condTrue else condFalse)
    else if time.IsZero modtime then condFalse
    else match ParseTime W ir with
         | None => condFalse
         | Some t =>
             if time.Unix t =? time.Unix modtime then condTrue else condFalse
         end.

(** [setLastModified(w, modtime)]. *)
Definition setLastModified (W : World) (modtime : Time) (w : ResponseWriter)
  : ResponseWriter :=
if isZeroTime modtime then w
else Header_Set "Last-Modified" (FormatTime W modtime) w.

(** [writeNotModified(w)]. *)
Definition writeNotModified (w : ResponseWriter) : ResponseWriter :=
let w := Header_Del "Content-Type" w in
let w := Header_Del "Content-Length" w in
let w := Header_Del "Content-Encoding" w in
let w := if Str.is_empty (Header_get (Hdr w) "Etag") then w
         else Header_Del "Last-Modified" w in
WriteHeader StatusNotModified w.

(** [checkPreconditions(w, r, modtime)]: the writer, whether the response is
    complete, and the [Range] header to honour. *)
Definition checkPreconditions (W : World) (w : ResponseWriter) (r : Request)
  (modtime : Time) : ResponseWriter * bool * string :=
let ch := match checkIfMatch w r with
          | condNone => checkIfUnmodifiedSince W r modtime
          | c => c
          end in
match ch with
| condFalse => (WriteHeader StatusPreconditionFailed w, true, EmptyString)
| _ =>
    let proceed :=
      let rangeHeader := Header_get (Header r) "Range" in
      match Str.is_empty rangeHeader, checkIfRange W w r modtime with
      | false, condFalse => (w, false, EmptyString)
      | _, _ => (w, false, rangeHeader)
      end in
    match checkIfNoneMatch w r with
    | condFalse =>
        if is_GET_or_HEAD r then (writeNotModified w, true, EmptyString)
        else (WriteHeader StatusPreconditionFailed w, true, EmptyString)
    | condNone =>
        match checkIfModifiedSince W r modtime with
        | condFalse => (writeNotModified w, true, EmptyString)
        | _ => proceed
        end
    | condTrue => proceed
    end
end.

(** *** Byte ranges (RFC 7233) *)

(** [httpRange]: the first byte and the number of bytes. *)
Record httpRange : Type := mkRange { start : Z; length : Z }.

Inductive rangeError : Type := errInvalidRange | errNoOverlap.

(** [strings.Cut(s, "-")]: the text before and after the first dash. *)
Fixpoint cut_dash (s : string) : option (string * string) :=
match s with
| EmptyString => None
| String c s' =>
    if Ascii.eqb c "-"%char then Some (EmptyString, s')
    else match cut_dash s' with
         | Some (before, after) => Some (String c before, after)
         | None => None
         end
end.

(** One round of the loop of [parseRange] on the piece [ra] of the header:
    an error, a piece to skip ([None]; [true] when it was skipped because it
    begins at or after [size]), or a range. *)
Definition parse_one_range (size : Z) (ra : string)
  : rangeError + (bool * option httpRange) :=
let ra := textproto.TrimString ra in
if Str.is_empty ra then inr (false, None)
else match cut_dash ra with
| None => inl errInvalidRange
| Some (first, last) =>
    let first := textproto.TrimString first in
    let last := textproto.TrimString last in
    if Str.is_empty first then
      (* a suffix length *)
      if Str.is_empty last || Str.HasPrefix last "-" then inl errInvalidRange
      else match strconv.ParseInt last with
           | None => inl errInvalidRange
           | Some i =>
               if i <? 0 then inl errInvalidRange
               else
                 let i := if size <? i then size else i in
                 inr (false, Some (mkRange (size - i) (size - (size - i))))
           end
    else match strconv.ParseInt first with
         | None => inl errInvalidRange
         | Some i =>
             if i <? 0 then inl errInvalidRange
             else if size <=? i then inr (true, None)
             else if Str.is_empty last then
               inr (false, Some (mkRange i (size - i)))
             else match strconv.ParseInt last with
                  | None => inl errInvalidRange
                  | Some j =>
                      if j <? i then inl errInvalidRange
                      else
                        let j := if size <=? j then size - 1 else j in
                        inr (false, Some (mkRange i (j - i + 1)))
                  end
         end
end.

Fixpoint parse_ranges (size : Z) (pieces : list string) (noOverlap : bool)
  (ranges : list httpRange) : rangeError + list httpRange :=
match pieces with
| [] => if noOverlap && Nat.eqb (List.length ranges) 0
        then inl errNoOverlap else inr ranges
| ra :: pieces' =>
    match parse_one_range size ra with
    | inl e => inl e
    | inr (skipped, None) =>
        parse_ranges size pieces' (noOverlap || skipped) ranges
    | inr (_, Some r) => parse_ranges size pieces' noOverlap (ranges ++ [r])
    end
end.

(** [parseRange(s, size)]: the ranges of a [Range] header; no range for an
    absent header. *)
Definition parseRange (s : string) (size : Z) : rangeError + list httpRange :=
if Str.is_empty s then inr []
else if negb (Str.HasPrefix s "bytes=") then inl errInvalidRange
else parse_ranges size (Str.Split ","%char (Str.drop 6 s)) false [].

Definition rangeError_text (e : rangeError) : string :=
match e with
| errInvalidRange => "invalid range"
| errNoOverlap => "invalid range: failed to overlap"
end.

(** [ra.contentRange(size)]. *)
Definition contentRange (ra : httpRange) (size : Z) : string :=
"bytes " +:+ strconv.FormatInt (start ra) +:+ "-"
+:+ strconv.FormatInt (start ra + length ra - 1) +:+ "/"
+:+ strconv.FormatInt size.

Definition sumRangesSize (ranges : list httpRange) : Z :=
fold_left (fun acc ra => acc + length ra) ranges 0.

(** The bytes of [content] a range covers. *)
Definition slice (content : string) (ra : httpRange) : string :=
String.substring (Z.to_nat (start ra)) (Z.to_nat (length ra)) content.

(** What the multipart writer puts before the bytes of a part: the
    boundary line, then the [Content-Range] and [Content-Type] of the part
    and an empty line. *)
Definition part_header (boundary ctype : string) (size : Z) (first : bool)
  (ra : httpRange) : string :=
(if first then EmptyString else CRLF) +:+ "--" +:+ boundary +:+ CRLF
+:+ "Content-Range: " +:+ contentRange ra size +:+ CRLF
+:+ "Content-Type: " +:+ ctype +:+ CRLF +:+ CRLF.

(** ... and what it writes when it is closed. *)
Definition closing_boundary (boundary : string) : string :=
CRLF +:+ "--" +:+ boundary +:+ "--" +:+ CRLF.

(** The body of a [multipart/byteranges] response: one part per range, each
    with its [Content-Range] and [Content-Type] header, then the closing
    boundary. *)
Fixpoint multipart_parts (boundary ctype content : string) (size : Z)
  (first : bool) (ranges : list httpRange) : string :=
match ranges with
| [] => closing_boundary boundary
| ra :: ranges' =>
    part_header boundary ctype size first ra
    +:+ slice content ra
    +:+ multipart_parts boundary ctype content size false ranges'
end.

(** [rangesMIMESize(ranges, contentType, contentSize)]: the length of the
    multipart body, counted from the part headers, the lengths of the
    ranges and the closing boundary.  (The boundary it counts with is another
    random one of the same length.) *)
Fixpoint rangesMIMESize_from (boundary ctype : string) (size : Z)
  (first : bool) (ranges : list httpRange) : Z :=
match ranges with
| [] => Z.of_nat (String.length (closing_boundary boundary))
| ra :: ranges' =>
    Z.of_nat (String.length (part_header boundary ctype size first ra))
    + length ra
    + rangesMIMESize_from boundary ctype size false ranges'
end.

Definition rangesMIMESize (boundary ctype : string) (size : Z)
  (ranges : list httpRange) : Z :=
rangesMIMESize_from boundary ctype size true ranges.

(** The end of [serveContent]: [Accept-Ranges], [Content-Length] (for a
    response without ranges only if no [Content-Encoding] is set), the
    status, and [body] (what [io.CopyN] gets to copy of the [sendSize]
    bytes) unless the method is HEAD.  [ranged] is [len(ranges) > 0]. *)
Definition send (r : Request) (code : Z) (sendSize : Z) (body : string)
  (ranged : bool) (w : ResponseWriter) : ResponseWriter :=
let w := Header_Set "Accept-Ranges" "bytes" w in
let w := if ranged || Str.is_empty (Header_get (Hdr w) "Content-Encoding")
         then Header_Set "Content-Length" (strconv.FormatInt sendSize) w
         else w in
let w := WriteHeader code w in
if String.eqb (Method r) "HEAD" then w else Write body w.

(** The content type of the response: the one the caller has set, else the
    type of the extension of [name], else what sniffing the first 512 bytes
    gives. *)
Definition resolveContentType (W : World) (name content : string)
  (w : ResponseWriter) : ResponseWriter * string :=
match Hdr w !! "Content-Type" with
| Some ctype => (w, ctype)
| None =>
    let byExt := TypeByExtension W (filepath.Ext name) in
    let ctype := if Str.is_empty byExt
                 then DetectContentType W (String.substring 0 512 content)
                 else byExt in
    (Header_Set "Content-Type" ctype w, ctype)
end.

(** The switch on the number of ranges: the whole content with 200, one
    range with 206 and [Content-Range], several ranges with 206 as
    [multipart/byteranges].  Ranges adding up to more than the content are
    ignored. *)
Definition deliver (W : World) (r : Request) (content ctype : string)
  (ranges : list httpRange) (w : ResponseWriter) : ResponseWriter :=
let size := Z.of_nat (String.length content) in
let ranges := if size <? sumRangesSize ranges then [] else ranges in
match ranges with
| [] => send r StatusOK size content false w
| [ra] =>
    let w := Header_Set "Content-Range" (contentRange ra size) w in
    send r StatusPartialContent (length ra) (slice content ra) true w
| _ =>
    let w := Header_Set "Content-Type"
               ("multipart/byteranges; boundary=" +:+ Boundary W) w in
    let body := multipart_parts (Boundary W) ctype content size true ranges in
    send r StatusPartialContent (rangesMIMESize (Boundary W) ctype size ranges)
      body true w
end.

(** The handling of the [Range] header [rangeReq]: 416 for a header that
    does not parse or does not overlap a non-empty content. *)
Definition serveRanges (W : World) (r : Request) (content ctype rangeReq : string)
  (w : ResponseWriter) : ResponseWriter :=
let size := Z.of_nat (String.length content) in
match parseRange rangeReq size with
| inr ranges => deliver W r content ctype ranges w
| inl errNoOverlap =>
    if size =? 0 then deliver W r content ctype [] w
    else serveError (rangeError_text errNoOverlap)
           StatusRequestedRangeNotSatisfiable
           (Header_Set "Content-Range"
              ("bytes */" +:+ strconv.FormatInt size) w)
| inl e => serveError (rangeError_text e) StatusRequestedRangeNotSatisfiable w
end.

(** [http.ServeContent(w, req, name, modtime, content)] for a [content]
    whose [Seek] and [Read] do not fail (an open regular file): [content] is
    the bytes read from the start to the end. *)
Definition ServeContent (W : World) (w : ResponseWriter) (r : Request)
  (name : string) (modtime : Time) (content : string) : ResponseWriter :=
let w := setLastModified W modtime w in
let '(w, done, rangeReq) := checkPreconditions W w r modtime in
if done then w
else
  let '(w, ctype) := resolveContentType W name content w in
  serveRanges W r content ctype rangeReq w.

(** *** An open directory as the content *)

(** The bytes of a multipart body that reach the response when the content
    is a directory: the writer stops at the first part it cannot position
    the content for, or for which there is a byte to read. *)
Fixpoint multipart_unread (d : Dir) (boundary ctype : string) (size : Z)
  (first : bool) (ranges : list httpRange) : string :=
match ranges with
| [] => closing_boundary boundary
| ra :: ranges' =>
    part_header boundary ctype size first ra
    +:+ match DirSeek d (start ra) with
        | Some _ => EmptyString
        | None =>
            if length ra =? 0
            then multipart_unread d boundary ctype size false ranges'
            else EmptyString
        end
end.

(** The switch on the number of ranges for a directory of (reported) size
    [size]: the headers are those of a file of that size, and no byte of a
    body can be copied. *)
Definition deliverDir (W : World) (r : Request) (d : Dir) (size : Z)
  (ctype : string) (ranges : list httpRange) (w : ResponseWriter)
  : ResponseWriter :=
let ranges := if size <? sumRangesSize ranges then [] else ranges in
match ranges with
| [] => send r StatusOK size EmptyString false w
| [ra] =>
    match DirSeek d (start ra) with
    | Some err => serveError err StatusRequestedRangeNotSatisfiable w
    | None =>
        let w := Header_Set "Content-Range" (contentRange ra size) w in
        send r StatusPartialContent (length ra) EmptyString true w
    end
| _ =>
    let w := Header_Set "Content-Type"
               ("multipart/byteranges; boundary=" +:+ Boundary W) w in
    send r StatusPartialContent (rangesMIMESize (Boundary W) ctype size ranges)
      (multipart_unread d (Boundary W) ctype size true ranges) true w
end.

(** The size of the content and the [Range] header [rangeReq]: 500 when
    the directory cannot be positioned at its end. *)
Definition serveDirRanges (W : World) (r : Request) (d : Dir)
  (ctype rangeReq : string) (w : ResponseWriter) : ResponseWriter :=
match DirSize d with
| None => serveError "seeker can't seek" StatusInternalServerError w
| Some size =>
    if size <? 0
    then serveError "negative content size computed" StatusInternalServerError w
    else
      match parseRange rangeReq size with
      | inr ranges => deliverDir W r d size ctype ranges w
      | inl errNoOverlap =>
          if size =? 0 then deliverDir W r d size ctype [] w
          else serveError (rangeError_text errNoOverlap)
                 StatusRequestedRangeNotSatisfiable
                 (Header_Set "Content-Range"
                    ("bytes */" +:+ strconv.FormatInt size) w)
      | inl e =>
          serveError (rangeError_text e) StatusRequestedRangeNotSatisfiable w
      end
end.

(** [http.ServeContent(w, req, name, modtime, content)] for a [content]
    that is an open directory.  Sniffing reads no byte and rewinds. *)
Definition ServeContentDir (W : World) (w : ResponseWriter) (r : Request)
  (name : string) (modtime : Time) (d : Dir) : ResponseWriter :=
let w := setLastModified W modtime w in
let '(w, done, rangeReq) := checkPreconditions W w r modtime in
if done then w
else
  match Hdr w !! "Content-Type" with
  | Some ctype => serveDirRanges W r d ctype rangeReq w
  | None =>
      let byExt := TypeByExtension W (filepath.Ext name) in
      if Str.is_empty byExt then
        match DirSeek d 0 with
        | Some _ => serveError "seeker can't seek" StatusInternalServerError w
        | None =>
            let ctype := DetectContentType W EmptyString in
            serveDirRanges W r d ctype rangeReq
              (Header_Set "Content-Type" ctype w)
        end
      else serveDirRanges W r d byExt rangeReq (Header_Set "Content-Type" byExt w)
  end.

(** The headers [serveError] takes away. *)
Definition cleared (k : string) : bool :=
String.eqb k "Cache-Control" || String.eqb k "Content-Encoding"
|| String.eqb k "Etag" || String.eqb k "Last-Modified".

(** The statuses [serveError] is called with. *)
Definition error_status (c : Z) : bool :=
(c =? StatusRequestedRangeNotSatisfiable) || (c =? StatusInternalServerError).

(** The statuses [ServeContent] can answer with for a regular file. *)
Definition served_status (c : Z) : Prop :=
  c = StatusOK \/ c = StatusPartialContent \/ c = StatusNotModified
  \/ c = StatusPreconditionFailed \/ c = StatusRequestedRangeNotSatisfiable.

(** ... and for a directory. *)
Definition served_dir_status (c : Z) : Prop :=
  served_status c \/ c = StatusInternalServerError.

(** What a 200 response of [ServeContent] looks like, given the writer [w]
    it started from: the whole content as the body (nothing for HEAD), and
    the headers of [w] apart from the two [send] sets. *)
Definition full_response (r : Request) (content : string)
  (w w' : ResponseWriter) : Prop :=
  Code w' = Some StatusOK
  /\ Body w' = (if String.eqb (Method r) "HEAD" then EmptyString else content)
  /\ (forall k, k <> "Accept-Ranges" -> k <> "Content-Length" ->
      Hdr w' !! k = Hdr w !! k).

End http.

(** ** [internal/web/handler.go] *)

Module web.

Import http.

(** What one invocation does to the process around it: a line handed to the
    logger, a call of [os.Open], the deferred [file.Close()]. *)
Inductive Event : Type :=
| EvLog (line : string)
| EvOpen (path : string)
| EvClose (path : string).

(** The closure [NewMediaHandler(mediaDir)] applied to [w] and [r]; [tr] is
    the trace of the process so far.  The source names the joined path
    [filepath]; it is [fpath] here. *)
Definition NewMediaHandler (W : World) (mediaDir : string)
  (w : ResponseWriter) (r : Request) (tr : list Event)
  : ResponseWriter * list Event :=
let filename := Str.TrimPrefix (URLPath r) "/media/" in
let fpath := filepath.Join [mediaDir; filename] in
let tr := (tr ++ [EvLog ("Request for file: " +:+ fpath)])%list in
let tr := (tr ++ [EvOpen fpath])%list in
match os_Open W fpath with
| inl err => (NotFound w, tr)
| inr file =>
    let extension := filepath.Ext filename in
    let mimeType := TypeByExtension W extension in
    let mimeType := if Str.is_empty mimeType
                    then "application/octet-stream" else mimeType in
    let w := Header_Set "Content-Type" mimeType w in
    let modtime := Handle_ModTime file in
    let w := match file with
             | Regular f => ServeContent W w r filename modtime (Data f)
             | Directory d => ServeContentDir W w r filename modtime d
             end in
    (w, (tr ++ [EvClose fpath])%list)
end.

(** The response to one request on a fresh response writer. *)
Definition respond (W : World) (mediaDir : string) (r : Request) : ResponseWriter :=
fst (NewMediaHandler W mediaDir NewRecorder r []).

(** A server answering the requests one after the other, each on a fresh
    response writer, the trace of the process running through.  Each request
    comes with the boundary the multipart writer draws while it is
    answered. *)
Fixpoint serve_all (W : World) (mediaDir : string) (rs : list (string * Request))
  (tr : list Event) : list ResponseWriter * list Event :=
match rs with
| [] => ([], tr)
| (boundary, r) :: rs' =>
    let '(w, tr) :=
      NewMediaHandler (with_boundary boundary W) mediaDir NewRecorder r tr in
    let '(ws, tr) := serve_all W mediaDir rs' tr in
    (w :: ws, tr)
end.

(** The number of file handles open after a trace that started with [n]
    of them: a successful [os.Open] adds one, a [Close] takes one away. *)
Fixpoint open_handles (W : World) (tr : list Event) (n : nat) : nat :=
match tr with
| [] => n
| EvOpen p :: tr' =>
    match os_Open W p with
    | inr _ => open_handles W tr' (S n)
    | inl _ => open_handles W tr' n
    end
| EvClose _ :: tr' => open_handles W tr' (Nat.pred n)
| EvLog _ :: tr' => open_handles W tr' n
end.

(** [p] is [root] or lies below it. *)
Definition is_descendant (root p : string) : bool :=
String.eqb p root || Str.HasPrefix p (root +:+ "/").

(** The path has a [..] element. *)
Definition has_dotdot (p : string) : bool :=
existsb (String.eqb "..") (Str.Split "/"%char p).

End web.

(** ** [cmd/server/main.go] *)

Module server.

(** The process as [main] finds it: the flags given on the command line
    (what [flag.Parse] stores, by flag name), the environment, the working
    directory ([None] when [os.Getwd] fails), and what
    [http.ListenAndServe(addr, nil)] does: it returns an error, whose text
    is given (the address cannot be bound, say), or it goes on serving
    ([None]). *)
Record Process : Type := mkProcess {
  CommandLine : gmap string string;
  Environ : gmap string string;
  Getwd : option string;
  ListenAndServe : string -> option string
}.

(** [flag.String(name, value, usage)] after [flag.Parse()]: the value given
    on the command line, [value] when the flag is not given. *)
Definition flag_String (P : Process) (name value : string) : string :=
default value (CommandLine P !! name).

(** [os.Getenv(key)]: the empty string when the variable is not set. *)
Definition os_Getenv (P : Process) (key : string) : string :=
default EmptyString (Environ P !! key).

(** The values of [*port] and [*mediaDir] after line 25. *)
Definition settings (P : Process) : string * string :=
let port := flag_String P "port" "8080" in
let mediaDir := flag_String P "mediadir" "./media" in
let envPort := os_Getenv P "SERVER_PORT" in
let port := if negb (Str.is_empty envPort) then envPort else port in
let envMediaDir := os_Getenv P "MEDIA_DIR" in
let mediaDir := if negb (Str.is_empty envMediaDir) then envMediaDir else mediaDir in
(port, mediaDir).

(** How [main] goes on: a fatal log line, or the handler for [root]
    registered under [pattern] and a listener serving on [addr].  The line
    of [log.Fatalf] on line 30 is given without the text of the error of
    [os.Getwd] that follows it; the line of [log.Fatal] on line 36 is the
    error [http.ListenAndServe] returned. *)
Inductive Outcome : Type :=
| Fatal (msg : string)
| Serving (pattern root addr : string).

Definition main (P : Process) : Outcome :=
let '(port, mediaDir) := settings P in
match filepath.Abs (Getwd P) mediaDir with
| None => Fatal "Error getting absolute path for media directory"
| Some absMediaDir =>
    match ListenAndServe P (":" +:+ port) with
    | Some err => Fatal err
    | None => Serving "/media/" absMediaDir (":" +:+ port)
    end
end.

(** The process with the variable [key] removed from its environment. *)
Definition unsetenv (key : string) (P : Process) : Process :=
mkProcess (CommandLine P) (delete key (Environ P)) (Getwd P) (ListenAndServe P).

End server.

(** ** A concrete world

    Used where a statement needs closed inputs: the built-in table of
    [mime.TypeByExtension], HTTP dates in the preferred form
    [Mon, 02 Jan 2006 15:04:05 GMT] only, a fixed multipart boundary, and a
    file system given as a list of regular files. *)

Module sample.

Definition builtinTypes : list (string * string) :=
[ (".avif", "image/avif");
  (".css", "text/css; charset=utf-8");
  (".gif", "image/gif");
  (".htm", "text/html; charset=utf-8");
  (".html", "text/html; charset=utf-8");
  (".jpeg", "image/jpeg");
  (".jpg", "image/jpeg");
  (".js", "text/javascript; charset=utf-8");
  (".json", "application/json");
  (".mjs", "text/javascript; charset=utf-8");
  (".pdf", "application/pdf");
  (".png", "image/png");
  (".svg", "image/svg+xml");
  (".txt", "text/plain; charset=utf-8");
  (".wasm", "application/wasm");
  (".webp", "image/webp");
  (".xml", "text/xml; charset=utf-8") ].

Fixpoint assoc (l : list (string * string)) (k : string) : option string :=
match l with
| [] => None
| (k', v) :: l' => if String.eqb k k' then Some v else assoc l' k
end.

Definition typeByExtension (ext : string) : string :=
default EmptyString (assoc builtinTypes ext).

Definition dayNames : list string :=
["Sun"; "Mon"; "Tue"; "Wed"; "Thu"; "Fri"; "Sat"].

Definition monthNames : list string :=
["Jan"; "Feb"; "Mar"; "Apr"; "May"; "Jun";
 "Jul"; "Aug"; "Sep"; "Oct"; "Nov"; "Dec"].

(** Days since the Unix epoch of a civil date (proleptic Gregorian). *)
Definition days_from_civil (y m d : Z) : Z :=
let y := if m <=? 2 then y - 1 else y in
let era := y / 400 in
let yoe := y - era * 400 in
let doy := (153 * (if 2 <? m then m - 3 else m + 9) + 2) / 5 + d - 1 in
let doe := yoe * 365 + yoe / 4 - yoe / 100 + doy in
era * 146097 + doe - 719468.

(** The civil date (year, month, day) of a day number. *)
Definition civil_from_days (z : Z) : Z * Z * Z :=
let z := z + 719468 in
let era := z / 146097 in
let doe := z - era * 146097 in
let yoe := (doe - doe / 1460 + doe / 36524 - doe / 146096) / 365 in
let doy := doe - (365 * yoe + yoe / 4 - yoe / 100) in
let mp := (5 * doy + 2) / 153 in
let d := doy - (153 * mp + 2) / 5 + 1 in
let m := if mp <? 10 then mp + 3 else mp - 9 in
((if m <=? 2 then yoe + era * 400 + 1 else yoe + era * 400), m, d).

Fixpoint pad (width : nat) (s : string) : string :=
match width with
| O => s
| S width' => if Nat.ltb (String.length s) width then pad width' ("0" +:+ s) else s
end.

Definition digits (width : nat) (n : Z) : string := pad width (strconv.FormatInt n).

(** [t.UTC().Format(http.TimeFormat)]. *)
Definition formatTime (t : Time) : string :=
let days := time.sec t / 86400 in
let secs := time.sec t mod 86400 in
let '(y, m, d) := civil_from_days days in
nth (Z.to_nat ((days + 4) mod 7)) dayNames EmptyString +:+ ", "
+:+ digits 2 d +:+ " "
+:+ nth (Z.to_nat (m - 1)) monthNames EmptyString +:+ " "
+:+ digits 4 y +:+ " "
+:+ digits 2 (secs / 3600) +:+ ":" +:+ digits 2 (secs / 60 mod 60)
+:+ ":" +:+ digits 2 (secs mod 60) +:+ " GMT".

Fixpoint index_of (l : list string) (s : string) (i : Z) : option Z :=
match l with
| [] => None
| x :: l' => if String.eqb x s then Some i else index_of l' s (i + 1)
end.

Definition fixed_number (s : string) : option Z :=
if Str.is_empty s then None else strconv.parse_digits s 0.

Definition days_in (y m : Z) : Z :=
days_from_civil (if m =? 12 then y + 1 else y) (if m =? 12 then 1 else m + 1) 1
- days_from_civil y m 1.

(** An HTTP date in the preferred form; every other spelling is refused. *)
Definition parseTime (s : string) : option Time :=
let field (a n : Z) := String.substring (Z.to_nat a) (Z.to_nat n) s in
if negb (Nat.eqb (String.length s) 29) then None
else if negb (String.eqb (field 3 2) ", " && String.eqb (field 7 1) " "
              && String.eqb (field 11 1) " " && String.eqb (field 16 1) " "
              && String.eqb (field 19 1) ":" && String.eqb (field 22 1) ":"
              && String.eqb (field 25 4) " GMT") then None
else
  match index_of dayNames (field 0 3) 0, fixed_number (field 5 2),
        index_of monthNames (field 8 3) 1, fixed_number (field 12 4),
        fixed_number (field 17 2), fixed_number (field 20 2),
        fixed_number (field 23 2) with
  | Some _, Some d, Some m, Some y, Some hh, Some mm, Some ss =>
      if (1 <=? d) && (d <=? days_in y m) && (hh <? 24) && (mm <? 60) && (ss <? 60)
      then Some (mkTime (days_from_civil y m d * 86400 + hh * 3600 + mm * 60 + ss) 0)
      else None
  | _, _, _, _, _, _, _ => None
  end.

(** A file system holding the regular files [files] (path, file); every
    other path does not exist. *)
Fixpoint lookup_file (files : list (string * File)) (path : string)
  : Errno + Handle :=
match files with
| [] => inl ENOENT
| (p, f) :: files' =>
    if String.eqb p path then inr (Regular f) else lookup_file files' path
end.

Definition world (files : list (string * File)) : World :=
mkWorld (lookup_file files) typeByExtension (fun _ => "application/octet-stream")
  parseTime formatTime "b0undary".

(** A file system where opening fails for a different reason at each of
    three paths. *)
Definition failing_open (path : string) : Errno + Handle :=
if String.eqb path "/srv/media/private.mp4" then inl EACCES
else if String.eqb path "/srv/media/test.txt/cover.jpg" then inl ENOTDIR
else inl ENOENT.

Definition failing_world : World :=
mkWorld failing_open typeByExtension (fun _ => "application/octet-stream")
  parseTime formatTime "b0undary".

Definition GET (path : string) (headers : list (string * string)) : http.Request :=
http.mkRequest "GET" path (list_to_map headers).

(** A process started in [/opt/manofwar] with the given flags and
    environment, whose listener binds. *)
Definition process (flags env : list (string * string)) : server.Process :=
server.mkProcess (list_to_map flags) (list_to_map env) (Some "/opt/manofwar")
  (fun _ => None).

(** The same process when the port is taken. *)
Definition process_port_in_use (flags env : list (string * string))
  : server.Process :=
server.mkProcess (list_to_map flags) (list_to_map env) (Some "/opt/manofwar")
  (fun addr => Some ("listen tcp " +:+ addr +:+ ": bind: address already in use")).

(** The file of the tests: eleven bytes, last modified on 21 October 2015
    at 07:28:00 UTC and a little. *)
Definition hello : File := mkFile "Hello World" (mkTime 1445412480 250000000).

Definition media_world : World := world [("/srv/media/test.txt", hello)].

(** The same file with the Unix epoch as its modification time. *)
Definition epoch_world : World :=
world [("/srv/media/test.txt", mkFile "Hello World" time.unixEpochTime)].

(** A file system with two directories below the root: [albums] on a file
    system that positions directories (and reports 4096 as the end), [cache]
    on one that does not. *)
Definition albums : Dir := mkDir (mkTime 1445412480 0) (Some 4096) (fun _ => None).

Definition cache : Dir :=
mkDir (mkTime 1445412480 0) None (fun _ => Some "seek /srv/media/cache: invalid argument").

Definition dir_open (path : string) : Errno + Handle :=
if String.eqb path "/srv/media/albums" then inr (Directory albums)
else if String.eqb path "/srv/media/cache" then inr (Directory cache)
else if String.eqb path "/srv/media/test.txt" then inr (Regular hello)
else inl ENOENT.

Definition dir_world : World :=
mkWorld dir_open typeByExtension (fun _ => "application/octet-stream")
  parseTime formatTime "b0undary".

End sample.

(** ** Notions used to describe the handler and its tests *)

Module paths.

(** The elements of [name] that [Clean] writes when [name] has no [..]:
    the pieces between the slashes that are neither empty nor [.]. *)
Definition kept (name : string) : list string :=
List.filter (fun e => negb (Str.is_empty e || String.eqb e ".")) (Str.Split "/" name).

(** The element holds no separator. *)
Definition nosep (e : string) : bool :=
forallb (fun c => negb (filepath.IsPathSeparator c)) (list_ascii_of_string e).

(** The byte [c] occurs in [s]. *)
Definition contains (c : ascii) (s : string) : bool :=
existsb (Ascii.eqb c) (list_ascii_of_string s).

End paths.

Module ranges.

(** The range lies inside a content of [size] bytes. *)
Definition within (size : Z) (ra : http.httpRange) : bool :=
(0 <=? http.start ra) && (0 <=? http.length ra)
&& (http.start ra + http.length ra <=? size).

(** [bytes] are the bytes of [content] the range covers: [length] of them,
    after the first [start]. *)
Definition covers (content : string) (ra : http.httpRange) (bytes : string) : Prop :=
exists before after : string,
  content = before +:+ bytes +:+ after
  /\ Z.of_nat (String.length before) = http.start ra
  /\ Z.of_nat (String.length bytes) = http.length ra.

(** [body] is a [multipart/byteranges] body for [ranges] of [content]: for
    each range in turn a part made of the boundary line, the
    [Content-Range] and [Content-Type] of the part, an empty line and the
    bytes the range covers; then the closing boundary. *)
Inductive multipart (boundary ctype content : string)
  : bool -> list http.httpRange -> string -> Prop :=
| multipart_close (first : bool) :
    multipart boundary ctype content first []
      (http.CRLF +:+ "--" +:+ boundary +:+ "--" +:+ http.CRLF)
| multipart_part (first : bool) (ra : http.httpRange)
    (rest : list http.httpRange) (bytes body : string) :
    covers content ra bytes ->
    multipart boundary ctype content false rest body ->
    multipart boundary ctype content first (ra :: rest)
      (((if first then EmptyString else http.CRLF) +:+ "--" +:+ boundary
        +:+ http.CRLF
        +:+ "Content-Range: "
        +:+ http.contentRange ra (Z.of_nat (String.length content))
        +:+ http.CRLF
        +:+ "Content-Type: " +:+ ctype +:+ http.CRLF +:+ http.CRLF)
       +:+ bytes +:+ body).

End ranges.

(** The request [r] sent with the method [m]. *)
Definition with_method (m : string) (r : http.Request) : http.Request :=
http.mkRequest m (http.URLPath r) (http.Header r).

(** The world [W] with another content sniffer. *)
Definition with_sniffer (d : string -> string) (W : World) : World :=
mkWorld (os_Open W) (TypeByExtension W) d (ParseTime W) (FormatTime W) (Boundary W).

(** ** [internal/web/test/handler_test.go] *)

Module webtest.

(** The world of a test that writes the file it asks for: the library
    tables of [lib] over a file system that holds the regular files [fs],
    all of them readable; a path that is not in [fs] does not open. *)
Definition world_of (lib : World) (fs : gmap string File) : World :=
mkWorld (fun path => match fs !! path with
                     | Some f => inr (Regular f)
                     | None => inl ENOENT
                     end)
  (TypeByExtension lib) (DetectContentType lib) (ParseTime lib)
  (FormatTime lib) (Boundary lib).

(** [http.NewRequest("GET", "/media/test.txt", nil)]. *)
Definition req : http.Request := http.mkRequest "GET" "/media/test.txt" ∅.

(** [TestNewMediaHandler]: the messages handed to [t.Errorf].  [tmp] is
    [os.TempDir()]; [W] is the world the handler runs in, that is, after
    [os.MkdirAll] has made sure of the media directory, with whatever was in
    it before.  The calls that set a test up are taken to succeed (no
    [t.Fatal]); the deferred [os.RemoveAll] runs after the checks and is left
    out. *)
Definition TestNewMediaHandler (W : World) (tmp : string) : list string :=
let mediaDir := filepath.Join [tmp; "media"] in
let '(rr, _) := web.NewMediaHandler W mediaDir http.NewRecorder req [] in
if http.status rr =? http.StatusNotFound then []
else ["expected status code " +:+ strconv.FormatInt http.StatusNotFound
      +:+ ", got " +:+ strconv.FormatInt (http.status rr)].

(** [TestMediaHandler]; [lib] gives the library tables, [fs] the regular
    files there are when the test starts, and [now] is the modification time
    [ioutil.WriteFile] leaves on the test file. *)
Definition TestMediaHandler (lib : World) (tmp : string)
  (fs : gmap string File) (now : Time) : list string :=
let mediaDir := filepath.Join [tmp; "media"] in
let testFile := filepath.Join [mediaDir; "test.txt"] in
let fs := <[testFile := mkFile "Hello World" now]> fs in
let '(rr, _) :=
  web.NewMediaHandler (world_of lib fs) mediaDir http.NewRecorder req [] in
((if http.status rr =? http.StatusOK then []
  else ["expected status code " +:+ strconv.FormatInt http.StatusOK
        +:+ ", got " +:+ strconv.FormatInt (http.status rr)])
 ++ (if String.eqb (http.Header_get (http.Hdr rr) "Content-Type") "text/plain"
     then []
     else ["expected content type text/plain, got "
           +:+ http.Header_get (http.Hdr rr) "Content-Type"]))%list.

End webtest.

(** * Properties *)

(** ** Strings and paths *)

Section StrFacts.

Lemma is_empty_true (s : string) : Str.is_empty s = true <-> s = EmptyString.
Proof. destruct s; simpl; split; congruence. Qed.

Lemma is_empty_false (s : string) : Str.is_empty s = false <-> s <> EmptyString.
Proof. destruct s; simpl; split; congruence. Qed.

Lemma HasPrefix_app (p s : string) : Str.HasPrefix (p +:+ s) p = true.
Proof.
  induction p as [|c p IH]; simpl; [reflexivity|].
  rewrite Ascii.eqb_refl. exact IH.
Qed.

Lemma drop_app (p s : string) : Str.drop (String.length p) (p +:+ s) = s.
Proof. induction p as [|c p IH]; simpl; [destruct s; reflexivity | exact IH]. Qed.

(** Stripping a prefix that is there leaves the remainder. *)
Lemma TrimPrefix_app (p s : string) : Str.TrimPrefix (p +:+ s) p = s.
Proof. unfold Str.TrimPrefix. rewrite HasPrefix_app. apply drop_app. Qed.

(** Stripping a prefix that is not there changes nothing. *)
Lemma TrimPrefix_other (s p : string) :
  Str.HasPrefix s p = false -> Str.TrimPrefix s p = s.
Proof. unfold Str.TrimPrefix. intros ->. reflexivity. Qed.

(** [HasPrefix] decides being of the form [prefix +:+ rest]. *)
Lemma HasPrefix_spec (s p : string) :
  Str.HasPrefix s p = true <-> exists rest, s = p +:+ rest.
Proof.
  revert s. induction p as [|c p IH]; intros s; simpl.
  - split; [intros _; exists s; reflexivity | reflexivity].
  - destruct s as [|d s]; simpl.
    + split; [discriminate | intros [rest H]; discriminate].
    + destruct (Ascii.eqb_spec c d) as [->|Hne].
      * rewrite IH. split; intros [rest H]; exists rest; simpl in *.
        -- now rewrite H.
        -- now injection H.
      * split; [discriminate | intros [rest H]; simpl in H].
        injection H as H1 H2. now subst.
Qed.

(** Joining onto a non-empty root cleans [root/name]. *)
Lemma Join_root (root name : string) :
  root <> EmptyString ->
  filepath.Join [root; name] = filepath.Clean (root +:+ "/" +:+ name).
Proof. destruct root; [congruence | reflexivity]. Qed.

End StrFacts.

Example Clean_ex1 : filepath.Clean "/srv/media/../../etc/passwd" = "/etc/passwd".
Proof. reflexivity. Qed.
Example Clean_ex2 : filepath.Clean "a//b/./c/.." = "a/b".
Proof. reflexivity. Qed.
Example Clean_ex3 : filepath.Clean "../../a/../.." = "../../..".
Proof. reflexivity. Qed.
Example Clean_ex4 : filepath.Clean EmptyString = ".".
Proof. reflexivity. Qed.
Example Clean_ex5 : filepath.Clean "/../a/" = "/a".
Proof. reflexivity. Qed.
Example Ext_ex1 : filepath.Ext "a/b.tar.gz" = ".gz".
Proof. reflexivity. Qed.
Example Ext_ex2 : filepath.Ext "a.txt/" = EmptyString.
Proof. reflexivity. Qed.
Example Ext_ex3 : filepath.Ext "a.b/c" = EmptyString.
Proof. reflexivity. Qed.
Example ParseInt_ex1 : strconv.ParseInt "+12" = Some 12.
Proof. reflexivity. Qed.
Example ParseInt_ex2 : strconv.ParseInt "9223372036854775808" = None.
Proof. reflexivity. Qed.
Example ParseInt_ex3 : strconv.ParseInt "1_0" = None.
Proof. reflexivity. Qed.

(** ** Cleaning a path *)

Section Cleaning.

Lemma Split_nonempty sep s : Str.Split sep s <> [].
Proof.
  destruct s as [|c s]; simpl; [discriminate|].
  destruct (Ascii.eqb c sep); [discriminate|].
  destruct (Str.Split sep s); discriminate.
Qed.

Lemma Split_sep sep s :
  Str.Split sep (String sep s) = EmptyString :: Str.Split sep s.
Proof. simpl. now rewrite Ascii.eqb_refl. Qed.

(** Splitting at a separator splits the list of pieces. *)
Lemma Split_app sep a b :
  Str.Split sep (a +:+ String sep b) = (Str.Split sep a ++ Str.Split sep b)%list.
Proof.
  induction a as [|c a IH]; simpl.
  - now rewrite Ascii.eqb_refl.
  - destruct (Ascii.eqb c sep); rewrite IH; [reflexivity|].
    pose proof (Split_nonempty sep a) as Hne.
    destruct (Str.Split sep a); [congruence | reflexivity].
Qed.

Lemma plain_Split e : filepath.plain e = true -> Str.Split "/" e = [e].
Proof.
  unfold filepath.plain. rewrite !andb_true_iff. intros (_ & H). clear -H.
  induction e as [|c e IH]; simpl in *; [reflexivity|].
  apply andb_true_iff in H as [Hc He]. unfold filepath.IsPathSeparator in Hc.
  apply negb_true_iff in Hc. unfold filepath.Separator in Hc. rewrite Hc.
  now rewrite (IH He).
Qed.

(** The pieces of a joined list of plain elements are the elements. *)
Lemma Split_Join elems :
  elems <> [] -> forallb filepath.plain elems = true ->
  Str.Split "/" (Str.Join elems "/") = elems.
Proof.
  induction elems as [|e [|e' elems] IH]; intros Hne Hp; [congruence| |].
  - simpl in *. apply andb_true_iff in Hp as [Hp _]. now apply plain_Split.
  - change (Str.Join (e :: e' :: elems) "/")
      with (e +:+ String "/" (Str.Join (e' :: elems) "/")).
    rewrite Split_app.
    simpl in Hp. apply andb_true_iff in Hp as [He Hp].
    rewrite (plain_Split e He), IH; [reflexivity | discriminate | exact Hp].
Qed.

Lemma append_assoc (a b c : string) : (a +:+ b) +:+ c = a +:+ (b +:+ c).
Proof.
  induction a as [|x a IH]; [reflexivity|].
  change (String x ((a +:+ b) +:+ c) = String x (a +:+ (b +:+ c))).
  now rewrite IH.
Qed.

Lemma Join_cons (e : string) (es : list string) :
  es <> [] -> Str.Join (e :: es) "/" = e +:+ String "/" (Str.Join es "/").
Proof. destruct es; [congruence | reflexivity]. Qed.

Lemma Join_app (xs ys : list string) :
  xs <> [] -> ys <> [] ->
  Str.Join (xs ++ ys) "/" = Str.Join xs "/" +:+ String "/" (Str.Join ys "/").
Proof.
  intros Hx Hy. induction xs as [|x xs IH]; [congruence|].
  destruct xs as [|x' xs].
  - simpl app. now rewrite Join_cons.
  - rewrite <- app_comm_cons, Join_cons by discriminate.
    rewrite IH by discriminate.
    rewrite (Join_cons x (x' :: xs)) by discriminate.
    rewrite append_assoc. reflexivity.
Qed.

(** Plain elements are written one after the other. *)
Lemma clean_push rooted elems out :
  forallb filepath.plain elems = true ->
  fold_left (filepath.clean_step rooted) elems out = (rev elems ++ out)%list.
Proof.
  revert out. induction elems as [|e elems IH]; intros out Hp; [reflexivity|].
  simpl in Hp. apply andb_true_iff in Hp as [He Hp]. simpl.
  rewrite <- app_assoc. simpl. rewrite <- (IH _ Hp). f_equal.
  unfold filepath.plain in He. rewrite !andb_true_iff, !negb_true_iff in He.
  destruct He as (((H1 & H2) & H3) & _).
  unfold filepath.clean_step. now rewrite H1, H2, H3.
Qed.

(** [..] after a plain element removes it. *)
Lemma clean_step_dotdot rooted e out :
  filepath.plain e = true -> filepath.clean_step rooted (e :: out) ".." = out.
Proof.
  intros He.
  unfold filepath.plain in He. rewrite !andb_true_iff, !negb_true_iff in He.
  destruct He as (((_ & _) & H3) & _).
  unfold filepath.clean_step.
  change (Str.is_empty ".." || String.eqb ".." ".") with false.
  change (String.eqb ".." "..") with true. cbv iota. now rewrite H3.
Qed.

(** As many [..] as there are plain elements written remove them all. *)
Lemma clean_pop rooted st out :
  forallb filepath.plain st = true ->
  fold_left (filepath.clean_step rooted) (repeat ".." (List.length st))
    (st ++ out)%list = out.
Proof.
  induction st as [|e st IH]; intros Hp; [reflexivity|].
  apply andb_true_iff in Hp as [He Hp].
  change (fold_left (filepath.clean_step rooted) (repeat ".." (List.length st))
            (filepath.clean_step rooted (e :: st ++ out) "..") = out).
  rewrite (clean_step_dotdot rooted e _ He). now apply IH.
Qed.

Lemma forallb_rev (p : string -> bool) l : forallb p (rev l) = forallb p l.
Proof.
  induction l as [|x l IH]; [reflexivity|]. simpl.
  rewrite forallb_app, IH. simpl. rewrite andb_true_r. apply andb_comm.
Qed.

Lemma Split_dots (n : nat) :
  n <> O -> Str.Split "/" (Str.Join (repeat ".." n) "/") = repeat ".." n.
Proof.
  intros Hn. induction n as [|[|n] IH]; [congruence | reflexivity |].
  change (repeat ".." (S (S n))) with (".." :: repeat ".." (S n)).
  rewrite Join_cons by discriminate.
  rewrite Split_app, IH by discriminate. reflexivity.
Qed.

(** Cleaning a rooted path: the elements left by the loop, under the
    root. *)
Lemma Clean_rooted (s : string) :
  filepath.Clean (String "/" s)
  = "/" +:+ Str.Join (rev (fold_left (filepath.clean_step true)
                             (Str.Split "/" (String "/" s)) [])) "/".
Proof. reflexivity. Qed.

(** Climbing out of a rooted directory: as many [..] as the directory has
    elements lead to the root, whatever follows is resolved from there. *)
Lemma Join_climbs (elems ys : list string) :
  elems <> [] -> ys <> [] ->
  forallb filepath.plain elems = true -> forallb filepath.plain ys = true ->
  filepath.Join [filepath.rooted elems;
                 Str.Join (repeat ".." (List.length elems) ++ ys) "/"]
  = filepath.rooted ys.
Proof.
  intros He Hy Hpe Hpy.
  assert (Hd : repeat ".." (List.length elems) <> [])
    by (destruct elems; [congruence|discriminate]).
  rewrite Join_root by discriminate.
  rewrite Join_app by assumption.
  change (filepath.rooted elems +:+ "/"
          +:+ Str.Join (repeat ".." (List.length elems)) "/"
          +:+ String "/" (Str.Join ys "/"))
    with (String "/" (Str.Join elems "/" +:+ String "/"
            (Str.Join (repeat ".." (List.length elems)) "/"
             +:+ String "/" (Str.Join ys "/")))).
  rewrite Clean_rooted, Split_sep.
  rewrite !Split_app, (Split_Join elems He Hpe), (Split_Join ys Hy Hpy).
  rewrite (Split_dots (List.length elems)) by (destruct elems; [congruence|discriminate]).
  change (fold_left (filepath.clean_step true) (EmptyString :: ?l) [])
    with (fold_left (filepath.clean_step true) l []).
  rewrite !fold_left_app.
  rewrite (clean_push true elems [] Hpe), app_nil_r.
  rewrite <- (length_rev elems).
  rewrite <- (app_nil_r (rev elems)) at 2.
  rewrite clean_pop by now rewrite forallb_rev.
  rewrite (clean_push true ys [] Hpy), app_nil_r, rev_involutive.
  reflexivity.
Qed.

(** The request path that climbs out of a directory of [n] elements and
    goes down [ys] has a [..] element. *)
Lemma climbing_has_dotdot (n : nat) (ys : list string) :
  n <> O -> ys <> [] -> forallb filepath.plain ys = true ->
  web.has_dotdot ("/media/" +:+ Str.Join (repeat ".." n ++ ys) "/") = true.
Proof.
  intros Hn Hy Hp. unfold web.has_dotdot.
  change ("/media/" +:+ ?s) with (String "/" ("media" +:+ String "/" s)).
  rewrite Split_sep, Split_app, Join_app
    by (assumption || (destruct n; [congruence | discriminate])).
  rewrite Split_app, (Split_dots n Hn).
  destruct n as [|n]; [congruence|]. reflexivity.
Qed.

(** Two rooted paths that part at their first element: neither is below
    the other. *)
Lemma rooted_not_descendant (elems ys : list string) :
  elems <> [] -> ys <> [] ->
  forallb filepath.plain elems = true -> forallb filepath.plain ys = true ->
  head ys <> head elems ->
  web.is_descendant (filepath.rooted elems) (filepath.rooted ys) = false.
Proof.
  intros He Hy Hpe Hpy Hh. unfold web.is_descendant.
  apply orb_false_iff. split.
  - apply String.eqb_neq. intros Heq. apply Hh.
    unfold filepath.rooted in Heq.
    change (String "/" (Str.Join ys "/") = String "/" (Str.Join elems "/")) in Heq.
    injection Heq as Heq.
    apply (f_equal (Str.Split "/")) in Heq.
    rewrite !Split_Join in Heq by assumption. now subst.
  - destruct (Str.HasPrefix _ _) eqn:E; [|reflexivity]. exfalso. apply Hh.
    apply HasPrefix_spec in E as [rest Heq].
    unfold filepath.rooted in Heq.
    change (String "/" (Str.Join ys "/")
            = String "/" ((Str.Join elems "/" +:+ "/") +:+ rest)) in Heq.
    injection Heq as Heq. rewrite append_assoc in Heq.
    change ("/" +:+ rest) with (String "/" rest) in Heq.
    apply (f_equal (Str.Split "/")) in Heq.
    rewrite Split_app, !Split_Join in Heq by assumption.
    subst ys. destruct elems; [congruence | reflexivity].
Qed.

End Cleaning.

(** ** Response writers *)

Section Writer.

Import http.

Variables (w : ResponseWriter) (key value : string) (code : Z).

Lemma Code_Header_Set : Code (Header_Set key value w) = Code w.
Proof. reflexivity. Qed.

Lemma Code_Header_Del : Code (Header_Del key w) = Code w.
Proof. reflexivity. Qed.

Lemma Body_Header_Set : Body (Header_Set key value w) = Body w.
Proof. reflexivity. Qed.

Lemma Body_Header_Del : Body (Header_Del key w) = Body w.
Proof. reflexivity. Qed.

Lemma Hdr_Header_Set : Hdr (Header_Set key value w) = <[key := value]> (Hdr w).
Proof. reflexivity. Qed.

Lemma Hdr_Header_Del : Hdr (Header_Del key w) = delete key (Hdr w).
Proof. reflexivity. Qed.

Lemma Hdr_WriteHeader : Hdr (WriteHeader code w) = Hdr w.
Proof. unfold WriteHeader. destruct (Code w); reflexivity. Qed.

Lemma Body_WriteHeader : Body (WriteHeader code w) = Body w.
Proof. unfold WriteHeader. destruct (Code w); reflexivity. Qed.

(** The first [WriteHeader] fixes the status. *)
Lemma Code_WriteHeader_fresh : Code w = None -> Code (WriteHeader code w) = Some code.
Proof. unfold WriteHeader. intros ->. reflexivity. Qed.

Lemma Code_WriteHeader_written c : Code w = Some c -> WriteHeader code w = w.
Proof. unfold WriteHeader. intros ->. reflexivity. Qed.

Lemma Hdr_Write data : Hdr (Write data w) = Hdr w.
Proof. unfold Write, WriteHeader. destruct (Code w); reflexivity. Qed.

Lemma Code_Write_written data c : Code w = Some c -> Code (Write data w) = Some c.
Proof. intros H. unfold Write, WriteHeader. rewrite H. simpl. exact H. Qed.

Lemma Body_Write data : Body (Write data w) = Body w +:+ data.
Proof. unfold Write, WriteHeader. destruct (Code w); reflexivity. Qed.

End Writer.

Create Rewrite HintDb writer.

#[local] Hint Rewrite Code_Header_Set Code_Header_Del Body_Header_Set
  Body_Header_Del Hdr_Header_Set Hdr_Header_Del Hdr_WriteHeader
  Body_WriteHeader Hdr_Write Body_Write : writer.

Section Responses.

Import http.

(** [Error] on a writer whose header is not written yet: the status is
    [code], the body grows by the message and a line feed. *)
Lemma Error_fresh (msg : string) (code : Z) (w : ResponseWriter) :
  Code w = None ->
  Code (Error msg code w) = Some code
  /\ Body (Error msg code w) = Body w +:+ (msg +:+ LF)
  /\ Hdr (Error msg code w) !! "Content-Type" = Some "text/plain; charset=utf-8".
Proof.
  intros Hc. unfold Error. split; [|split].
  - erewrite Code_Write_written; [reflexivity|].
    apply Code_WriteHeader_fresh. exact Hc.
  - autorewrite with writer. reflexivity.
  - autorewrite with writer.
    rewrite lookup_insert_ne by discriminate. apply lookup_insert_eq.
Qed.

(** [serveError] on a writer whose header is not written yet. *)
Lemma serveError_fresh (msg : string) (code : Z) (w : ResponseWriter) :
  Code w = None ->
  Code (serveError msg code w) = Some code
  /\ Body (serveError msg code w) = Body w +:+ (msg +:+ LF)
  /\ Hdr (serveError msg code w) !! "Content-Type" = Some "text/plain; charset=utf-8".
Proof.
  intros Hc. unfold serveError. cbv zeta.
  set (w' := Header_Del "Last-Modified" _).
  destruct (Error_fresh msg code w' Hc) as (H1 & H2 & H3).
  split; [exact H1 | split; [exact H2 | exact H3]].
Qed.

(** [send] on a writer whose header is not written yet. *)
Lemma send_fresh (r : Request) (code n : Z) (body : string) (ranged : bool)
  (w : ResponseWriter) :
  Code w = None ->
  Code (send r code n body ranged w) = Some code
  /\ Body (send r code n body ranged w)
     = (if String.eqb (Method r) "HEAD" then Body w else Body w +:+ body)
  /\ (forall k, k <> "Accept-Ranges" -> k <> "Content-Length" ->
      Hdr (send r code n body ranged w) !! k = Hdr w !! k).
Proof.
  intros Hc. unfold send.
  set (w1 := Header_Set "Accept-Ranges" "bytes" w).
  set (w2 := if ranged || Str.is_empty (Header_get (Hdr w1) "Content-Encoding")
             then Header_Set "Content-Length" (strconv.FormatInt n) w1 else w1).
  assert (Hc2 : Code w2 = None) by (subst w2 w1; destruct (_ || _); exact Hc).
  assert (Hb2 : Body w2 = Body w) by (subst w2 w1; destruct (_ || _); reflexivity).
  assert (Hh2 : forall k, k <> "Accept-Ranges" -> k <> "Content-Length" ->
                Hdr w2 !! k = Hdr w !! k).
  { intros k H1 H2. subst w2 w1. destruct (_ || _); simpl;
      rewrite ?lookup_insert_ne by congruence; reflexivity. }
  pose proof (Code_WriteHeader_fresh w2 code Hc2) as Hc3.
  destruct (String.eqb (Method r) "HEAD").
  - split; [exact Hc3|]. split; [now rewrite Body_WriteHeader|].
    intros k H1 H2. rewrite Hdr_WriteHeader. now apply Hh2.
  - split; [now apply Code_Write_written|].
    split; [now rewrite Body_Write, Body_WriteHeader, Hb2|].
    intros k H1 H2. rewrite Hdr_Write, Hdr_WriteHeader. now apply Hh2.
Qed.

End Responses.

(** ** Entity-tag lists: the loop ends *)

Section EntityTags.

Import http.

Lemma trim_left_length s : (String.length (textproto.trim_left s) <= String.length s)%nat.
Proof.
  induction s as [|c s IH]; simpl; [lia|].
  destruct (textproto.isASCIISpace c); simpl; lia.
Qed.

Lemma trim_right_length s : (String.length (textproto.trim_right s) <= String.length s)%nat.
Proof.
  induction s as [|c s IH]; simpl; [lia|].
  destruct (textproto.trim_right s); [destruct (textproto.isASCIISpace c)|];
    simpl in *; lia.
Qed.

Lemma TrimString_length s : (String.length (textproto.TrimString s) <= String.length s)%nat.
Proof.
  unfold textproto.TrimString.
  pose proof (trim_right_length (textproto.trim_left s)).
  pose proof (trim_left_length s). lia.
Qed.

Lemma drop_length n s : (String.length (Str.drop n s) <= String.length s)%nat.
Proof.
  revert s. induction n as [|n IH]; intros [|c s]; simpl; try lia.
  specialize (IH s). lia.
Qed.

Lemma scan_quoted_length s tag remain :
  scan_quoted s = Some (tag, remain) -> (String.length remain < String.length s)%nat.
Proof.
  revert tag. induction s as [|c s IH]; intros tag; simpl; [discriminate|].
  destruct (etag_char c).
  - destruct (scan_quoted s) as [[t r]|]; [|discriminate].
    intros [= _ <-]. specialize (IH t eq_refl). lia.
  - destruct (Ascii.eqb c dquote); [|discriminate]. intros [= _ <-]. lia.
Qed.

Lemma scan_opaque_length q tag remain :
  scan_opaque q = Some (tag, remain) -> (String.length remain < String.length q)%nat.
Proof.
  destruct q as [|c [|d q]]; try discriminate. unfold scan_opaque.
  destruct (Ascii.eqb c dquote); [|discriminate].
  destruct (scan_quoted (String d q)) as [[t r]|] eqn:E; [|discriminate].
  intros [= _ <-]. apply scan_quoted_length in E.
  change (String.length (String c (String d q)))
    with (S (String.length (String d q))). lia.
Qed.

(** A tag that was scanned leaves less than there was. *)
Lemma scanETag_length s :
  Str.is_empty (fst (scanETag s)) = false ->
  (String.length (snd (scanETag s)) < String.length s)%nat.
Proof.
  unfold scanETag.
  pose proof (TrimString_length s) as Ht.
  pose proof (drop_length 2 (textproto.TrimString s)) as Hd.
  destruct (scan_opaque _) as [[tag remain]|] eqn:E; [|discriminate].
  intros _. apply scan_opaque_length in E. simpl snd.
  destruct (Str.HasPrefix (textproto.TrimString s) "W/"); lia.
Qed.

(** The rounds given to [etag_list_matches] by [checkIfMatch] and
    [checkIfNoneMatch] are enough: more fuel changes nothing. *)
Lemma etag_list_matches_fuel weak have :
  forall n m list,
    (String.length list < n)%nat -> (String.length list < m)%nat ->
    etag_list_matches n weak have list = etag_list_matches m weak have list.
Proof.
  induction n as [|n IH]; intros [|m] list Hn Hm; try lia.
  simpl.
  pose proof (TrimString_length list) as Ht.
  destruct (textproto.TrimString list) as [|c rest] eqn:E; [reflexivity|].
  simpl in Ht.
  destruct (Ascii.eqb c ","); [apply IH; lia|].
  destruct (Ascii.eqb c "*"); [reflexivity|].
  pose proof (scanETag_length (String c rest)) as Hs.
  destruct (scanETag (String c rest)) as [etag remain]. simpl in Hs.
  destruct (Str.is_empty etag); [reflexivity|].
  specialize (Hs eq_refl). simpl in Hs.
  destruct (if weak then _ else _); [reflexivity|].
  apply IH; lia.
Qed.

End EntityTags.

(** ** [ServeContent] *)

Section Serving.

Import http.

Variable W : World.

Lemma isZeroTime_setLastModified modtime w :
  Code (setLastModified W modtime w) = Code w
  /\ Body (setLastModified W modtime w) = Body w
  /\ (forall k, k <> "Last-Modified" ->
      Hdr (setLastModified W modtime w) !! k = Hdr w !! k).
Proof.
  unfold setLastModified. destruct (isZeroTime modtime); simpl; repeat split; auto.
  intros k Hk. now rewrite lookup_insert_ne.
Qed.

Lemma writeNotModified_fresh w :
  Code w = None ->
  Code (writeNotModified w) = Some StatusNotModified
  /\ Body (writeNotModified w) = Body w.
Proof.
  intros Hc. unfold writeNotModified.
  destruct (Str.is_empty _); (split; [apply Code_WriteHeader_fresh; exact Hc|]);
    now rewrite Body_WriteHeader.
Qed.

(** The three ways out of [checkPreconditions]: 412, 304, or go on with the
    writer untouched. *)
Lemma checkPreconditions_cases w r modtime :
  Code w = None ->
  match checkPreconditions W w r modtime with
  | (w1, true, _) =>
      (Code w1 = Some StatusPreconditionFailed \/ Code w1 = Some StatusNotModified)
      /\ Body w1 = Body w
  | (w1, false, _) => w1 = w
  end.
Proof.
  intros Hc.
  pose proof (writeNotModified_fresh w Hc) as [Hn1 Hn2].
  pose proof (Code_WriteHeader_fresh w StatusPreconditionFailed Hc) as Hp1.
  pose proof (Body_WriteHeader w StatusPreconditionFailed) as Hp2.
  unfold checkPreconditions.
  destruct (checkIfMatch w r); [destruct (checkIfUnmodifiedSince W r modtime)| |];
    try (split; [left; exact Hp1 | exact Hp2]);
    (destruct (checkIfNoneMatch w r);
     [ destruct (checkIfModifiedSince W r modtime);
       try (split; [right; exact Hn1 | exact Hn2])
     |
     | destruct (is_GET_or_HEAD r);
       [split; [right; exact Hn1 | exact Hn2]
       |split; [left; exact Hp1 | exact Hp2]] ]);
    destruct (Str.is_empty _); try reflexivity;
    destruct (checkIfRange W w r modtime); reflexivity.
Qed.

(** The writer [checkPreconditions] returns: untouched, or with the header
    written as 412, or as 304. *)
Lemma checkPreconditions_writer (w : ResponseWriter) (r : Request) (modtime : Time) :
  match checkPreconditions W w r modtime with
  | (w1, _, _) =>
      w1 = w \/ w1 = WriteHeader StatusPreconditionFailed w
      \/ w1 = writeNotModified w
  end.
Proof.
  unfold checkPreconditions.
  destruct (checkIfMatch w r); [destruct (checkIfUnmodifiedSince W r modtime)| |];
    auto;
    (destruct (checkIfNoneMatch w r);
     [ destruct (checkIfModifiedSince W r modtime); auto
     |
     | destruct (is_GET_or_HEAD r); auto ]);
    destruct (Str.is_empty _); auto;
    destruct (checkIfRange W w r modtime); auto.
Qed.

Lemma resolveContentType_writer name content w :
  Code (fst (resolveContentType W name content w)) = Code w
  /\ Body (fst (resolveContentType W name content w)) = Body w
  /\ (forall m, Hdr w !! "Content-Type" = Some m ->
      resolveContentType W name content w = (w, m)).
Proof.
  unfold resolveContentType.
  destruct (Hdr w !! "Content-Type"); repeat split; auto; congruence.
Qed.

(** [deliver] answers 200 with the whole content or 206. *)
Lemma deliver_outcome r content ctype ranges w :
  Code w = None -> Body w = EmptyString ->
  full_response r content w (deliver W r content ctype ranges w)
  \/ Code (deliver W r content ctype ranges w) = Some StatusPartialContent.
Proof.
  intros Hc Hb. unfold deliver.
  destruct (if _ <? _ then [] else ranges) as [|ra [|ra' rest]].
  - left. destruct (send_fresh r StatusOK (Z.of_nat (String.length content))
                      content false w Hc) as (H1 & H2 & H3).
    split; [exact H1|]. split; [|exact H3]. rewrite H2, Hb. reflexivity.
  - right. cbv zeta. apply send_fresh. exact Hc.
  - right. cbv zeta. apply send_fresh. exact Hc.
Qed.

(** [serveRanges] answers 200 with the whole content, 206, or 416. *)
Lemma serveRanges_outcome r content ctype rangeReq w :
  Code w = None -> Body w = EmptyString ->
  full_response r content w (serveRanges W r content ctype rangeReq w)
  \/ Code (serveRanges W r content ctype rangeReq w) = Some StatusPartialContent
  \/ Code (serveRanges W r content ctype rangeReq w)
     = Some StatusRequestedRangeNotSatisfiable.
Proof.
  intros Hc Hb. unfold serveRanges.
  destruct (parseRange rangeReq _) as [[|]|ranges].
  - right; right. now apply serveError_fresh.
  - destruct (_ =? 0).
    + destruct (deliver_outcome r content ctype [] w Hc Hb); auto.
    + right; right. now apply serveError_fresh.
  - destruct (deliver_outcome r content ctype ranges w Hc Hb); auto.
Qed.

(** On a fresh writer [ServeContent] answers with one of five statuses; 304
    and 412 come without a body, and 200 comes with the whole content
    (nothing for HEAD) and with the content type the caller has set. *)
Lemma ServeContent_outcome w r name modtime content :
  Code w = None -> Body w = EmptyString ->
  exists c, Code (ServeContent W w r name modtime content) = Some c
    /\ served_status c
    /\ (c = StatusNotModified \/ c = StatusPreconditionFailed ->
        Body (ServeContent W w r name modtime content) = EmptyString)
    /\ (c = StatusOK ->
        Body (ServeContent W w r name modtime content)
        = (if String.eqb (Method r) "HEAD" then EmptyString else content)
        /\ forall m, Hdr w !! "Content-Type" = Some m ->
           Hdr (ServeContent W w r name modtime content) !! "Content-Type" = Some m).
Proof.
  intros Hc Hb. unfold ServeContent.
  destruct (isZeroTime_setLastModified modtime w) as (Hc0 & Hb0 & Hh0).
  rewrite <- Hc0 in Hc. rewrite <- Hb0 in Hb. clear Hc0 Hb0.
  set (w0 := setLastModified W modtime w) in *.
  pose proof (checkPreconditions_cases w0 r modtime Hc) as Hpre.
  destruct (checkPreconditions W w0 r modtime) as [[w1 done] rangeReq].
  destruct done.
  { destruct Hpre as [[H|H] Hb1]; exists (default 0 (Code w1));
      rewrite H; simpl; unfold served_status;
      (split; [reflexivity|]); (split; [tauto|]);
      (split; [intros _; congruence | discriminate]). }
  subst w1.
  destruct (resolveContentType_writer name content w0) as (Hc2 & Hb2 & Hm2).
  destruct (resolveContentType W name content w0) as [w2 ctype].
  simpl in Hc2, Hb2. rewrite Hc in Hc2. rewrite Hb in Hb2.
  unfold served_status.
  destruct (serveRanges_outcome r content ctype rangeReq w2 Hc2 Hb2)
    as [(H1 & H2 & H3)|[H|H]]; eexists;
    ((split; [exact H|]) || (split; [exact H1|]));
    (split; [tauto|]); (split; [intros [?|?]; discriminate|]);
    try discriminate.
  intros _. split; [exact H2|]. intros m Hm.
  rewrite H3 by discriminate.
  rewrite <- (Hh0 "Content-Type") in Hm by discriminate.
  specialize (Hm2 m Hm). injection Hm2 as -> _. exact Hm.
Qed.

(** One satisfiable range: 206, the [Content-Range] header and the bytes of
    the range. *)
Lemma serveRanges_single r content ctype rangeReq w ra :
  parseRange rangeReq (Z.of_nat (String.length content)) = inr [ra] ->
  length ra <= Z.of_nat (String.length content) ->
  serveRanges W r content ctype rangeReq w
  = send r StatusPartialContent (length ra) (slice content ra) true
      (Header_Set "Content-Range"
         (contentRange ra (Z.of_nat (String.length content))) w).
Proof.
  intros Hp Hle. unfold serveRanges, deliver. rewrite Hp.
  unfold sumRangesSize. simpl fold_left.
  destruct (Z.ltb_spec (Z.of_nat (String.length content)) (0 + length ra));
    [lia | reflexivity].
Qed.

Lemma Compare_refl (t : Time) : time.Compare t t = 0.
Proof. unfold time.Compare. now rewrite !Z.ltb_irrefl. Qed.

(** A request without conditional headers passes [checkPreconditions]
    with its [Range] header. *)
Lemma checkPreconditions_unconditional w r modtime :
  Header_get (Header r) "If-Match" = EmptyString ->
  Header_get (Header r) "If-Unmodified-Since" = EmptyString ->
  Header_get (Header r) "If-None-Match" = EmptyString ->
  Header_get (Header r) "If-Modified-Since" = EmptyString ->
  Header_get (Header r) "If-Range" = EmptyString ->
  checkPreconditions W w r modtime = (w, false, Header_get (Header r) "Range").
Proof.
  intros H1 H2 H3 H4 H5.
  unfold checkPreconditions, checkIfMatch, checkIfUnmodifiedSince,
    checkIfNoneMatch, checkIfModifiedSince, checkIfRange.
  rewrite H1, H2, H3, H4, H5. simpl.
  destruct (is_GET_or_HEAD r); simpl;
    destruct (Str.is_empty (Header_get (Header r) "Range")); reflexivity.
Qed.

(** A GET whose [If-Modified-Since] date is not before the modification
    time (cut to the second) is answered by [checkPreconditions] with 304,
    unless an entity-tag or [If-Unmodified-Since] precondition is there, or
    the modification time is the zero time or the Unix epoch. *)
Lemma checkPreconditions_not_modified w r modtime ims t :
  Method r = "GET" ->
  Header_get (Header r) "If-Match" = EmptyString ->
  Header_get (Header r) "If-Unmodified-Since" = EmptyString ->
  Header_get (Header r) "If-None-Match" = EmptyString ->
  Header_get (Header r) "If-Modified-Since" = ims ->
  ims <> EmptyString ->
  ParseTime W ims = Some t ->
  time.Compare (time.TruncateSecond modtime) t <= 0 ->
  isZeroTime modtime = false ->
  checkPreconditions W w r modtime = (writeNotModified w, true, EmptyString).
Proof.
  intros Hm H1 H2 H3 H4 Hne Hp Hle Hz.
  unfold checkPreconditions, checkIfMatch, checkIfUnmodifiedSince,
    checkIfNoneMatch, checkIfModifiedSince, is_GET_or_HEAD.
  rewrite H1, H2, H3, H4, Hm, Hz, Hp. simpl.
  apply is_empty_false in Hne. rewrite Hne. simpl.
  apply Z.leb_le in Hle. now rewrite Hle.
Qed.

(** With a modification time that is the zero time or the Unix epoch the
    date preconditions are not looked at. *)
Lemma checkPreconditions_zero_time w r modtime :
  Header_get (Header r) "If-Match" = EmptyString ->
  Header_get (Header r) "If-None-Match" = EmptyString ->
  Header_get (Header r) "If-Range" = EmptyString ->
  isZeroTime modtime = true ->
  checkPreconditions W w r modtime = (w, false, Header_get (Header r) "Range").
Proof.
  intros H1 H3 H5 Hz.
  unfold checkPreconditions, checkIfMatch, checkIfUnmodifiedSince,
    checkIfNoneMatch, checkIfModifiedSince, checkIfRange.
  rewrite H1, H3, H5, Hz, !orb_true_r. simpl.
  destruct (is_GET_or_HEAD r); simpl;
    destruct (Str.is_empty (Header_get (Header r) "Range")); reflexivity.
Qed.

(** [ServeContent] on a fresh writer that carries a content type: what
    [checkPreconditions] answers when it is done, and else the ranges of
    the content under that type. *)
Lemma ServeContent_handler w r name modtime content m :
  Code w = None -> Hdr w !! "Content-Type" = Some m ->
  ServeContent W w r name modtime content
  = let '(w1, done, rangeReq) :=
      checkPreconditions W (setLastModified W modtime w) r modtime in
    if done then w1
    else serveRanges W r content m rangeReq (setLastModified W modtime w).
Proof.
  intros Hc Hm. unfold ServeContent.
  destruct (isZeroTime_setLastModified modtime w) as (Hc0 & _ & Hh0).
  set (w0 := setLastModified W modtime w) in *.
  assert (Hc0' : Code w0 = None) by congruence.
  pose proof (checkPreconditions_cases w0 r modtime Hc0') as Hpre.
  destruct (checkPreconditions W w0 r modtime) as [[w1 done] rangeReq].
  destruct done; [reflexivity|]. subst w1.
  destruct (resolveContentType_writer name content w0) as (_ & _ & Hr).
  rewrite (Hr m); [reflexivity|]. rewrite Hh0 by discriminate. exact Hm.
Qed.

End Serving.

(** ** [ServeContent] on a directory *)

Section Directories.

Import http.

Variable W : World.

Lemma deliverDir_outcome r d size ctype ranges w :
  Code w = None ->
  exists c, Code (deliverDir W r d size ctype ranges w) = Some c
    /\ (c = StatusOK \/ c = StatusPartialContent
        \/ c = StatusRequestedRangeNotSatisfiable).
Proof.
  intros Hc. unfold deliverDir.
  destruct (if _ <? _ then [] else ranges) as [|ra [|ra' rest]]; cbv zeta.
  - eexists; split; [apply send_fresh; exact Hc | auto].
  - destruct (DirSeek d (start ra)).
    + eexists; split; [apply serveError_fresh; exact Hc | auto].
    + eexists; split; [apply send_fresh; exact Hc | auto].
  - eexists; split; [apply send_fresh; exact Hc | auto].
Qed.

(** Past the preconditions a directory is answered with 200, 206, 416 or
    500. *)
Lemma serveDirRanges_outcome r d ctype rangeReq w :
  Code w = None ->
  exists c, Code (serveDirRanges W r d ctype rangeReq w) = Some c
    /\ (c = StatusOK \/ c = StatusPartialContent
        \/ c = StatusRequestedRangeNotSatisfiable
        \/ c = StatusInternalServerError).
Proof.
  intros Hc. unfold serveDirRanges.
  assert (Hd : forall ranges,
             exists c, Code (deliverDir W r d (default 0 (DirSize d)) ctype ranges w)
                       = Some c
               /\ (c = StatusOK \/ c = StatusPartialContent
                   \/ c = StatusRequestedRangeNotSatisfiable
                   \/ c = StatusInternalServerError)).
  { intros ranges.
    destruct (deliverDir_outcome r d (default 0 (DirSize d)) ctype ranges w Hc)
      as (c & H1 & H2).
    exists c. split; [exact H1 | tauto]. }
  destruct (DirSize d) as [size|]; simpl in Hd.
  - destruct (size <? 0).
    + eexists; split; [apply serveError_fresh; exact Hc | auto].
    + destruct (parseRange rangeReq size) as [[|]|ranges]; [| |apply Hd].
      * eexists; split; [apply serveError_fresh; exact Hc | auto].
      * destruct (size =? 0); [apply Hd|].
        eexists; split; [apply serveError_fresh; exact Hc | auto].
  - eexists; split; [apply serveError_fresh; exact Hc | auto].
Qed.

(** [ServeContent] on a directory, for a fresh writer that carries a content
    type. *)
Lemma ServeContentDir_handler w r name modtime d m :
  Code w = None -> Hdr w !! "Content-Type" = Some m ->
  ServeContentDir W w r name modtime d
  = let '(w1, done, rangeReq) :=
      checkPreconditions W (setLastModified W modtime w) r modtime in
    if done then w1
    else serveDirRanges W r d m rangeReq (setLastModified W modtime w).
Proof.
  intros Hc Hm. unfold ServeContentDir.
  destruct (isZeroTime_setLastModified W modtime w) as (Hc0 & _ & Hh0).
  set (w0 := setLastModified W modtime w) in *.
  assert (Hc0' : Code w0 = None) by congruence.
  pose proof (checkPreconditions_cases W w0 r modtime Hc0') as Hpre.
  destruct (checkPreconditions W w0 r modtime) as [[w1 done] rangeReq].
  destruct done; [reflexivity|]. subst w1.
  rewrite (Hh0 "Content-Type") by discriminate. now rewrite Hm.
Qed.

(** A directory is answered with one of six statuses; 404 is not among
    them. *)
Lemma ServeContentDir_outcome w r name modtime d m :
  Code w = None -> Hdr w !! "Content-Type" = Some m ->
  exists c, Code (ServeContentDir W w r name modtime d) = Some c
    /\ served_dir_status c.
Proof.
  intros Hc Hm. rewrite (ServeContentDir_handler w r name modtime d m Hc Hm).
  destruct (isZeroTime_setLastModified W modtime w) as (Hc0 & _ & _).
  set (w0 := setLastModified W modtime w) in *.
  assert (Hc0' : Code w0 = None) by congruence.
  pose proof (checkPreconditions_cases W w0 r modtime Hc0') as Hpre.
  destruct (checkPreconditions W w0 r modtime) as [[w1 done] rangeReq].
  unfold served_dir_status, served_status.
  destruct done.
  - destruct Hpre as [[H|H] _]; eexists; (split; [exact H | tauto]).
  - destruct (serveDirRanges_outcome r d m rangeReq w0 Hc0') as (c & H1 & H2).
    exists c. split; [exact H1 | tauto].
Qed.

End Directories.

(** ** The two paths of the handler *)

Section Handler.

Variable W : World.
Variable mediaDir : string.

(** The name the handler derives from the request, the path it opens and the
    content type it sets. *)
Local Abbreviation filename r := (Str.TrimPrefix (http.URLPath r) "/media/").
Local Abbreviation target r := (filepath.Join [mediaDir; filename r]).
Local Abbreviation mimeType r :=
  (if Str.is_empty (TypeByExtension W (filepath.Ext (filename r)))
   then "application/octet-stream"
   else TypeByExtension W (filepath.Ext (filename r))).

Lemma handler_open_fails w r tr e :
  os_Open W (target r) = inl e ->
  web.NewMediaHandler W mediaDir w r tr =
  (http.NotFound w,
   (tr ++ [web.EvLog ("Request for file: " +:+ target r);
           web.EvOpen (target r)])%list).
Proof.
  intros H. unfold web.NewMediaHandler. cbv zeta. rewrite H.
  rewrite <- app_assoc. reflexivity.
Qed.

Lemma handler_open_ok w r tr f :
  os_Open W (target r) = inr (Regular f) ->
  web.NewMediaHandler W mediaDir w r tr =
  (http.ServeContent W (http.Header_Set "Content-Type" (mimeType r) w) r
     (filename r) (ModTime f) (Data f),
   (tr ++ [web.EvLog ("Request for file: " +:+ target r);
           web.EvOpen (target r); web.EvClose (target r)])%list).
Proof.
  intros H. unfold web.NewMediaHandler. cbv zeta. rewrite H.
  rewrite <- !app_assoc. reflexivity.
Qed.

Lemma handler_open_dir w r tr d :
  os_Open W (target r) = inr (Directory d) ->
  web.NewMediaHandler W mediaDir w r tr =
  (http.ServeContentDir W (http.Header_Set "Content-Type" (mimeType r) w) r
     (filename r) (DirModTime d) d,
   (tr ++ [web.EvLog ("Request for file: " +:+ target r);
           web.EvOpen (target r); web.EvClose (target r)])%list).
Proof.
  intros H. unfold web.NewMediaHandler. cbv zeta. rewrite H.
  rewrite <- !app_assoc. reflexivity.
Qed.

(** Every invocation logs the target and opens it, and closes it again if
    it opened. *)
Lemma handler_trace w r tr :
  exists rest,
    snd (web.NewMediaHandler W mediaDir w r tr)
    = (tr ++ web.EvLog ("Request for file: " +:+ target r)
          :: web.EvOpen (target r) :: rest)%list
    /\ (rest = [] \/ rest = [web.EvClose (target r)]).
Proof.
  destruct (os_Open W (target r)) as [e|[f|d]] eqn:Ho.
  - rewrite (handler_open_fails w r tr e Ho). exists []. auto.
  - rewrite (handler_open_ok w r tr f Ho). eexists. eauto.
  - rewrite (handler_open_dir w r tr d Ho). eexists. eauto.
Qed.

(** The response to a request whose target is a directory, on a fresh
    writer. *)
Lemma respond_open_dir r d :
  os_Open W (target r) = inr (Directory d) ->
  web.respond W mediaDir r
  = http.ServeContentDir W
      (http.Header_Set "Content-Type" (mimeType r) http.NewRecorder) r
      (filename r) (DirModTime d) d.
Proof.
  intros Ho. unfold web.respond. now rewrite (handler_open_dir _ r [] d Ho).
Qed.

(** ... and the statuses it can have. *)
Lemma respond_dir_served r d :
  os_Open W (target r) = inr (Directory d) ->
  exists c, http.Code (web.respond W mediaDir r) = Some c
    /\ http.served_dir_status c.
Proof.
  intros Ho. rewrite (respond_open_dir r d Ho).
  eapply ServeContentDir_outcome; [reflexivity | apply lookup_insert_eq].
Qed.

(** The response to a request whose target opened, on a fresh writer. *)
Lemma respond_open_ok r f :
  os_Open W (target r) = inr (Regular f) ->
  web.respond W mediaDir r
  = http.ServeContent W
      (http.Header_Set "Content-Type" (mimeType r) http.NewRecorder) r
      (filename r) (ModTime f) (Data f).
Proof.
  intros Ho. unfold web.respond. now rewrite (handler_open_ok _ r [] f Ho).
Qed.

(** ... and what it can be. *)
Lemma respond_served r f :
  os_Open W (target r) = inr (Regular f) ->
  exists c, http.Code (web.respond W mediaDir r) = Some c
    /\ http.served_status c
    /\ (c = http.StatusNotModified \/ c = http.StatusPreconditionFailed ->
        http.Body (web.respond W mediaDir r) = EmptyString)
    /\ (c = http.StatusOK ->
        http.Body (web.respond W mediaDir r)
        = (if String.eqb (http.Method r) "HEAD" then EmptyString else Data f)
        /\ http.Hdr (web.respond W mediaDir r) !! "Content-Type"
           = Some (mimeType r)).
Proof.
  intros Ho. rewrite (respond_open_ok r f Ho).
  destruct (ServeContent_outcome W
              (http.Header_Set "Content-Type" (mimeType r) http.NewRecorder) r
              (filename r) (ModTime f) (Data f) eq_refl eq_refl)
    as (c & H1 & H2 & H3 & H4).
  exists c. split; [exact H1|]. split; [exact H2|]. split; [exact H3|].
  intros Hc. destruct (H4 Hc) as [H5 H6]. split; [exact H5|].
  apply H6. apply lookup_insert_eq.
Qed.

(** The response does not depend on what the process did before. *)
Lemma handler_response_independent w r tr :
  fst (web.NewMediaHandler W mediaDir w r tr)
  = fst (web.NewMediaHandler W mediaDir w r []).
Proof.
  destruct (os_Open W (target r)) as [e|[f|d]] eqn:Ho.
  - now rewrite !(handler_open_fails w r _ e Ho).
  - now rewrite !(handler_open_ok w r _ f Ho).
  - now rewrite !(handler_open_dir w r _ d Ho).
Qed.

Lemma open_handles_app tr1 tr2 n :
  web.open_handles W (tr1 ++ tr2)%list n
  = web.open_handles W tr2 (web.open_handles W tr1 n).
Proof.
  revert n. induction tr1 as [|[l|p|p] tr1 IH]; intros n; simpl; auto.
  destruct (os_Open W p); apply IH.
Qed.

Lemma open_handles_failed l p e n :
  os_Open W p = inl e -> web.open_handles W [web.EvLog l; web.EvOpen p] n = n.
Proof. intros H. simpl. now rewrite H. Qed.

Lemma open_handles_closed l p h n :
  os_Open W p = inr h ->
  web.open_handles W [web.EvLog l; web.EvOpen p; web.EvClose p] n = n.
Proof. intros H. simpl. now rewrite H. Qed.

(** Every invocation closes what it opened. *)
Lemma handler_closes w r tr n :
  web.open_handles W (snd (web.NewMediaHandler W mediaDir w r tr)) n
  = web.open_handles W tr n.
Proof.
  destruct (os_Open W (target r)) as [e|[f|d]] eqn:Ho.
  - rewrite (handler_open_fails w r tr e Ho). simpl snd.
    rewrite open_handles_app. now rewrite (open_handles_failed _ _ e _ Ho).
  - rewrite (handler_open_ok w r tr f Ho). simpl snd.
    rewrite open_handles_app. now rewrite (open_handles_closed _ _ _ _ Ho).
  - rewrite (handler_open_dir w r tr d Ho). simpl snd.
    rewrite open_handles_app. now rewrite (open_handles_closed _ _ _ _ Ho).
Qed.

(** The response is 404 exactly when the open fails. *)
Lemma respond_404_iff r :
  http.status (web.respond W mediaDir r) = 404
  <-> exists e, os_Open W (target r) = inl e.
Proof.
  destruct (os_Open W (target r)) as [e|[f|d]] eqn:Ho.
  - split; [eauto|]. intros _. unfold web.respond.
    rewrite (handler_open_fails _ r [] e Ho). simpl fst.
    destruct (Error_fresh "404 page not found" http.StatusNotFound
                http.NewRecorder eq_refl) as (H1 & _).
    unfold http.NotFound, http.status. now rewrite H1.
  - split; [|intros [e He]; discriminate].
    destruct (respond_served r f Ho) as (c & H1 & H2 & _).
    unfold http.status. rewrite H1. simpl. intros ->.
    unfold http.served_status in H2. repeat destruct H2 as [H2|H2]; discriminate.
  - split; [|intros [e He]; discriminate].
    destruct (respond_dir_served r d Ho) as (c & H1 & H2).
    unfold http.status. rewrite H1. simpl. intros ->.
    unfold http.served_dir_status, http.served_status in H2.
    repeat destruct H2 as [H2|H2]; discriminate.
Qed.

(** The response to a request without conditional headers whose target
    opened: the ranges of its [Range] header served from the file, under
    the content type of the request name. *)
Lemma respond_unconditional r f :
  os_Open W (target r) = inr (Regular f) ->
  http.Header_get (http.Header r) "If-Match" = EmptyString ->
  http.Header_get (http.Header r) "If-Unmodified-Since" = EmptyString ->
  http.Header_get (http.Header r) "If-None-Match" = EmptyString ->
  http.Header_get (http.Header r) "If-Modified-Since" = EmptyString ->
  http.Header_get (http.Header r) "If-Range" = EmptyString ->
  web.respond W mediaDir r
  = http.serveRanges W r (Data f) (mimeType r)
      (http.Header_get (http.Header r) "Range")
      (http.setLastModified W (ModTime f)
         (http.Header_Set "Content-Type" (mimeType r) http.NewRecorder)).
Proof.
  intros Ho H1 H2 H3 H4 H5. rewrite (respond_open_ok r f Ho).
  unfold http.ServeContent.
  rewrite (checkPreconditions_unconditional W _ r _ H1 H2 H3 H4 H5).
  set (w0 := http.setLastModified W (ModTime f) _).
  destruct (resolveContentType_writer W (filename r) (Data f) w0) as (_ & _ & Hm).
  rewrite (Hm (mimeType r)); [reflexivity|].
  subst w0.
  destruct (isZeroTime_setLastModified W (ModTime f)
              (http.Header_Set "Content-Type" (mimeType r) http.NewRecorder))
    as (_ & _ & Hh).
  rewrite Hh by discriminate. apply lookup_insert_eq.
Qed.

End Handler.

Section Runs.

Variable W : World.
Variable mediaDir : string.

Lemma open_handles_boundary (b : string) (tr : list web.Event) (n : nat) :
  web.open_handles (with_boundary b W) tr n = web.open_handles W tr n.
Proof.
  revert n. induction tr as [|[l|p|p] tr IH]; intros n; simpl; auto.
  change (os_Open (with_boundary b W) p) with (os_Open W p).
  destruct (os_Open W p); apply IH.
Qed.

(** A run of requests: the responses are those of the requests taken one
    by one, each with the boundary drawn for it, and no handle stays
    open. *)
Lemma serve_all_independent (rs : list (string * http.Request))
  (tr : list web.Event) (n : nat) :
  fst (web.serve_all W mediaDir rs tr)
  = map (fun br => web.respond (with_boundary (fst br) W) mediaDir (snd br)) rs
  /\ web.open_handles W (snd (web.serve_all W mediaDir rs tr)) n
     = web.open_handles W tr n.
Proof.
  revert tr. induction rs as [|[b r] rs IH]; intros tr; [auto|].
  cbn [web.serve_all map fst snd].
  pose proof (handler_response_independent (with_boundary b W) mediaDir
                http.NewRecorder r tr) as Hr.
  pose proof (handler_closes (with_boundary b W) mediaDir http.NewRecorder r tr n)
    as Hn.
  rewrite !open_handles_boundary in Hn.
  destruct (web.NewMediaHandler (with_boundary b W) mediaDir http.NewRecorder r tr)
    as [w1 tr1].
  specialize (IH tr1).
  destruct (web.serve_all W mediaDir rs tr1) as [ws tr2]. simpl in *.
  destruct IH as [IH1 IH2]. split; [|congruence].
  unfold web.respond at 1. now rewrite <- Hr, IH1.
Qed.

End Runs.

(** ** The claims about the handler *)

(** C2, as amended: whenever opening the resolved path fails, whatever the
    cause (the file is missing, permission is denied, or any other error of
    [os.Open]), the response is 404 Not Found and its body is the standard
    not-found message and nothing else. *)
Theorem C2_open_failure_is_404 (W : World) (mediaDir : string)
  (r : http.Request) (e : Errno) :
  os_Open W (filepath.Join [mediaDir; Str.TrimPrefix (http.URLPath r) "/media/"])
  = inl e ->
  http.status (web.respond W mediaDir r) = 404
  /\ http.Body (web.respond W mediaDir r) = "404 page not found" +:+ http.LF
  /\ http.Hdr (web.respond W mediaDir r) !! "Content-Type"
     = Some "text/plain; charset=utf-8".
Proof.
  intros Ho. unfold web.respond.
  rewrite (handler_open_fails W mediaDir _ r [] e Ho). simpl fst.
  destruct (Error_fresh "404 page not found" http.StatusNotFound
              http.NewRecorder eq_refl) as (H1 & H2 & H3).
  unfold http.NotFound, http.status. rewrite H1, H2, H3. auto.
Qed.

(** Three causes, one 404: no such file, permission denied, a path that
    runs through a regular file. *)
Lemma C2_open_failure_is_404_witness :
  (os_Open sample.failing_world
     (filepath.Join ["/srv/media"; Str.TrimPrefix "/media/nothing.mp4" "/media/"])
   = inl ENOENT
   /\ http.status (web.respond sample.failing_world "/srv/media"
                     (sample.GET "/media/nothing.mp4" [])) = 404)
  /\ (os_Open sample.failing_world
        (filepath.Join ["/srv/media"; Str.TrimPrefix "/media/private.mp4" "/media/"])
      = inl EACCES
      /\ http.status (web.respond sample.failing_world "/srv/media"
                        (sample.GET "/media/private.mp4" [])) = 404)
  /\ (os_Open sample.failing_world
        (filepath.Join
           ["/srv/media"; Str.TrimPrefix "/media/test.txt/cover.jpg" "/media/"])
      = inl ENOTDIR
      /\ http.status (web.respond sample.failing_world "/srv/media"
                        (sample.GET "/media/test.txt/cover.jpg" [])) = 404).
Proof.
  split; [|split]; (split; [reflexivity|]).
  - apply (C2_open_failure_is_404 sample.failing_world "/srv/media"
             (sample.GET "/media/nothing.mp4" []) ENOENT). reflexivity.
  - apply (C2_open_failure_is_404 sample.failing_world "/srv/media"
             (sample.GET "/media/private.mp4" []) EACCES). reflexivity.
  - apply (C2_open_failure_is_404 sample.failing_world "/srv/media"
             (sample.GET "/media/test.txt/cover.jpg" []) ENOTDIR). reflexivity.
Defined.

(** C2 as stated fails for a path that resolves to a directory: [os.Open]
    opens a directory as it opens a file, so the handler does not take the
    not-found path.  It hands the directory to [ServeContent], and the
    answer is a 200 with the headers of a file of 4096 bytes and no body
    where the file system positions directories, and a 500 where it does
    not. *)
Lemma C2_counterexample :
  (os_Open sample.dir_world
     (filepath.Join ["/srv/media"; Str.TrimPrefix "/media/albums" "/media/"])
   = inr (Directory sample.albums)
   /\ http.status (web.respond sample.dir_world "/srv/media"
                     (sample.GET "/media/albums" [])) = 200
   /\ http.Hdr (web.respond sample.dir_world "/srv/media"
                  (sample.GET "/media/albums" [])) !! "Content-Length"
      = Some "4096"
   /\ http.Body (web.respond sample.dir_world "/srv/media"
                   (sample.GET "/media/albums" [])) = EmptyString)
  /\ (os_Open sample.dir_world
        (filepath.Join ["/srv/media"; Str.TrimPrefix "/media/cache" "/media/"])
      = inr (Directory sample.cache)
      /\ http.status (web.respond sample.dir_world "/srv/media"
                        (sample.GET "/media/cache" [])) = 500
      /\ http.Body (web.respond sample.dir_world "/srv/media"
                      (sample.GET "/media/cache" []))
         = "seeker can't seek" +:+ http.LF).
Proof. repeat split; vm_compute; reflexivity. Qed.

(** C3: whatever directory other than [/] is the root, there is a request
    path with [..] elements whose resolved target is not below the root: as
    many [..] as the root has elements, then a path that parts from the
    root at its first element.  The handler checks nothing: it opens that
    target in every world, and answers 404 only if the open fails. *)
Theorem C3_traversal_escapes_root (elems : list string) :
  elems <> [] -> forallb filepath.plain elems = true ->
  exists urlPath : string,
    web.has_dotdot urlPath = true
    /\ web.is_descendant (filepath.rooted elems)
         (filepath.Join [filepath.rooted elems; Str.TrimPrefix urlPath "/media/"])
       = false
    /\ (forall W w r tr, http.URLPath r = urlPath ->
        In (web.EvOpen
              (filepath.Join
                 [filepath.rooted elems; Str.TrimPrefix urlPath "/media/"]))
           (snd (web.NewMediaHandler W (filepath.rooted elems) w r tr)))
    /\ (forall W r h, http.URLPath r = urlPath ->
        os_Open W (filepath.Join
                     [filepath.rooted elems; Str.TrimPrefix urlPath "/media/"])
        = inr h ->
        http.status (web.respond W (filepath.rooted elems) r) <> 404).
Proof.
  intros He Hp.
  set (ys := if String.eqb (hd EmptyString elems) "etc"
             then ["tmp"] else ["etc"; "passwd"]).
  assert (Hy : ys <> []) by (subst ys; destruct (String.eqb _ _); discriminate).
  assert (Hpy : forallb filepath.plain ys = true)
    by (subst ys; destruct (String.eqb _ _); reflexivity).
  assert (Hh : head ys <> head elems).
  { subst ys. destruct elems as [|e elems]; [congruence|]. simpl hd.
    destruct (String.eqb_spec e "etc") as [->|Hne]; simpl; congruence. }
  exists ("/media/" +:+ Str.Join (repeat ".." (List.length elems) ++ ys) "/").
  rewrite TrimPrefix_app, (Join_climbs elems ys He Hy Hp Hpy).
  split; [|split; [|split]].
  - apply climbing_has_dotdot; [destruct elems; [congruence|discriminate]|..];
      assumption.
  - now apply rooted_not_descendant.
  - intros W w r tr Hr.
    destruct (handler_trace W (filepath.rooted elems) w r tr) as (rest & -> & _).
    rewrite Hr, TrimPrefix_app, (Join_climbs elems ys He Hy Hp Hpy).
    apply in_or_app. right. right. left. reflexivity.
  - intros W r h Hr Ho H404.
    apply respond_404_iff in H404 as [e He'].
    rewrite Hr, TrimPrefix_app, (Join_climbs elems ys He Hy Hp Hpy) in He'.
    congruence.
Qed.

(** The root [/srv/media]. *)
Lemma C3_traversal_escapes_root_witness :
  filepath.rooted ["srv"; "media"] = "/srv/media"
  /\ exists urlPath : string,
       web.has_dotdot urlPath = true
       /\ web.is_descendant "/srv/media"
            (filepath.Join ["/srv/media"; Str.TrimPrefix urlPath "/media/"])
          = false.
Proof.
  split; [reflexivity|].
  destruct (C3_traversal_escapes_root ["srv"; "media"]) as (p & H1 & H2 & _);
    [discriminate | reflexivity |].
  exists p. split; [exact H1 | exact H2].
Defined.

(** The classic: [/media/../../etc/passwd] under the root [/srv/media] is
    [/etc/passwd], and the file is served when it is there. *)
Example traversal_serves_etc_passwd :
  web.has_dotdot "/media/../../etc/passwd" = true
  /\ filepath.Join ["/srv/media";
                    Str.TrimPrefix "/media/../../etc/passwd" "/media/"]
     = "/etc/passwd"
  /\ web.is_descendant "/srv/media" "/etc/passwd" = false
  /\ http.status
       (web.respond
          (sample.world [("/etc/passwd", mkFile "root:x:0:0" (mkTime 1445412480 0))])
          "/srv/media" (sample.GET "/media/../../etc/passwd" [])) = 200
  /\ http.Body
       (web.respond
          (sample.world [("/etc/passwd", mkFile "root:x:0:0" (mkTime 1445412480 0))])
          "/srv/media" (sample.GET "/media/../../etc/passwd" []))
     = "root:x:0:0".
Proof. repeat split; vm_compute; reflexivity. Qed.

(** What the handler does for the content type of a file that opened: it
    takes the extension of the request's file name (the URL path without
    the [/media/] prefix, not the path it opened), maps it through the
    extension-to-type table, falls back to [application/octet-stream] when
    the table has nothing, and sets [Content-Type] to the result before it
    hands the response to [ServeContent]; a 200 response carries that
    type. *)
Theorem content_type_of_request_name (W : World) (mediaDir : string)
  (w : http.ResponseWriter) (r : http.Request) (tr : list web.Event) (f : File) :
  os_Open W (filepath.Join [mediaDir; Str.TrimPrefix (http.URLPath r) "/media/"])
  = inr (Regular f) ->
  let name := Str.TrimPrefix (http.URLPath r) "/media/" in
  let byExt := TypeByExtension W (filepath.Ext name) in
  let mimeType := if Str.is_empty byExt then "application/octet-stream" else byExt in
  fst (web.NewMediaHandler W mediaDir w r tr)
  = http.ServeContent W (http.Header_Set "Content-Type" mimeType w) r name
      (ModTime f) (Data f)
  /\ http.Hdr (http.Header_Set "Content-Type" mimeType w) !! "Content-Type"
     = Some mimeType
  /\ (http.status (web.respond W mediaDir r) = 200 ->
      http.Hdr (web.respond W mediaDir r) !! "Content-Type" = Some mimeType).
Proof.
  intros Ho name byExt mimeType. subst name byExt mimeType.
  split; [|split].
  - now rewrite (handler_open_ok W mediaDir w r tr f Ho).
  - apply lookup_insert_eq.
  - intros Hs.
    destruct (respond_served W mediaDir r f Ho) as (c & H1 & _ & _ & H4).
    unfold http.status in Hs. rewrite H1 in Hs. simpl in Hs. subst c.
    apply H4. reflexivity.
Qed.

Lemma content_type_of_request_name_witness :
  os_Open sample.media_world
    (filepath.Join ["/srv/media"; Str.TrimPrefix "/media/test.txt" "/media/"])
  = inr (Regular sample.hello)
  /\ http.Hdr (web.respond sample.media_world "/srv/media"
                 (sample.GET "/media/test.txt" [])) !! "Content-Type"
     = Some "text/plain; charset=utf-8".
Proof.
  split; [reflexivity|].
  apply (content_type_of_request_name sample.media_world "/srv/media"
           http.NewRecorder (sample.GET "/media/test.txt" []) [] sample.hello
           eq_refl).
  vm_compute. reflexivity.
Defined.

(** C4 does not hold of the handler: the request [/media/test.txt/] opens
    the file [/srv/media/test.txt], whose extension [.txt] has a type in the
    table, and the file is sent with 200 as [application/octet-stream]: the
    extension is taken from the request name [test.txt/], which has none,
    and not from the file that was opened. *)
Theorem C4_type_not_from_file_extension :
  filepath.Join ["/srv/media"; Str.TrimPrefix "/media/test.txt/" "/media/"]
  = "/srv/media/test.txt"
  /\ os_Open sample.media_world "/srv/media/test.txt" = inr (Regular sample.hello)
  /\ TypeByExtension sample.media_world (filepath.Ext "/srv/media/test.txt")
     = "text/plain; charset=utf-8"
  /\ http.status (web.respond sample.media_world "/srv/media"
                    (sample.GET "/media/test.txt/" [])) = 200
  /\ http.Body (web.respond sample.media_world "/srv/media"
                  (sample.GET "/media/test.txt/" [])) = "Hello World"
  /\ http.Hdr (web.respond sample.media_world "/srv/media"
                 (sample.GET "/media/test.txt/" [])) !! "Content-Type"
     = Some "application/octet-stream"
  /\ http.Hdr (web.respond sample.media_world "/srv/media"
                 (sample.GET "/media/test.txt/" [])) !! "Content-Type"
     <> Some (TypeByExtension sample.media_world
                (filepath.Ext "/srv/media/test.txt")).
Proof. repeat split; vm_compute; (reflexivity || discriminate). Qed.

(** C9: a URL path that does not begin with [/media/] is left unchanged by
    the prefix strip and is joined onto the root as a whole; and for no
    request at all does the handler refuse the path before the open
    attempt: it always opens the joined path, and it answers 404 only when
    that open fails. *)
Theorem C9_no_path_validation (W : World) (mediaDir : string)
  (w : http.ResponseWriter) (r : http.Request) (tr : list web.Event) :
  (Str.HasPrefix (http.URLPath r) "/media/" = false ->
   Str.TrimPrefix (http.URLPath r) "/media/" = http.URLPath r
   /\ In (web.EvOpen (filepath.Join [mediaDir; http.URLPath r]))
         (snd (web.NewMediaHandler W mediaDir w r tr)))
  /\ In (web.EvOpen
           (filepath.Join [mediaDir; Str.TrimPrefix (http.URLPath r) "/media/"]))
        (snd (web.NewMediaHandler W mediaDir w r tr))
  /\ (http.status (web.respond W mediaDir r) = 404 ->
      exists e,
        os_Open W (filepath.Join
                     [mediaDir; Str.TrimPrefix (http.URLPath r) "/media/"])
        = inl e).
Proof.
  assert (Hopen : In (web.EvOpen
             (filepath.Join [mediaDir; Str.TrimPrefix (http.URLPath r) "/media/"]))
             (snd (web.NewMediaHandler W mediaDir w r tr))).
  { destruct (handler_trace W mediaDir w r tr) as (rest & -> & _).
    apply in_or_app. right. right. left. reflexivity. }
  split; [|split].
  - intros Hp. pose proof (TrimPrefix_other _ _ Hp) as Ht.
    split; [exact Ht|]. rewrite Ht in Hopen. exact Hopen.
  - exact Hopen.
  - apply respond_404_iff.
Qed.

Lemma C9_no_path_validation_witness :
  Str.HasPrefix "/videos/../test.txt" "/media/" = false
  /\ In (web.EvOpen "/srv/media/test.txt")
        (snd (web.NewMediaHandler sample.media_world "/srv/media"
                http.NewRecorder (sample.GET "/videos/../test.txt" []) []))
  /\ http.status (web.respond sample.media_world "/srv/media"
                    (sample.GET "/videos/../test.txt" [])) = 200.
Proof.
  split; [reflexivity|]. split; [|reflexivity].
  exact (proj2 (proj1 (C9_no_path_validation sample.media_world "/srv/media"
                         http.NewRecorder (sample.GET "/videos/../test.txt" []) [])
                  eq_refl)).
Defined.

(** C5: a GET with [Range: bytes=0-4] and no conditional header, for a
    file under the root holding the eleven bytes [Hello World], is answered
    with 206, the body [Hello] and [Content-Range: bytes 0-4/11]. *)
Theorem C5_range_of_hello_world (W : World) (mediaDir : string)
  (r : http.Request) (f : File) :
  http.Method r = "GET" ->
  http.Header_get (http.Header r) "Range" = "bytes=0-4" ->
  http.Header_get (http.Header r) "If-Match" = EmptyString ->
  http.Header_get (http.Header r) "If-Unmodified-Since" = EmptyString ->
  http.Header_get (http.Header r) "If-None-Match" = EmptyString ->
  http.Header_get (http.Header r) "If-Modified-Since" = EmptyString ->
  http.Header_get (http.Header r) "If-Range" = EmptyString ->
  os_Open W (filepath.Join [mediaDir; Str.TrimPrefix (http.URLPath r) "/media/"])
  = inr (Regular f) ->
  Data f = "Hello World" ->
  http.status (web.respond W mediaDir r) = 206
  /\ http.Body (web.respond W mediaDir r) = "Hello"
  /\ http.Hdr (web.respond W mediaDir r) !! "Content-Range"
     = Some "bytes 0-4/11".
Proof.
  intros Hm Hr H1 H2 H3 H4 H5 Ho Hd.
  rewrite (respond_unconditional W mediaDir r f Ho H1 H2 H3 H4 H5).
  rewrite Hr, Hd.
  set (w0 := http.setLastModified W (ModTime f) _).
  rewrite (serveRanges_single W r "Hello World" _ "bytes=0-4" w0
             (http.mkRange 0 5)) by (vm_compute; congruence).
  assert (Hc0 : http.Code w0 = None).
  { subst w0. now destruct (isZeroTime_setLastModified W (ModTime f)
      (http.Header_Set "Content-Type"
         (if Str.is_empty (TypeByExtension W (filepath.Ext
               (Str.TrimPrefix (http.URLPath r) "/media/")))
          then "application/octet-stream"
          else TypeByExtension W (filepath.Ext
                 (Str.TrimPrefix (http.URLPath r) "/media/")))
         http.NewRecorder)) as (-> & _). }
  assert (Hb0 : http.Body w0 = EmptyString).
  { subst w0. unfold http.setLastModified.
    destruct (http.isZeroTime (ModTime f)); reflexivity. }
  destruct (send_fresh r http.StatusPartialContent
              (http.length (http.mkRange 0 5))
              (http.slice "Hello World" (http.mkRange 0 5)) true
              (http.Header_Set "Content-Range"
                 (http.contentRange (http.mkRange 0 5)
                    (Z.of_nat (String.length "Hello World"))) w0) Hc0)
    as (Hc & Hb & Hh).
  unfold http.status. rewrite Hc, Hb, Hh by discriminate.
  rewrite Hm. simpl. rewrite Hb0. split; [reflexivity|]. split; [reflexivity|].
  apply lookup_insert_eq.
Qed.

(** The request of the test: nothing but the [Range] header. *)
Lemma C5_range_of_hello_world_witness :
  http.status (web.respond sample.media_world "/srv/media"
                 (sample.GET "/media/test.txt" [("Range", "bytes=0-4")])) = 206
  /\ http.Body (web.respond sample.media_world "/srv/media"
                  (sample.GET "/media/test.txt" [("Range", "bytes=0-4")]))
     = "Hello"
  /\ http.Hdr (web.respond sample.media_world "/srv/media"
                 (sample.GET "/media/test.txt" [("Range", "bytes=0-4")]))
     !! "Content-Range" = Some "bytes 0-4/11".
Proof.
  apply (C5_range_of_hello_world sample.media_world "/srv/media"
           (sample.GET "/media/test.txt" [("Range", "bytes=0-4")]) sample.hello);
    vm_compute; reflexivity.
Defined.

(** C6, as amended: a GET whose [If-Modified-Since] header is the
    modification time of the file (to the second, as HTTP dates go), with
    no entity-tag or [If-Unmodified-Since] precondition, is answered with
    304 and an empty body, provided the modification time is neither the
    zero time nor the Unix epoch. *)
Theorem C6_not_modified (W : World) (mediaDir : string)
  (r : http.Request) (f : File) (ims : string) :
  http.Method r = "GET" ->
  http.Header_get (http.Header r) "If-Modified-Since" = ims ->
  ims <> EmptyString ->
  ParseTime W ims = Some (time.TruncateSecond (ModTime f)) ->
  http.Header_get (http.Header r) "If-Match" = EmptyString ->
  http.Header_get (http.Header r) "If-Unmodified-Since" = EmptyString ->
  http.Header_get (http.Header r) "If-None-Match" = EmptyString ->
  os_Open W (filepath.Join [mediaDir; Str.TrimPrefix (http.URLPath r) "/media/"])
  = inr (Regular f) ->
  http.isZeroTime (ModTime f) = false ->
  http.status (web.respond W mediaDir r) = 304
  /\ http.Body (web.respond W mediaDir r) = EmptyString.
Proof.
  intros Hm Hi Hne Hp H1 H2 H3 Ho Hz.
  rewrite (respond_open_ok W mediaDir r f Ho). unfold http.ServeContent.
  set (w0 := http.setLastModified W (ModTime f) _).
  assert (Hle : time.Compare (time.TruncateSecond (ModTime f))
                  (time.TruncateSecond (ModTime f)) <= 0)
    by (rewrite Compare_refl; lia).
  rewrite (checkPreconditions_not_modified W w0 r (ModTime f) ims _
             Hm H1 H2 H3 Hi Hne Hp Hle Hz).
  assert (Hc0 : http.Code w0 = None /\ http.Body w0 = EmptyString).
  { subst w0. unfold http.setLastModified.
    destruct (http.isZeroTime (ModTime f)); split; reflexivity. }
  destruct Hc0 as [Hc0 Hb0].
  destruct (writeNotModified_fresh w0 Hc0) as [Hc Hb].
  unfold http.status. rewrite Hc, Hb, Hb0. split; reflexivity.
Qed.

(** The second GET of the test: the date of the [Last-Modified] header of
    the first response comes back as [If-Modified-Since]. *)
Lemma C6_not_modified_witness :
  http.Hdr (web.respond sample.media_world "/srv/media"
              (sample.GET "/media/test.txt" [])) !! "Last-Modified"
  = Some "Wed, 21 Oct 2015 07:28:00 GMT"
  /\ ParseTime sample.media_world "Wed, 21 Oct 2015 07:28:00 GMT"
     = Some (time.TruncateSecond (ModTime sample.hello))
  /\ http.status
       (web.respond sample.media_world "/srv/media"
          (sample.GET "/media/test.txt"
             [("If-Modified-Since", "Wed, 21 Oct 2015 07:28:00 GMT")])) = 304
  /\ http.Body
       (web.respond sample.media_world "/srv/media"
          (sample.GET "/media/test.txt"
             [("If-Modified-Since", "Wed, 21 Oct 2015 07:28:00 GMT")]))
     = EmptyString.
Proof.
  split; [vm_compute; reflexivity|]. split; [vm_compute; reflexivity|].
  apply (C6_not_modified sample.media_world "/srv/media"
           (sample.GET "/media/test.txt"
              [("If-Modified-Since", "Wed, 21 Oct 2015 07:28:00 GMT")])
           sample.hello "Wed, 21 Oct 2015 07:28:00 GMT");
    vm_compute; congruence.
Defined.

(** C6 as stated fails for a file whose modification time is the Unix
    epoch: the header names exactly that time, and the answer is a 200 with
    the whole file. *)
Lemma C6_counterexample :
  os_Open sample.epoch_world
    (filepath.Join ["/srv/media"; Str.TrimPrefix "/media/test.txt" "/media/"])
  = inr (Regular (mkFile "Hello World" time.unixEpochTime))
  /\ ParseTime sample.epoch_world "Thu, 01 Jan 1970 00:00:00 GMT"
     = Some time.unixEpochTime
  /\ http.status
       (web.respond sample.epoch_world "/srv/media"
          (sample.GET "/media/test.txt"
             [("If-Modified-Since", "Thu, 01 Jan 1970 00:00:00 GMT")])) = 200
  /\ http.Body
       (web.respond sample.epoch_world "/srv/media"
          (sample.GET "/media/test.txt"
             [("If-Modified-Since", "Thu, 01 Jan 1970 00:00:00 GMT")]))
     = "Hello World".
Proof. repeat split; vm_compute; reflexivity. Qed.

(** The epoch is no accident of one date parser: in every world a GET for a
    file stamped with the zero time or the Unix epoch is answered in full,
    whatever its [If-Modified-Since] header says. *)
Lemma zero_time_ignores_if_modified_since (W : World) (mediaDir : string)
  (r : http.Request) (f : File) :
  http.Method r = "GET" ->
  http.Header_get (http.Header r) "If-Match" = EmptyString ->
  http.Header_get (http.Header r) "If-None-Match" = EmptyString ->
  http.Header_get (http.Header r) "Range" = EmptyString ->
  os_Open W (filepath.Join [mediaDir; Str.TrimPrefix (http.URLPath r) "/media/"])
  = inr (Regular f) ->
  http.isZeroTime (ModTime f) = true ->
  http.status (web.respond W mediaDir r) = 200
  /\ http.Body (web.respond W mediaDir r) = Data f.
Proof.
  intros Hm H1 H3 Hr Ho Hz.
  rewrite (respond_open_ok W mediaDir r f Ho). unfold http.ServeContent.
  unfold http.setLastModified. rewrite Hz.
  set (w0 := http.Header_Set "Content-Type" _ http.NewRecorder).
  assert (Hpre : http.checkPreconditions W w0 r (ModTime f)
                 = (w0, false, EmptyString)).
  { unfold http.checkPreconditions, http.checkIfMatch,
      http.checkIfUnmodifiedSince, http.checkIfNoneMatch,
      http.checkIfModifiedSince, http.is_GET_or_HEAD.
    rewrite H1, H3, Hr, Hz, Hm, !orb_true_r. reflexivity. }
  rewrite Hpre.
  destruct (resolveContentType_writer W
              (Str.TrimPrefix (http.URLPath r) "/media/") (Data f) w0)
    as (_ & _ & Hct).
  erewrite Hct by apply lookup_insert_eq.
  unfold http.serveRanges, http.parseRange, http.deliver. simpl Str.is_empty.
  cbv iota. unfold http.sumRangesSize. simpl fold_left.
  destruct (Z.ltb_spec (Z.of_nat (String.length (Data f))) 0); [lia|].
  destruct (send_fresh r http.StatusOK (Z.of_nat (String.length (Data f)))
              (Data f) false w0 eq_refl) as (Hc & Hb & _).
  unfold http.status. rewrite Hc, Hb, Hm. split; reflexivity.
Qed.

(** ** The claims about the configuration *)

(** C8, as amended: for the port and for the media directory, a
    variable ([SERVER_PORT], [MEDIA_DIR]) that is set to a non-empty value
    takes precedence over the flag; otherwise (not set, or set to the empty
    string) the value of the flag, or its default, is used. *)
Theorem C8_environment_over_flags (P : server.Process) :
  (forall v, server.Environ P !! "SERVER_PORT" = Some v -> v <> EmptyString ->
     fst (server.settings P) = v)
  /\ (server.Environ P !! "SERVER_PORT" = None
      \/ server.Environ P !! "SERVER_PORT" = Some EmptyString ->
      fst (server.settings P) = default "8080" (server.CommandLine P !! "port"))
  /\ (forall v, server.Environ P !! "MEDIA_DIR" = Some v -> v <> EmptyString ->
     snd (server.settings P) = v)
  /\ (server.Environ P !! "MEDIA_DIR" = None
      \/ server.Environ P !! "MEDIA_DIR" = Some EmptyString ->
      snd (server.settings P)
      = default "./media" (server.CommandLine P !! "mediadir")).
Proof.
  unfold server.settings, server.os_Getenv, server.flag_String. simpl.
  repeat split.
  - intros v -> Hv. simpl. apply is_empty_false in Hv. now rewrite Hv.
  - intros [-> | ->]; reflexivity.
  - intros v -> Hv. simpl. apply is_empty_false in Hv. now rewrite Hv.
  - intros [-> | ->]; reflexivity.
Qed.

Lemma C8_environment_over_flags_witness :
  server.Environ (sample.process [("port", "9000")]
                    [("SERVER_PORT", "3000"); ("MEDIA_DIR", "/mnt/films")])
    !! "SERVER_PORT" = Some "3000"
  /\ fst (server.settings
            (sample.process [("port", "9000")]
               [("SERVER_PORT", "3000"); ("MEDIA_DIR", "/mnt/films")])) = "3000"
  /\ snd (server.settings
            (sample.process [("port", "9000")]
               [("SERVER_PORT", "3000"); ("MEDIA_DIR", "/mnt/films")]))
     = "/mnt/films"
  /\ fst (server.settings (sample.process [("port", "9000")] [])) = "9000"
  /\ snd (server.settings (sample.process [("port", "9000")] [])) = "./media".
Proof.
  split; [reflexivity|].
  split; [|split; [|split]].
  - apply (proj1 (C8_environment_over_flags
                    (sample.process [("port", "9000")]
                       [("SERVER_PORT", "3000"); ("MEDIA_DIR", "/mnt/films")])));
      [reflexivity | discriminate].
  - apply (proj1 (proj2 (proj2 (C8_environment_over_flags
                    (sample.process [("port", "9000")]
                       [("SERVER_PORT", "3000"); ("MEDIA_DIR", "/mnt/films")])))));
      [reflexivity | discriminate].
  - apply (proj1 (proj2 (C8_environment_over_flags
                    (sample.process [("port", "9000")] [])))).
    left. reflexivity.
  - apply (proj2 (proj2 (proj2 (C8_environment_over_flags
                    (sample.process [("port", "9000")] []))))).
    left. reflexivity.
Defined.

(** C8 as stated fails when the variable is present and empty: the flag
    wins although [SERVER_PORT] and [MEDIA_DIR] are set. *)
Lemma C8_counterexample :
  server.Environ (sample.process [("port", "9000"); ("mediadir", "/data")]
                    [("SERVER_PORT", EmptyString); ("MEDIA_DIR", EmptyString)])
    !! "SERVER_PORT" = Some EmptyString
  /\ server.Environ (sample.process [("port", "9000"); ("mediadir", "/data")]
                       [("SERVER_PORT", EmptyString); ("MEDIA_DIR", EmptyString)])
       !! "MEDIA_DIR" = Some EmptyString
  /\ server.settings
       (sample.process [("port", "9000"); ("mediadir", "/data")]
          [("SERVER_PORT", EmptyString); ("MEDIA_DIR", EmptyString)])
     = ("9000", "/data")
  /\ server.main
       (sample.process [("port", "9000"); ("mediadir", "/data")]
          [("SERVER_PORT", EmptyString); ("MEDIA_DIR", EmptyString)])
     = server.Serving "/media/" "/data" ":9000".
Proof. repeat split; vm_compute; reflexivity. Qed.

(** [os.Getenv] cannot tell a variable set to the empty string from one
    that is not set. *)
Lemma Getenv_unsetenv (P : server.Process) (key k : string) :
  server.Environ P !! key = Some EmptyString ->
  server.os_Getenv (server.unsetenv key P) k = server.os_Getenv P k.
Proof.
  intros H. unfold server.os_Getenv, server.unsetenv. simpl.
  destruct (decide (key = k)) as [<-|Hne].
  - now rewrite lookup_delete_eq, H.
  - now rewrite lookup_delete_ne.
Qed.

(** C10: a variable set to the empty string does not override the flag:
    the process goes on as if the variable were not set, with the value of
    the flag or its default; and a setting differs from the flag's value
    only through a non-empty variable. *)
Theorem C10_empty_variable_ignored (P : server.Process) :
  (forall key, server.Environ P !! key = Some EmptyString ->
     server.settings P = server.settings (server.unsetenv key P)
     /\ server.main P = server.main (server.unsetenv key P))
  /\ (server.Environ P !! "SERVER_PORT" = Some EmptyString ->
      fst (server.settings P) = server.flag_String P "port" "8080")
  /\ (server.Environ P !! "MEDIA_DIR" = Some EmptyString ->
      snd (server.settings P) = server.flag_String P "mediadir" "./media")
  /\ (fst (server.settings P) <> server.flag_String P "port" "8080" ->
      exists v, server.Environ P !! "SERVER_PORT" = Some v
                /\ v <> EmptyString /\ fst (server.settings P) = v)
  /\ (snd (server.settings P) <> server.flag_String P "mediadir" "./media" ->
      exists v, server.Environ P !! "MEDIA_DIR" = Some v
                /\ v <> EmptyString /\ snd (server.settings P) = v).
Proof.
  split; [|split; [|split; [|split]]].
  - intros key Hk.
    assert (Hs : server.settings P = server.settings (server.unsetenv key P)).
    { unfold server.settings. now rewrite !(Getenv_unsetenv P key _ Hk). }
    split; [exact Hs|]. unfold server.main. now rewrite Hs.
  - unfold server.settings, server.os_Getenv. simpl. now intros ->.
  - unfold server.settings, server.os_Getenv. simpl. now intros ->.
  - unfold server.settings, server.os_Getenv. simpl.
    destruct (server.Environ P !! "SERVER_PORT") as [[|c v]|]; simpl;
      try congruence.
    intros _. eexists. split; [reflexivity|]. split; [discriminate|reflexivity].
  - unfold server.settings, server.os_Getenv. simpl.
    destruct (server.Environ P !! "MEDIA_DIR") as [[|c v]|]; simpl;
      try congruence.
    intros _. eexists. split; [reflexivity|]. split; [discriminate|reflexivity].
Qed.

Lemma C10_empty_variable_ignored_witness :
  server.Environ (sample.process [("port", "9000")]
                    [("SERVER_PORT", EmptyString); ("MEDIA_DIR", EmptyString)])
    !! "SERVER_PORT" = Some EmptyString
  /\ fst (server.settings
            (sample.process [("port", "9000")]
               [("SERVER_PORT", EmptyString); ("MEDIA_DIR", EmptyString)]))
     = "9000"
  /\ snd (server.settings
            (sample.process [("port", "9000")]
               [("SERVER_PORT", EmptyString); ("MEDIA_DIR", EmptyString)]))
     = "./media".
Proof.
  split; [reflexivity|]. split.
  - apply (proj1 (proj2 (C10_empty_variable_ignored
             (sample.process [("port", "9000")]
                [("SERVER_PORT", EmptyString); ("MEDIA_DIR", EmptyString)])))).
    reflexivity.
  - apply (proj1 (proj2 (proj2 (C10_empty_variable_ignored
             (sample.process [("port", "9000")]
                [("SERVER_PORT", EmptyString); ("MEDIA_DIR", EmptyString)]))))).
    reflexivity.
Defined.

Example main_ex1 :
  server.main (sample.process [] []) = server.Serving "/media/" "/opt/manofwar/media" ":8080".
Proof. reflexivity. Qed.

Example main_ex2 :
  server.main (server.mkProcess ∅ ∅ None (fun _ => None))
  = server.Fatal "Error getting absolute path for media directory".
Proof. reflexivity. Qed.

Example main_ex3 :
  server.main (sample.process_port_in_use [("port", "80")] [])
  = server.Fatal "listen tcp :80: bind: address already in use".
Proof. reflexivity. Qed.

(** * Further properties of the handler, the bootstrap and the tests *)

(** ** Where a request resolves to *)

Section Containment.

Import paths.

Lemma nosep_cons (c : ascii) (e : string) :
  nosep (String c e) = negb (Ascii.eqb c "/") && nosep e.
Proof. reflexivity. Qed.

(** No piece of a split path holds a separator. *)
Lemma Split_nosep (s : string) : forallb nosep (Str.Split "/" s) = true.
Proof.
  induction s as [|c s IH]; [reflexivity|]. simpl Str.Split.
  destruct (Ascii.eqb c "/") eqn:Ec; [exact IH|].
  pose proof (Split_nonempty "/" s) as Hne.
  destruct (Str.Split "/" s) as [|e es]; [congruence|].
  simpl in IH |- *. apply andb_true_iff in IH as [He Hes].
  now rewrite nosep_cons, Ec, He, Hes.
Qed.

Lemma plain_iff (e : string) :
  filepath.plain e = true
  <-> Str.is_empty e = false /\ String.eqb e "." = false
      /\ String.eqb e ".." = false /\ nosep e = true.
Proof.
  unfold filepath.plain, nosep.
  rewrite !andb_true_iff, !negb_true_iff. tauto.
Qed.

(** The loop of [Clean] over pieces none of which is [..]: the pieces that
    are neither empty nor [.] are written, in order. *)
Lemma clean_no_dotdot rooted l out :
  existsb (String.eqb "..") l = false ->
  fold_left (filepath.clean_step rooted) l out
  = (rev (List.filter (fun e => negb (Str.is_empty e || String.eqb e ".")) l)
     ++ out)%list.
Proof.
  revert out. induction l as [|e l IH]; intros out Hd; [reflexivity|].
  cbn [existsb] in Hd. apply orb_false_iff in Hd as [He Hl].
  rewrite String.eqb_sym in He.
  cbn [fold_left List.filter]. rewrite (IH _ Hl).
  unfold filepath.clean_step.
  destruct (Str.is_empty e || String.eqb e "."); cbn [negb]; [reflexivity|].
  rewrite He. cbn [rev]. rewrite <- app_assoc. reflexivity.
Qed.

Lemma kept_plain (name : string) :
  web.has_dotdot name = false -> forallb filepath.plain (paths.kept name) = true.
Proof.
  unfold web.has_dotdot, paths.kept. intros Hd.
  pose proof (Split_nosep name) as Hs.
  induction (Str.Split "/" name) as [|e l IH]; [reflexivity|].
  cbn [existsb forallb] in Hd, Hs. apply orb_false_iff in Hd as [He Hl].
  apply andb_true_iff in Hs as [Hn Hs]. rewrite String.eqb_sym in He.
  cbn [List.filter].
  destruct (Str.is_empty e || String.eqb e ".") eqn:Ek; cbn [negb];
    [now apply IH|].
  apply orb_false_iff in Ek as [E1 E2]. cbn [forallb].
  rewrite (IH Hl Hs), andb_true_r. apply plain_iff. auto.
Qed.

(** Joining a name without [..] onto a rooted directory appends the kept
    elements of the name. *)
Lemma Join_no_dotdot (elems : list string) (name : string) :
  elems <> [] -> forallb filepath.plain elems = true ->
  web.has_dotdot name = false ->
  filepath.Join [filepath.rooted elems; name]
  = filepath.rooted (elems ++ paths.kept name).
Proof.
  intros He Hp Hd. rewrite Join_root by discriminate.
  change (filepath.rooted elems +:+ "/" +:+ name)
    with (String "/" (Str.Join elems "/" +:+ String "/" name)).
  rewrite Clean_rooted, Split_sep, Split_app, (Split_Join elems He Hp).
  change (fold_left (filepath.clean_step true) (EmptyString :: ?l) [])
    with (fold_left (filepath.clean_step true) l []).
  rewrite fold_left_app, (clean_push true elems [] Hp), app_nil_r.
  rewrite (clean_no_dotdot true _ _ Hd).
  rewrite rev_app_distr, !rev_involutive. reflexivity.
Qed.

(** A rooted path that continues another one lies below it. *)
Lemma rooted_app_descendant (elems ys : list string) :
  elems <> [] ->
  web.is_descendant (filepath.rooted elems) (filepath.rooted (elems ++ ys)) = true.
Proof.
  intros He. unfold web.is_descendant. destruct ys as [|y ys].
  - rewrite app_nil_r, String.eqb_refl. reflexivity.
  - apply orb_true_iff. right. apply HasPrefix_spec.
    exists (Str.Join (y :: ys) "/"). unfold filepath.rooted.
    rewrite Join_app by (assumption || discriminate).
    rewrite !append_assoc. reflexivity.
Qed.

(** Stripping the prefix brings no [..] into a path. *)
Lemma TrimPrefix_media_no_dotdot (p : string) :
  web.has_dotdot p = false ->
  web.has_dotdot (Str.TrimPrefix p "/media/") = false.
Proof.
  intros Hd. destruct (Str.HasPrefix p "/media/") eqn:E.
  - apply HasPrefix_spec in E as [rest ->]. rewrite TrimPrefix_app.
    unfold web.has_dotdot in *.
    change ("/media/" +:+ rest) with (String "/" ("media" +:+ String "/" rest)) in Hd.
    rewrite Split_sep, Split_app in Hd. exact Hd.
  - now rewrite TrimPrefix_other.
Qed.

(** Plain elements joined by slashes: a path without [..], of which every
    element is kept. *)
Lemma plain_no_dotdot (ys : list string) :
  forallb filepath.plain ys = true -> existsb (String.eqb "..") ys = false.
Proof.
  induction ys as [|y ys IH]; [reflexivity|]. cbn [forallb existsb].
  intros H. apply andb_true_iff in H as [Hy Hys].
  apply plain_iff in Hy as (_ & _ & Hy & _).
  now rewrite String.eqb_sym, Hy, (IH Hys).
Qed.

Lemma plain_all_kept (ys : list string) :
  forallb filepath.plain ys = true ->
  List.filter (fun e => negb (Str.is_empty e || String.eqb e ".")) ys = ys.
Proof.
  induction ys as [|y ys IH]; [reflexivity|]. cbn [forallb List.filter].
  intros H. apply andb_true_iff in H as [Hy Hys].
  apply plain_iff in Hy as (H1 & H2 & _).
  now rewrite H1, H2, (IH Hys).
Qed.

Lemma Join_plain (ys : list string) :
  ys <> [] -> forallb filepath.plain ys = true ->
  web.has_dotdot (Str.Join ys "/") = false /\ kept (Str.Join ys "/") = ys.
Proof.
  intros Hy Hp. unfold web.has_dotdot, kept.
  rewrite (Split_Join ys Hy Hp). split;
    [now apply plain_no_dotdot | now apply plain_all_kept].
Qed.

(** A relative path of plain elements joined onto a clean absolute
    directory: the directory, a slash, the path. *)
Lemma Join_plain_below (elems ys : list string) :
  elems <> [] -> forallb filepath.plain elems = true ->
  ys <> [] -> forallb filepath.plain ys = true ->
  filepath.Join [filepath.rooted elems; Str.Join ys "/"]
  = filepath.rooted elems +:+ "/" +:+ Str.Join ys "/".
Proof.
  intros He Hpe Hy Hpy. destruct (Join_plain ys Hy Hpy) as [Hd Hk].
  rewrite (Join_no_dotdot elems _ He Hpe Hd), Hk.
  unfold filepath.rooted. rewrite (Join_app elems ys He Hy).
  change (String "/" (Str.Join ys "/")) with ("/" +:+ Str.Join ys "/").
  now rewrite <- append_assoc.
Qed.

End Containment.

(** C1: for every request the handler strips the prefix [/media/] from the
    URL path and joins the remainder onto the root: the target
    [Join(root, TrimPrefix(urlPath, "/media/"))] is the path it logs and the
    one path it hands to [os.Open], and the result of that call decides
    between the not-found response and content serving.  For a URL path
    [/media/rest] the remainder is [rest], and what is opened is
    [Join(root, rest)]; when the root is a clean absolute directory and
    [rest] is a relative path of plain elements, this is the root, a slash,
    and [rest]. *)
Theorem C1_target_is_join (W : World) (mediaDir : string)
  (w : http.ResponseWriter) (r : http.Request) (tr : list web.Event) :
  let p := filepath.Join [mediaDir; Str.TrimPrefix (http.URLPath r) "/media/"] in
  (exists rest,
     snd (web.NewMediaHandler W mediaDir w r tr)
     = (tr ++ web.EvLog ("Request for file: " +:+ p) :: web.EvOpen p :: rest)%list
     /\ (rest = [] \/ rest = [web.EvClose p]))
  /\ (forall e, os_Open W p = inl e ->
      fst (web.NewMediaHandler W mediaDir w r tr) = http.NotFound w)
  /\ (forall f, os_Open W p = inr (Regular f) ->
      exists w', fst (web.NewMediaHandler W mediaDir w r tr)
                 = http.ServeContent W w' r
                     (Str.TrimPrefix (http.URLPath r) "/media/")
                     (ModTime f) (Data f))
  /\ (forall rest, http.URLPath r = "/media/" +:+ rest ->
      Str.TrimPrefix (http.URLPath r) "/media/" = rest
      /\ p = filepath.Join [mediaDir; rest]
      /\ In (web.EvOpen (filepath.Join [mediaDir; rest]))
            (snd (web.NewMediaHandler W mediaDir w r tr)))
  /\ (forall elems ys,
      mediaDir = filepath.rooted elems ->
      elems <> [] -> forallb filepath.plain elems = true ->
      ys <> [] -> forallb filepath.plain ys = true ->
      http.URLPath r = "/media/" +:+ Str.Join ys "/" ->
      p = mediaDir +:+ "/" +:+ Str.Join ys "/"
      /\ In (web.EvOpen (mediaDir +:+ "/" +:+ Str.Join ys "/"))
            (snd (web.NewMediaHandler W mediaDir w r tr))).
Proof.
  intros p.
  destruct (handler_trace W mediaDir w r tr) as (rest & Htr & Hrest).
  assert (Hopen : In (web.EvOpen p) (snd (web.NewMediaHandler W mediaDir w r tr))).
  { rewrite Htr. apply in_or_app. right. right. left. reflexivity. }
  split; [exists rest; split; [exact Htr | exact Hrest]|].
  split; [|split; [|split]].
  - intros e He. now rewrite (handler_open_fails W mediaDir w r tr e He).
  - intros f Hf. rewrite (handler_open_ok W mediaDir w r tr f Hf).
    eexists. reflexivity.
  - intros rest' Hr.
    assert (Ht : Str.TrimPrefix (http.URLPath r) "/media/" = rest')
      by (rewrite Hr; apply TrimPrefix_app).
    subst p. rewrite Ht in Hopen |- *. auto.
  - intros elems ys Hm He Hpe Hy Hpy Hr.
    assert (Hp : p = mediaDir +:+ "/" +:+ Str.Join ys "/").
    { subst p. rewrite Hr, TrimPrefix_app, Hm.
      now apply Join_plain_below. }
    rewrite <- Hp. auto.
Qed.

(** The request [/media/films/a.mp4] under the root [/srv/media] opens
    [/srv/media/films/a.mp4]. *)
Lemma C1_target_is_join_witness :
  filepath.rooted ["srv"; "media"] = "/srv/media"
  /\ "/media/" +:+ Str.Join ["films"; "a.mp4"] "/" = "/media/films/a.mp4"
  /\ filepath.Join ["/srv/media"; Str.TrimPrefix "/media/films/a.mp4" "/media/"]
     = "/srv/media/films/a.mp4"
  /\ In (web.EvOpen "/srv/media/films/a.mp4")
        (snd (web.NewMediaHandler sample.media_world "/srv/media"
                http.NewRecorder (sample.GET "/media/films/a.mp4" []) [])).
Proof.
  split; [reflexivity|]. split; [reflexivity|].
  exact (proj2 (proj2 (proj2 (proj2
           (C1_target_is_join sample.media_world "/srv/media" http.NewRecorder
              (sample.GET "/media/films/a.mp4" []) []))))
           ["srv"; "media"] ["films"; "a.mp4"] eq_refl
           ltac:(discriminate) eq_refl ltac:(discriminate) eq_refl eq_refl).
Defined.

(** Without a [..] element in the request path the handler stays at or
    below a root that is a clean absolute directory: the target is the root
    followed by the elements of the name that are neither empty nor [.]. *)
Theorem target_without_dotdot_below_root (elems : list string) (r : http.Request) :
  elems <> [] -> forallb filepath.plain elems = true ->
  web.has_dotdot (http.URLPath r) = false ->
  filepath.Join [filepath.rooted elems; Str.TrimPrefix (http.URLPath r) "/media/"]
  = filepath.rooted (elems ++ paths.kept (Str.TrimPrefix (http.URLPath r) "/media/"))
  /\ web.is_descendant (filepath.rooted elems)
       (filepath.Join
          [filepath.rooted elems; Str.TrimPrefix (http.URLPath r) "/media/"])
     = true
  /\ forall W w tr,
       Forall (fun ev => forall p, ev = web.EvOpen p ->
                 web.is_descendant (filepath.rooted elems) p = true)
         (skipn (List.length tr)
            (snd (web.NewMediaHandler W (filepath.rooted elems) w r tr))).
Proof.
  intros He Hp Hd. apply TrimPrefix_media_no_dotdot in Hd.
  pose proof (Join_no_dotdot elems _ He Hp Hd) as Hj.
  assert (Hdesc : web.is_descendant (filepath.rooted elems)
            (filepath.Join [filepath.rooted elems;
                            Str.TrimPrefix (http.URLPath r) "/media/"]) = true)
    by (rewrite Hj; now apply rooted_app_descendant).
  split; [exact Hj|]. split; [exact Hdesc|].
  intros W w tr.
  destruct (handler_trace W (filepath.rooted elems) w r tr) as (rest & -> & Hrest).
  rewrite skipn_app, skipn_all, Nat.sub_diag. simpl.
  repeat constructor; try discriminate.
  - intros p [= <-]. exact Hdesc.
  - destruct Hrest as [-> | ->]; repeat constructor; discriminate.
Qed.

Lemma target_without_dotdot_below_root_witness :
  filepath.rooted ["srv"; "media"] = "/srv/media"
  /\ filepath.Join ["/srv/media"; Str.TrimPrefix "/media//films/./a.mp4" "/media/"]
     = filepath.rooted ["srv"; "media"; "films"; "a.mp4"]
  /\ web.is_descendant "/srv/media"
       (filepath.Join ["/srv/media"; Str.TrimPrefix "/media//films/./a.mp4" "/media/"])
     = true.
Proof.
  split; [reflexivity|].
  destruct (target_without_dotdot_below_root ["srv"; "media"]
              (sample.GET "/media//films/./a.mp4" []))
    as (H1 & H2 & _); [discriminate | reflexivity | reflexivity |].
  split; [exact H1 | exact H2].
Defined.

Section TrailingSlash.

Lemma append_empty_r (s : string) : s +:+ EmptyString = s.
Proof.
  induction s as [|c s IH]; [reflexivity|].
  change (String c (s +:+ EmptyString) = String c s). now rewrite IH.
Qed.

Lemma Split_trailing (t : string) :
  Str.Split "/" (t +:+ "/") = (Str.Split "/" t ++ [EmptyString])%list.
Proof.
  change (t +:+ "/") with (t +:+ String "/" EmptyString). now rewrite Split_app.
Qed.

(** A slash at the end of a non-empty path is dropped by [Clean]. *)
Lemma Clean_trailing_slash (s : string) :
  s <> EmptyString -> filepath.Clean (s +:+ "/") = filepath.Clean s.
Proof.
  destruct s as [|c s]; [congruence|]. intros _.
  unfold filepath.Clean.
  rewrite Split_trailing, fold_left_app. reflexivity.
Qed.

Lemma Join_trailing_slash (root name : string) :
  root <> EmptyString ->
  filepath.Join [root; name +:+ "/"] = filepath.Join [root; name].
Proof.
  intros Hr. rewrite !Join_root by assumption.
  rewrite <- !append_assoc. apply Clean_trailing_slash.
  destruct root; [congruence | discriminate].
Qed.

End TrailingSlash.

(** A slash added to the end of a request path under [/media/] changes
    nothing in the file the handler opens: both requests open the same
    path, so a file is also served under its name followed by a slash. *)
Theorem trailing_slash_opens_same_file (W : World) (mediaDir : string)
  (r r' : http.Request) (w w' : http.ResponseWriter) (tr tr' : list web.Event) :
  mediaDir <> EmptyString ->
  Str.HasPrefix (http.URLPath r) "/media/" = true ->
  http.URLPath r' = http.URLPath r +:+ "/" ->
  filepath.Join [mediaDir; Str.TrimPrefix (http.URLPath r') "/media/"]
  = filepath.Join [mediaDir; Str.TrimPrefix (http.URLPath r) "/media/"]
  /\ (forall p, In (web.EvOpen p) (snd (web.NewMediaHandler W mediaDir w r tr)) ->
      In (web.EvOpen p) (snd (web.NewMediaHandler W mediaDir w' r' tr)))
  /\ (http.status (web.respond W mediaDir r') = 404
      <-> http.status (web.respond W mediaDir r) = 404).
Proof.
  intros Hm Hp Hr'.
  assert (Hj : filepath.Join [mediaDir; Str.TrimPrefix (http.URLPath r') "/media/"]
               = filepath.Join [mediaDir; Str.TrimPrefix (http.URLPath r) "/media/"]).
  { rewrite Hr'. apply HasPrefix_spec in Hp as [rest ->].
    rewrite append_assoc, !TrimPrefix_app. now apply Join_trailing_slash. }
  split; [exact Hj|]. split.
  - intros p.
    destruct (handler_trace W mediaDir w r tr) as (rest & -> & Hrest).
    destruct (handler_trace W mediaDir w' r' tr) as (rest' & -> & Hrest').
    rewrite Hj. rewrite !in_app_iff. intros [H|H]; [now left|right].
    destruct H as [H|[H|H]]; [discriminate | right; left; exact H |].
    destruct Hrest as [-> | ->]; [destruct H|].
    destruct H as [H|[]]. discriminate.
  - rewrite !respond_404_iff, Hj. reflexivity.
Qed.

Lemma trailing_slash_opens_same_file_witness :
  http.status (web.respond sample.media_world "/srv/media"
                 (sample.GET "/media/test.txt/" [])) = 404
  <-> http.status (web.respond sample.media_world "/srv/media"
                     (sample.GET "/media/test.txt" [])) = 404.
Proof.
  apply (trailing_slash_opens_same_file sample.media_world "/srv/media"
           (sample.GET "/media/test.txt" []) (sample.GET "/media/test.txt/" [])
           http.NewRecorder http.NewRecorder [] []);
    [discriminate | reflexivity | reflexivity].
Defined.

(** ** The root [main] configures *)

Section CleanShape.

Import paths.

(** The loop of [Clean] on a rooted path writes plain elements only. *)
Lemma clean_step_plain (out : list string) (e : string) :
  forallb filepath.plain out = true -> nosep e = true ->
  forallb filepath.plain (filepath.clean_step true out e) = true.
Proof.
  intros Ho He. unfold filepath.clean_step.
  destruct (Str.is_empty e || String.eqb e ".") eqn:E1; [exact Ho|].
  apply orb_false_iff in E1 as [E1 E2].
  destruct (String.eqb e "..") eqn:E3.
  - destruct out as [|top out]; [reflexivity|].
    cbn [forallb] in Ho. apply andb_true_iff in Ho as [Ht Ho].
    apply plain_iff in Ht as (_ & _ & -> & _). exact Ho.
  - cbn [forallb]. rewrite Ho, andb_true_r. apply plain_iff. auto.
Qed.

Lemma clean_fold_plain (l out : list string) :
  forallb filepath.plain out = true -> forallb nosep l = true ->
  forallb filepath.plain (fold_left (filepath.clean_step true) l out) = true.
Proof.
  revert out. induction l as [|e l IH]; intros out Ho Hl; [exact Ho|].
  cbn [forallb] in Hl. apply andb_true_iff in Hl as [He Hl].
  cbn [fold_left]. apply IH; [now apply clean_step_plain | exact Hl].
Qed.

(** Cleaning an absolute path gives the root followed by plain elements. *)
Lemma Clean_absolute_shape (s : string) :
  exists elems, filepath.Clean (String "/" s) = filepath.rooted elems
                /\ forallb filepath.plain elems = true.
Proof.
  rewrite Clean_rooted. eexists. split; [reflexivity|].
  rewrite forallb_rev. apply clean_fold_plain; [reflexivity | apply Split_nosep].
Qed.

Lemma IsAbs_spec (p : string) :
  filepath.IsAbs p = true <-> exists s, p = String "/" s.
Proof.
  unfold filepath.IsAbs. rewrite HasPrefix_spec.
  split; intros [s ->]; exists s; reflexivity.
Qed.

(** [Abs] gives a clean absolute path when the working directory is
    absolute. *)
Lemma Abs_shape (wd : option string) (path root : string) :
  (forall d, wd = Some d -> filepath.IsAbs d = true) ->
  filepath.Abs wd path = Some root ->
  exists elems, root = filepath.rooted elems /\ forallb filepath.plain elems = true.
Proof.
  intros Hwd. unfold filepath.Abs.
  destruct (filepath.IsAbs path) eqn:Ea.
  - apply IsAbs_spec in Ea as [s ->]. intros [= <-]. apply Clean_absolute_shape.
  - destruct wd as [d|]; [|discriminate]. intros [= <-].
    destruct (proj1 (IsAbs_spec d) (Hwd d eq_refl)) as [s ->].
    change (exists elems,
              filepath.Clean (String "/" (s +:+ "/" +:+ path)) = filepath.rooted elems
              /\ forallb filepath.plain elems = true).
    apply Clean_absolute_shape.
Qed.

End CleanShape.

(** When [main] gets to serve, the handler is registered under [/media/],
    the listener address is a colon and the port, and the root handed to the
    handler is a clean absolute path: a slash followed by elements that are
    not empty, not [.] and not [..], joined by single slashes (given that
    the operating system reports an absolute working directory). *)
Theorem main_serves_clean_absolute_root (P : server.Process)
  (pattern root addr : string) :
  (forall d, server.Getwd P = Some d -> filepath.IsAbs d = true) ->
  server.main P = server.Serving pattern root addr ->
  pattern = "/media/"
  /\ addr = ":" +:+ fst (server.settings P)
  /\ filepath.IsAbs root = true
  /\ exists elems, root = filepath.rooted elems
                   /\ forallb filepath.plain elems = true.
Proof.
  intros Hwd. unfold server.main.
  destruct (server.settings P) as [port mediaDir].
  destruct (filepath.Abs (server.Getwd P) mediaDir) as [abs|] eqn:Ea; [|discriminate].
  destruct (server.ListenAndServe P _); [discriminate|].
  intros [= <- <- <-].
  destruct (Abs_shape _ _ _ Hwd Ea) as (elems & -> & Hp).
  repeat split; eauto.
Qed.

Lemma main_serves_clean_absolute_root_witness :
  server.main (sample.process [] [("MEDIA_DIR", "films/../music//")])
  = server.Serving "/media/" "/opt/manofwar/music" ":8080"
  /\ filepath.IsAbs "/opt/manofwar/music" = true
  /\ exists elems, "/opt/manofwar/music" = filepath.rooted elems
                   /\ forallb filepath.plain elems = true.
Proof.
  split; [reflexivity|].
  apply (main_serves_clean_absolute_root
           (sample.process [] [("MEDIA_DIR", "films/../music//")])
           "/media/" "/opt/manofwar/music" ":8080").
  - intros d [= <-]. reflexivity.
  - reflexivity.
Defined.


(** ** What a served file looks like *)

Section Delivery.

Import http.

Variable W : World.

(** The two headers [send] sets. *)
Lemma send_headers (r : Request) (code n : Z) (body : string) (ranged : bool)
  (w : ResponseWriter) :
  Hdr (send r code n body ranged w) !! "Accept-Ranges" = Some "bytes"
  /\ (Hdr w !! "Content-Encoding" = None ->
      Hdr (send r code n body ranged w) !! "Content-Length"
      = Some (strconv.FormatInt n)).
Proof.
  unfold send.
  set (w1 := Header_Set "Accept-Ranges" "bytes" w).
  assert (Hce : Hdr w1 !! "Content-Encoding" = Hdr w !! "Content-Encoding")
    by (subst w1; simpl; now rewrite lookup_insert_ne).
  split.
  - destruct (_ || _); destruct (String.eqb _ _);
      rewrite ?Hdr_Write, ?Hdr_WriteHeader; subst w1; simpl;
      rewrite ?lookup_insert_ne by discriminate; apply lookup_insert_eq.
  - intros Hn.
    assert (Hg : Str.is_empty (Header_get (Hdr w1) "Content-Encoding") = true)
      by (unfold Header_get; now rewrite Hce, Hn).
    rewrite Hg, orb_true_r.
    destruct (String.eqb _ _); rewrite ?Hdr_Write, ?Hdr_WriteHeader;
      apply lookup_insert_eq.
Qed.

(** No [Range] header: the whole content with 200. *)
Lemma serveRanges_none (r : Request) (content ctype : string) (w : ResponseWriter) :
  serveRanges W r content ctype EmptyString w
  = send r StatusOK (Z.of_nat (String.length content)) content false w.
Proof.
  unfold serveRanges, parseRange, deliver. cbn [Str.is_empty].
  unfold sumRangesSize. cbn [fold_left].
  destruct (Z.ltb_spec (Z.of_nat (String.length content)) 0); [lia | reflexivity].
Qed.

(** A [Range] header [parseRange] refuses: 416 and the error text, unless
    it only fails to overlap an empty content. *)
Lemma serveRanges_refused (r : Request) (content ctype rangeReq : string)
  (w : ResponseWriter) (e : rangeError) :
  parseRange rangeReq (Z.of_nat (String.length content)) = inl e ->
  (e = errNoOverlap -> content <> EmptyString) ->
  serveRanges W r content ctype rangeReq w
  = serveError (rangeError_text e) StatusRequestedRangeNotSatisfiable
      (match e with
       | errNoOverlap =>
           Header_Set "Content-Range"
             ("bytes */" +:+ strconv.FormatInt (Z.of_nat (String.length content))) w
       | errInvalidRange => w
       end).
Proof.
  intros Hp Hne. unfold serveRanges. rewrite Hp. destruct e; [reflexivity|].
  destruct (Z.eqb_spec (Z.of_nat (String.length content)) 0) as [Hz|]; [|reflexivity].
  destruct content; [now specialize (Hne eq_refl) | discriminate Hz].
Qed.

(** The writer the handler hands to [serveRanges]: fresh but for the content
    type and, for a known modification time, [Last-Modified]. *)
Lemma prepared_writer (modtime : Time) (mime : string) :
  let w0 := setLastModified W modtime (Header_Set "Content-Type" mime NewRecorder) in
  Code w0 = None /\ Body w0 = EmptyString
  /\ Hdr w0 !! "Content-Type" = Some mime
  /\ Hdr w0 !! "Content-Encoding" = None
  /\ Hdr w0 !! "Etag" = None
  /\ Hdr w0 !! "Last-Modified"
     = (if isZeroTime modtime then None else Some (FormatTime W modtime)).
Proof.
  unfold setLastModified. destruct (isZeroTime modtime); simpl;
    repeat split; rewrite ?lookup_insert_ne by discriminate;
    try apply lookup_insert_eq; try apply lookup_empty.
Qed.

End Delivery.

(** A request that carries no precondition and no [Range] header, for a
    file that opens, is answered with 200 and the whole file whatever its
    method (the handler looks at no method; only HEAD gets no body), under
    the content type of the request name, with the exact [Content-Length],
    [Accept-Ranges: bytes], and [Last-Modified] unless the file's time is
    the zero time or the Unix epoch. *)
Theorem unconditional_request_gets_whole_file (W : World) (mediaDir : string)
  (r : http.Request) (f : File) :
  os_Open W (filepath.Join [mediaDir; Str.TrimPrefix (http.URLPath r) "/media/"])
  = inr (Regular f) ->
  http.Header_get (http.Header r) "If-Match" = EmptyString ->
  http.Header_get (http.Header r) "If-Unmodified-Since" = EmptyString ->
  http.Header_get (http.Header r) "If-None-Match" = EmptyString ->
  http.Header_get (http.Header r) "If-Modified-Since" = EmptyString ->
  http.Header_get (http.Header r) "If-Range" = EmptyString ->
  http.Header_get (http.Header r) "Range" = EmptyString ->
  let byExt := TypeByExtension W
                 (filepath.Ext (Str.TrimPrefix (http.URLPath r) "/media/")) in
  http.status (web.respond W mediaDir r) = 200
  /\ http.Body (web.respond W mediaDir r)
     = (if String.eqb (http.Method r) "HEAD" then EmptyString else Data f)
  /\ http.Hdr (web.respond W mediaDir r) !! "Content-Type"
     = Some (if Str.is_empty byExt then "application/octet-stream" else byExt)
  /\ http.Hdr (web.respond W mediaDir r) !! "Content-Length"
     = Some (strconv.FormatInt (Z.of_nat (String.length (Data f))))
  /\ http.Hdr (web.respond W mediaDir r) !! "Accept-Ranges" = Some "bytes"
  /\ http.Hdr (web.respond W mediaDir r) !! "Last-Modified"
     = (if http.isZeroTime (ModTime f) then None
        else Some (FormatTime W (ModTime f))).
Proof.
  intros Ho H1 H2 H3 H4 H5 Hr byExt. subst byExt.
  rewrite (respond_unconditional W mediaDir r f Ho H1 H2 H3 H4 H5), Hr.
  rewrite serveRanges_none.
  match goal with |- context [http.setLastModified W ?t (http.Header_Set _ ?m _)] =>
    destruct (prepared_writer W t m) as (Hc & Hb & Hct & Hce & _ & Hlm);
    set (w0 := http.setLastModified W t _) in *
  end.
  destruct (send_fresh r http.StatusOK (Z.of_nat (String.length (Data f)))
              (Data f) false w0 Hc) as (Hc' & Hb' & Hh').
  destruct (send_headers r http.StatusOK (Z.of_nat (String.length (Data f)))
              (Data f) false w0) as (Har & Hcl).
  unfold http.status.
  rewrite Hc', Hb', Hb, (Hh' "Content-Type"), (Hh' "Last-Modified") by discriminate.
  repeat split; auto.
Qed.

(** A POST is served like a GET. *)
Lemma unconditional_request_gets_whole_file_witness :
  http.status (web.respond sample.media_world "/srv/media"
                 (http.mkRequest "POST" "/media/test.txt" ∅)) = 200
  /\ http.Body (web.respond sample.media_world "/srv/media"
                  (http.mkRequest "POST" "/media/test.txt" ∅)) = "Hello World".
Proof.
  destruct (unconditional_request_gets_whole_file sample.media_world "/srv/media"
              (http.mkRequest "POST" "/media/test.txt" ∅) sample.hello)
    as (H1 & H2 & _); try reflexivity.
  split; [exact H1 | exact H2].
Defined.

Section Refusals.

Import http.

(** [Error] leaves every header but the three it touches. *)
Lemma Error_headers (msg : string) (code : Z) (w : ResponseWriter) (k : string) :
  k <> "Content-Length" -> k <> "Content-Type" -> k <> "X-Content-Type-Options" ->
  Hdr (Error msg code w) !! k = Hdr w !! k.
Proof.
  intros H1 H2 H3. unfold Error. autorewrite with writer.
  rewrite !lookup_insert_ne by congruence. now rewrite lookup_delete_ne.
Qed.

Lemma Error_no_length (msg : string) (code : Z) (w : ResponseWriter) :
  Hdr (Error msg code w) !! "Content-Length" = None.
Proof.
  unfold Error. autorewrite with writer.
  rewrite !lookup_insert_ne by discriminate. apply lookup_delete_eq.
Qed.

(** [serveError] clears four headers and leaves every other header but the
    three [Error] touches. *)
Lemma serveError_headers (msg : string) (code : Z) (w : ResponseWriter) (k : string) :
  k <> "Content-Length" -> k <> "Content-Type" -> k <> "X-Content-Type-Options" ->
  Hdr (serveError msg code w) !! k = (if cleared k then None else Hdr w !! k).
Proof.
  intros H1 H2 H3. unfold serveError. cbv zeta.
  rewrite Error_headers by assumption. autorewrite with writer.
  unfold cleared.
  destruct (String.eqb_spec k "Last-Modified") as [->|N4];
    [rewrite !orb_true_r; apply lookup_delete_eq|].
  rewrite lookup_delete_ne by congruence.
  destruct (String.eqb_spec k "Etag") as [->|N3];
    [rewrite !orb_true_r; apply lookup_delete_eq|].
  rewrite lookup_delete_ne by congruence.
  destruct (String.eqb_spec k "Content-Encoding") as [->|N2];
    [rewrite !orb_true_r; apply lookup_delete_eq|].
  rewrite lookup_delete_ne by congruence.
  destruct (String.eqb_spec k "Cache-Control") as [->|N1];
    [apply lookup_delete_eq|].
  now rewrite lookup_delete_ne by congruence.
Qed.

Lemma serveError_no_length (msg : string) (code : Z) (w : ResponseWriter) :
  Hdr (serveError msg code w) !! "Content-Length" = None.
Proof. unfold serveError. cbv zeta. apply Error_no_length. Qed.

End Refusals.

(** A [Range] header that does not parse, or whose ranges all begin at or
    after the end of a non-empty file, is answered with 416 and the error
    text as the body, as plain text, and not a byte of the file; for the
    ranges past the end [Content-Range] tells the size. *)
Theorem refused_range_is_416 (W : World) (mediaDir : string)
  (r : http.Request) (f : File) (e : http.rangeError) :
  os_Open W (filepath.Join [mediaDir; Str.TrimPrefix (http.URLPath r) "/media/"])
  = inr (Regular f) ->
  http.Header_get (http.Header r) "If-Match" = EmptyString ->
  http.Header_get (http.Header r) "If-Unmodified-Since" = EmptyString ->
  http.Header_get (http.Header r) "If-None-Match" = EmptyString ->
  http.Header_get (http.Header r) "If-Modified-Since" = EmptyString ->
  http.Header_get (http.Header r) "If-Range" = EmptyString ->
  http.parseRange (http.Header_get (http.Header r) "Range")
    (Z.of_nat (String.length (Data f))) = inl e ->
  Data f <> EmptyString ->
  http.status (web.respond W mediaDir r) = 416
  /\ http.Body (web.respond W mediaDir r) = http.rangeError_text e +:+ http.LF
  /\ http.Hdr (web.respond W mediaDir r) !! "Content-Type"
     = Some "text/plain; charset=utf-8"
  /\ http.Hdr (web.respond W mediaDir r) !! "Content-Length" = None
  /\ (e = http.errNoOverlap ->
      http.Hdr (web.respond W mediaDir r) !! "Content-Range"
      = Some ("bytes */" +:+ strconv.FormatInt (Z.of_nat (String.length (Data f))))).
Proof.
  intros Ho H1 H2 H3 H4 H5 Hp Hne.
  rewrite (respond_unconditional W mediaDir r f Ho H1 H2 H3 H4 H5).
  rewrite (serveRanges_refused W r _ _ _ _ e Hp (fun _ => Hne)).
  match goal with |- context [http.setLastModified W ?t (http.Header_Set _ ?m _)] =>
    destruct (prepared_writer W t m) as (Hc & Hb & _);
    set (w0 := http.setLastModified W t _) in *
  end.
  set (w1 := match e with
             | http.errNoOverlap => http.Header_Set "Content-Range" _ w0
             | http.errInvalidRange => w0
             end).
  assert (Hc1 : http.Code w1 = None) by (subst w1; destruct e; exact Hc).
  assert (Hb1 : http.Body w1 = EmptyString) by (subst w1; destruct e; exact Hb).
  destruct (serveError_fresh (http.rangeError_text e)
              http.StatusRequestedRangeNotSatisfiable w1 Hc1) as (Hc' & Hb' & Hct').
  unfold http.status. rewrite Hc', Hb', Hb1, Hct'.
  split; [reflexivity|]. split; [reflexivity|]. split; [reflexivity|]. split.
  - apply serveError_no_length.
  - intros ->. rewrite serveError_headers by discriminate.
    subst w1. apply lookup_insert_eq.
Qed.

Lemma refused_range_is_416_witness :
  (http.status (web.respond sample.media_world "/srv/media"
                  (sample.GET "/media/test.txt" [("Range", "bytes=100-200")])) = 416
   /\ http.Hdr (web.respond sample.media_world "/srv/media"
                  (sample.GET "/media/test.txt" [("Range", "bytes=100-200")]))
        !! "Content-Range" = Some "bytes */11")
  /\ http.Body (web.respond sample.media_world "/srv/media"
                  (sample.GET "/media/test.txt" [("Range", "octets=0-4")]))
     = "invalid range" +:+ http.LF.
Proof.
  split.
  - destruct (refused_range_is_416 sample.media_world "/srv/media"
                (sample.GET "/media/test.txt" [("Range", "bytes=100-200")])
                sample.hello http.errNoOverlap)
      as (H1 & _ & _ & _ & H5); [reflexivity .. | discriminate |].
    split; [exact H1 | exact (H5 eq_refl)].
  - destruct (refused_range_is_416 sample.media_world "/srv/media"
                (sample.GET "/media/test.txt" [("Range", "octets=0-4")])
                sample.hello http.errInvalidRange)
      as (_ & H2 & _); [reflexivity .. | discriminate |].
    exact H2.
Defined.

(** For an empty file ranges that do not overlap are no error: the answer
    is a 200 with an empty body, not a 416. *)
Theorem empty_file_ignores_range (W : World) (mediaDir : string)
  (r : http.Request) (f : File) :
  os_Open W (filepath.Join [mediaDir; Str.TrimPrefix (http.URLPath r) "/media/"])
  = inr (Regular f) ->
  http.Header_get (http.Header r) "If-Match" = EmptyString ->
  http.Header_get (http.Header r) "If-Unmodified-Since" = EmptyString ->
  http.Header_get (http.Header r) "If-None-Match" = EmptyString ->
  http.Header_get (http.Header r) "If-Modified-Since" = EmptyString ->
  http.Header_get (http.Header r) "If-Range" = EmptyString ->
  http.parseRange (http.Header_get (http.Header r) "Range") 0
  = inl http.errNoOverlap ->
  Data f = EmptyString ->
  http.status (web.respond W mediaDir r) = 200
  /\ http.Body (web.respond W mediaDir r) = EmptyString
  /\ http.Hdr (web.respond W mediaDir r) !! "Content-Length" = Some "0"
  /\ http.Hdr (web.respond W mediaDir r) !! "Content-Range" = None.
Proof.
  intros Ho H1 H2 H3 H4 H5 Hp Hd.
  rewrite (respond_unconditional W mediaDir r f Ho H1 H2 H3 H4 H5), Hd.
  unfold http.serveRanges. change (Z.of_nat (String.length EmptyString)) with 0.
  rewrite Hp. change (0 =? 0) with true. cbv iota.
  change (http.deliver W r EmptyString ?c [] ?w)
    with (http.send r http.StatusOK 0 EmptyString false w).
  match goal with |- context [http.setLastModified W ?t (http.Header_Set _ ?m _)] =>
    destruct (prepared_writer W t m) as (Hc & Hb & _ & Hce & _);
    set (w0 := http.setLastModified W t _) in *
  end.
  destruct (send_fresh r http.StatusOK 0 EmptyString false w0 Hc)
    as (Hc' & Hb' & Hh').
  destruct (send_headers r http.StatusOK 0 EmptyString false w0) as (_ & Hcl).
  unfold http.status. rewrite Hc', Hb', Hb, (Hcl Hce), (Hh' "Content-Range")
    by discriminate.
  split; [reflexivity|]. split; [now destruct (String.eqb _ _)|].
  split; [reflexivity|].
  subst w0. unfold http.setLastModified.
  destruct (http.isZeroTime (ModTime f)); simpl;
    rewrite ?lookup_insert_ne by discriminate; apply lookup_empty.
Qed.

Lemma empty_file_ignores_range_witness :
  http.status
    (web.respond
       (sample.world [("/srv/media/empty.bin", mkFile EmptyString (mkTime 1445412480 0))])
       "/srv/media" (sample.GET "/media/empty.bin" [("Range", "bytes=0-4")])) = 200.
Proof.
  apply (empty_file_ignores_range
           (sample.world [("/srv/media/empty.bin", mkFile EmptyString (mkTime 1445412480 0))])
           "/srv/media" (sample.GET "/media/empty.bin" [("Range", "bytes=0-4")])
           (mkFile EmptyString (mkTime 1445412480 0))); reflexivity.
Defined.

Section NoSniffing.

Import http.

(** With the content type set by the caller [ServeContent] never asks the
    sniffer. *)
Lemma ServeContent_sniffer (d : string -> string) (W : World) (w : ResponseWriter)
  (r : Request) (name : string) (modtime : Time) (content m : string) :
  Code w = None -> Hdr w !! "Content-Type" = Some m ->
  ServeContent (with_sniffer d W) w r name modtime content
  = ServeContent W w r name modtime content.
Proof.
  intros Hc Hm. unfold ServeContent.
  change (setLastModified (with_sniffer d W) modtime w)
    with (setLastModified W modtime w).
  destruct (isZeroTime_setLastModified W modtime w) as (Hc0 & _ & Hh0).
  set (w0 := setLastModified W modtime w) in *.
  change (checkPreconditions (with_sniffer d W) w0 r modtime)
    with (checkPreconditions W w0 r modtime).
  assert (Hc0' : Code w0 = None) by congruence.
  pose proof (checkPreconditions_cases W w0 r modtime Hc0') as Hpre.
  destruct (checkPreconditions W w0 r modtime) as [[w1 done] rangeReq].
  destruct done; [reflexivity|]. subst w1.
  assert (Hm0 : Hdr w0 !! "Content-Type" = Some m)
    by (rewrite Hh0 by discriminate; exact Hm).
  destruct (resolveContentType_writer W name content w0) as (_ & _ & H1).
  destruct (resolveContentType_writer (with_sniffer d W) name content w0)
    as (_ & _ & H2).
  rewrite (H1 m Hm0), (H2 m Hm0). reflexivity.
Qed.

Lemma ServeContentDir_sniffer (d : string -> string) (W : World) (w : ResponseWriter)
  (r : Request) (name : string) (modtime : Time) (dir : Dir) (m : string) :
  Code w = None -> Hdr w !! "Content-Type" = Some m ->
  ServeContentDir (with_sniffer d W) w r name modtime dir
  = ServeContentDir W w r name modtime dir.
Proof.
  intros Hc Hm.
  rewrite (ServeContentDir_handler (with_sniffer d W) w r name modtime dir m Hc Hm).
  rewrite (ServeContentDir_handler W w r name modtime dir m Hc Hm).
  reflexivity.
Qed.

End NoSniffing.

(** The handler always hands a non-empty content type to [ServeContent],
    so the content of a file is never sniffed: the response is the same
    whatever [http.DetectContentType] would say. *)
Theorem content_never_sniffed (W : World) (mediaDir : string)
  (r : http.Request) (d : string -> string) :
  web.respond (with_sniffer d W) mediaDir r = web.respond W mediaDir r
  /\ forall f,
       os_Open W (filepath.Join
                    [mediaDir; Str.TrimPrefix (http.URLPath r) "/media/"])
       = inr (Regular f) ->
       exists mime,
         mime <> EmptyString
         /\ web.respond W mediaDir r
            = http.ServeContent W
                (http.Header_Set "Content-Type" mime http.NewRecorder) r
                (Str.TrimPrefix (http.URLPath r) "/media/") (ModTime f) (Data f).
Proof.
  split.
  - destruct (os_Open W (filepath.Join
                [mediaDir; Str.TrimPrefix (http.URLPath r) "/media/"]))
      as [e|[f|dir]] eqn:Ho.
    + unfold web.respond.
      rewrite (handler_open_fails W mediaDir _ r [] e Ho).
      now rewrite (handler_open_fails (with_sniffer d W) mediaDir _ r [] e Ho).
    + rewrite (respond_open_ok W mediaDir r f Ho).
      rewrite (respond_open_ok (with_sniffer d W) mediaDir r f Ho).
      eapply ServeContent_sniffer; [reflexivity | apply lookup_insert_eq].
    + rewrite (respond_open_dir W mediaDir r dir Ho).
      rewrite (respond_open_dir (with_sniffer d W) mediaDir r dir Ho).
      eapply ServeContentDir_sniffer; [reflexivity | apply lookup_insert_eq].
  - intros f Ho. eexists. split; [|exact (respond_open_ok W mediaDir r f Ho)].
    destruct (TypeByExtension W _); simpl; discriminate.
Qed.

Section Methods.

Import http.

Variable W : World.

Lemma Code_Write (data : string) (w : ResponseWriter) :
  Code (Write data w) = Code (WriteHeader StatusOK w).
Proof. reflexivity. Qed.

Lemma Code_WriteHeader_twice (a b : Z) (w : ResponseWriter) :
  Code (WriteHeader a (WriteHeader b w)) = Code (WriteHeader b w).
Proof. unfold WriteHeader. destruct (Code w) eqn:E; simpl; now rewrite ?E. Qed.

(** The status and the headers [send] leaves depend neither on the method
    nor on the body. *)
Lemma send_method (r1 r2 : Request) (code n : Z) (body1 body2 : string)
  (ranged : bool) (w : ResponseWriter) :
  Code (send r1 code n body1 ranged w) = Code (send r2 code n body2 ranged w)
  /\ Hdr (send r1 code n body1 ranged w) = Hdr (send r2 code n body2 ranged w).
Proof.
  unfold send.
  destruct (String.eqb (Method r1) "HEAD"), (String.eqb (Method r2) "HEAD");
    rewrite ?Code_Write, ?Code_WriteHeader_twice, ?Hdr_Write; auto.
Qed.

(** The preconditions are the same for GET and HEAD. *)
Lemma checkPreconditions_HEAD (w : ResponseWriter) (r : Request) (modtime : Time) :
  checkPreconditions W w (with_method "HEAD" r) modtime
  = checkPreconditions W w (with_method "GET" r) modtime.
Proof. reflexivity. Qed.

(** How the answer [h] to a HEAD and the answer [g] to the GET, both begun
    on the writer [w], compare: the same status; the same headers, but for
    the two that tell of the boundary of a multipart body; and no body for
    the HEAD with 200 or 206. *)
Local Abbreviation twin h g w :=
  (Code h = Code g
   /\ (forall k : string, k <> "Content-Type" -> k <> "Content-Length" ->
       Hdr h !! k = Hdr g !! k)
   /\ (status g <> 206 \/ is_Some (Hdr g !! "Content-Range") -> Hdr h = Hdr g)
   /\ (status h = 200 \/ status h = 206 -> Body h = Body w)).

Lemma twin_same (w1 w : ResponseWriter) :
  status w1 <> 200 -> status w1 <> 206 -> twin w1 w1 w.
Proof. intros H1 H2. repeat split; auto. intros [H|H]; contradiction. Qed.

Lemma twin_error (msg : string) (code : Z) (w' w : ResponseWriter) :
  Code w' = None -> code <> 200 -> code <> 206 ->
  twin (serveError msg code w') (serveError msg code w') w.
Proof.
  intros Hc H1 H2.
  destruct (serveError_fresh msg code w' Hc) as (Hc' & _).
  apply twin_same; unfold status; rewrite Hc'; exact H1 || exact H2.
Qed.

Lemma twin_send (rH rG : Request) (code n : Z) (b1 b2 : string) (ranged : bool)
  (w' w : ResponseWriter) :
  Method rH = "HEAD" -> Code w' = None -> Body w' = Body w ->
  twin (send rH code n b1 ranged w') (send rG code n b2 ranged w') w.
Proof.
  intros Hm Hc Hb.
  destruct (send_method rH rG code n b1 b2 ranged w') as [H1 H2].
  destruct (send_fresh rH code n b1 ranged w' Hc) as (_ & H3 & _).
  split; [exact H1|]. split; [intros k _ _; now rewrite H2|].
  split; [intros _; exact H2|]. intros _. now rewrite H3, Hm.
Qed.

Lemma twin_send_multi (rH rG : Request) (n1 n2 : Z) (b1 b2 v1 v2 : string)
  (w : ResponseWriter) :
  Method rH = "HEAD" -> Code w = None -> Hdr w !! "Content-Range" = None ->
  twin (send rH StatusPartialContent n1 b1 true (Header_Set "Content-Type" v1 w))
       (send rG StatusPartialContent n2 b2 true (Header_Set "Content-Type" v2 w)) w.
Proof.
  intros Hm Hc Hr.
  destruct (send_fresh rH StatusPartialContent n1 b1 true
              (Header_Set "Content-Type" v1 w) Hc) as (Hc1 & Hb1 & Hh1).
  destruct (send_fresh rG StatusPartialContent n2 b2 true
              (Header_Set "Content-Type" v2 w) Hc) as (Hc2 & _ & Hh2).
  destruct (send_headers rH StatusPartialContent n1 b1 true
              (Header_Set "Content-Type" v1 w)) as (Ha1 & _).
  destruct (send_headers rG StatusPartialContent n2 b2 true
              (Header_Set "Content-Type" v2 w)) as (Ha2 & _).
  split; [now rewrite Hc1, Hc2|]. split; [|split].
  - intros k Hk1 Hk2.
    destruct (decide (k = "Accept-Ranges")) as [->|Hk3]; [now rewrite Ha1, Ha2|].
    rewrite Hh1, Hh2 by assumption. simpl.
    now rewrite !lookup_insert_ne by congruence.
  - intros [H|H].
    + exfalso. apply H. unfold status. now rewrite Hc2.
    + exfalso. rewrite Hh2 in H by discriminate. simpl in H.
      rewrite lookup_insert_ne, Hr in H by discriminate.
      now destruct H.
  - intros _. now rewrite Hb1, Hm.
Qed.

Lemma deliver_twin (b1 b2 : string) (rH rG : Request) (content ctype : string)
  (ranges : list httpRange) (w : ResponseWriter) :
  Method rH = "HEAD" -> Code w = None -> Hdr w !! "Content-Range" = None ->
  twin (deliver (with_boundary b1 W) rH content ctype ranges w)
       (deliver (with_boundary b2 W) rG content ctype ranges w) w.
Proof.
  intros Hm Hc Hr. unfold deliver.
  destruct (if _ <? _ then [] else ranges) as [|ra [|ra' rest]]; cbv zeta.
  - now apply twin_send.
  - now apply twin_send.
  - now apply twin_send_multi.
Qed.

Lemma serveRanges_twin (b1 b2 : string) (rH rG : Request)
  (content ctype rangeReq : string) (w : ResponseWriter) :
  Method rH = "HEAD" -> Code w = None -> Hdr w !! "Content-Range" = None ->
  twin (serveRanges (with_boundary b1 W) rH content ctype rangeReq w)
       (serveRanges (with_boundary b2 W) rG content ctype rangeReq w) w.
Proof.
  intros Hm Hc Hr. unfold serveRanges.
  destruct (parseRange rangeReq _) as [[|]|ranges].
  - now apply twin_error.
  - destruct (_ =? 0); [now apply deliver_twin | now apply twin_error].
  - now apply deliver_twin.
Qed.

Lemma deliverDir_twin (b1 b2 : string) (rH rG : Request) (d : Dir) (size : Z)
  (ctype : string) (ranges : list httpRange) (w : ResponseWriter) :
  Method rH = "HEAD" -> Code w = None -> Hdr w !! "Content-Range" = None ->
  twin (deliverDir (with_boundary b1 W) rH d size ctype ranges w)
       (deliverDir (with_boundary b2 W) rG d size ctype ranges w) w.
Proof.
  intros Hm Hc Hr. unfold deliverDir.
  destruct (if _ <? _ then [] else ranges) as [|ra [|ra' rest]]; cbv zeta.
  - now apply twin_send.
  - destruct (DirSeek d (start ra)); [now apply twin_error | now apply twin_send].
  - now apply twin_send_multi.
Qed.

Lemma serveDirRanges_twin (b1 b2 : string) (rH rG : Request) (d : Dir)
  (ctype rangeReq : string) (w : ResponseWriter) :
  Method rH = "HEAD" -> Code w = None -> Hdr w !! "Content-Range" = None ->
  twin (serveDirRanges (with_boundary b1 W) rH d ctype rangeReq w)
       (serveDirRanges (with_boundary b2 W) rG d ctype rangeReq w) w.
Proof.
  intros Hm Hc Hr. unfold serveDirRanges.
  destruct (DirSize d) as [size|]; [|now apply twin_error].
  destruct (size <? 0); [now apply twin_error|].
  destruct (parseRange rangeReq size) as [[|]|ranges].
  - now apply twin_error.
  - destruct (size =? 0); [now apply deliverDir_twin | now apply twin_error].
  - now apply deliverDir_twin.
Qed.

(** The writer the handler hands on has no [Content-Range]. *)
Lemma prepared_no_range (modtime : Time) (mime : string) :
  Hdr (setLastModified W modtime (Header_Set "Content-Type" mime NewRecorder))
    !! "Content-Range" = None.
Proof.
  unfold setLastModified. destruct (isZeroTime modtime); simpl;
    rewrite ?lookup_insert_ne by discriminate; apply lookup_empty.
Qed.

(** What is done when [checkPreconditions] is done has neither 200 nor
    206. *)
Lemma done_twin (w0 w1 : ResponseWriter) :
  (Code w1 = Some StatusPreconditionFailed \/ Code w1 = Some StatusNotModified) ->
  twin w1 w1 w0.
Proof.
  intros [H|H]; apply twin_same; unfold status; rewrite H; discriminate.
Qed.

End Methods.

(** A HEAD request is answered with the status of the GET for the same path
    and headers and, but for the boundary of a multipart body, with its
    headers: each response draws a boundary of its own, which shows in
    [Content-Type] (and counts in [Content-Length]) of an answer to several
    ranges.  A HEAD answered with 200 or 206 has no body. *)
Theorem head_answers_like_get (W : World) (mediaDir : string) (r : http.Request)
  (b1 b2 : string) :
  let h := web.respond (with_boundary b1 W) mediaDir (with_method "HEAD" r) in
  let g := web.respond (with_boundary b2 W) mediaDir (with_method "GET" r) in
  http.Code h = http.Code g
  /\ (forall k : string, k <> "Content-Type" -> k <> "Content-Length" ->
      http.Hdr h !! k = http.Hdr g !! k)
  /\ (http.status g <> 206 \/ is_Some (http.Hdr g !! "Content-Range") ->
      http.Hdr h = http.Hdr g)
  /\ (http.status h = 200 \/ http.status h = 206 -> http.Body h = EmptyString).
Proof.
  intros h g. subst h g.
  set (W1 := with_boundary b1 W). set (W2 := with_boundary b2 W).
  destruct (os_Open W (filepath.Join
              [mediaDir; Str.TrimPrefix (http.URLPath r) "/media/"]))
    as [e|[f|d]] eqn:Ho.
  - unfold web.respond.
    rewrite (handler_open_fails W1 mediaDir _ (with_method "HEAD" r) [] e Ho).
    rewrite (handler_open_fails W2 mediaDir _ (with_method "GET" r) [] e Ho).
    split; [reflexivity|]. split; [reflexivity|]. split; [reflexivity|].
    intros [H|H]; vm_compute in H; discriminate.
  - rewrite (respond_open_ok W1 mediaDir (with_method "HEAD" r) f Ho).
    rewrite (respond_open_ok W2 mediaDir (with_method "GET" r) f Ho).
    change (http.URLPath (with_method "HEAD" r)) with (http.URLPath r).
    change (http.URLPath (with_method "GET" r)) with (http.URLPath r).
    change (TypeByExtension W1) with (TypeByExtension W).
    change (TypeByExtension W2) with (TypeByExtension W).
    match goal with |- context [http.Header_Set "Content-Type" ?m http.NewRecorder] =>
      set (mime := m);
      rewrite (ServeContent_handler W1 (http.Header_Set "Content-Type" mime http.NewRecorder)
                 (with_method "HEAD" r) _ (ModTime f)
                 (Data f) mime eq_refl (lookup_insert_eq _ _ _));
      rewrite (ServeContent_handler W2 (http.Header_Set "Content-Type" mime http.NewRecorder)
                 (with_method "GET" r) _ (ModTime f)
                 (Data f) mime eq_refl (lookup_insert_eq _ _ _));
      destruct (prepared_writer W (ModTime f) mime) as (Hc & Hb & _);
      pose proof (prepared_no_range W (ModTime f) mime) as Hr
    end.
    change (http.setLastModified W1) with (http.setLastModified W).
    change (http.setLastModified W2) with (http.setLastModified W).
    set (w0 := http.setLastModified W (ModTime f) _) in *.
    change (http.checkPreconditions W1 w0 (with_method "HEAD" r) (ModTime f))
      with (http.checkPreconditions W w0 (with_method "GET" r) (ModTime f)).
    change (http.checkPreconditions W2 w0 (with_method "GET" r) (ModTime f))
      with (http.checkPreconditions W w0 (with_method "GET" r) (ModTime f)).
    pose proof (checkPreconditions_cases W w0 (with_method "GET" r) (ModTime f) Hc)
      as Hpre.
    destruct (http.checkPreconditions W w0 (with_method "GET" r) (ModTime f))
      as [[w1 done] rangeReq].
    destruct done.
    + destruct (done_twin w0 w1 (proj1 Hpre)) as (T1 & T2 & T3 & T4).
      rewrite Hb in T4. auto.
    + destruct (serveRanges_twin W b1 b2 (with_method "HEAD" r)
                  (with_method "GET" r) (Data f) mime rangeReq w0 eq_refl Hc Hr)
        as (T1 & T2 & T3 & T4).
      rewrite Hb in T4. auto.
  - rewrite (respond_open_dir W1 mediaDir (with_method "HEAD" r) d Ho).
    rewrite (respond_open_dir W2 mediaDir (with_method "GET" r) d Ho).
    change (http.URLPath (with_method "HEAD" r)) with (http.URLPath r).
    change (http.URLPath (with_method "GET" r)) with (http.URLPath r).
    change (TypeByExtension W1) with (TypeByExtension W).
    change (TypeByExtension W2) with (TypeByExtension W).
    match goal with |- context [http.Header_Set "Content-Type" ?m http.NewRecorder] =>
      set (mime := m);
      rewrite (ServeContentDir_handler W1 (http.Header_Set "Content-Type" mime http.NewRecorder)
                 (with_method "HEAD" r) _ (DirModTime d)
                 d mime eq_refl (lookup_insert_eq _ _ _));
      rewrite (ServeContentDir_handler W2 (http.Header_Set "Content-Type" mime http.NewRecorder)
                 (with_method "GET" r) _ (DirModTime d)
                 d mime eq_refl (lookup_insert_eq _ _ _));
      destruct (prepared_writer W (DirModTime d) mime) as (Hc & Hb & _);
      pose proof (prepared_no_range W (DirModTime d) mime) as Hr
    end.
    change (http.setLastModified W1) with (http.setLastModified W).
    change (http.setLastModified W2) with (http.setLastModified W).
    set (w0 := http.setLastModified W (DirModTime d) _) in *.
    change (http.checkPreconditions W1 w0 (with_method "HEAD" r) (DirModTime d))
      with (http.checkPreconditions W w0 (with_method "GET" r) (DirModTime d)).
    change (http.checkPreconditions W2 w0 (with_method "GET" r) (DirModTime d))
      with (http.checkPreconditions W w0 (with_method "GET" r) (DirModTime d)).
    pose proof (checkPreconditions_cases W w0 (with_method "GET" r) (DirModTime d) Hc)
      as Hpre.
    destruct (http.checkPreconditions W w0 (with_method "GET" r) (DirModTime d))
      as [[w1 done] rangeReq].
    destruct done.
    + destruct (done_twin w0 w1 (proj1 Hpre)) as (T1 & T2 & T3 & T4).
      rewrite Hb in T4. auto.
    + destruct (serveDirRanges_twin W b1 b2 (with_method "HEAD" r)
                  (with_method "GET" r) d mime rangeReq w0 eq_refl Hc Hr)
        as (T1 & T2 & T3 & T4).
      rewrite Hb in T4. auto.
Qed.

(** Two answers to [Range: bytes=0-1,3-4], each with a boundary of its own. *)
Example head_and_get_boundaries :
  http.Hdr (web.respond (with_boundary "b1" sample.media_world) "/srv/media"
              (with_method "HEAD"
                 (sample.GET "/media/test.txt" [("Range", "bytes=0-1,3-4")])))
    !! "Content-Type" = Some "multipart/byteranges; boundary=b1"
  /\ http.Hdr (web.respond (with_boundary "b2" sample.media_world) "/srv/media"
                 (with_method "GET"
                    (sample.GET "/media/test.txt" [("Range", "bytes=0-1,3-4")])))
       !! "Content-Type" = Some "multipart/byteranges; boundary=b2".
Proof. split; vm_compute; reflexivity. Qed.

(** ** Ranges *)

Section RangesWithin.

Import http.

(** Every range one round of [parseRange] yields lies inside the
    content. *)
Lemma parse_one_range_within (size : Z) (ra : string) (b : bool) (r : httpRange) :
  0 <= size -> parse_one_range size ra = inr (b, Some r) ->
  ranges.within size r = true.
Proof.
  intros Hs. unfold parse_one_range, ranges.within.
  destruct (Str.is_empty (textproto.TrimString ra)); [discriminate|].
  destruct (cut_dash _) as [[first last]|]; [|discriminate].
  destruct (Str.is_empty (textproto.TrimString first)).
  - destruct (Str.is_empty _ || Str.HasPrefix _ "-"); [discriminate|].
    destruct (strconv.ParseInt _) as [i|]; [|discriminate].
    destruct (Z.ltb_spec i 0); [discriminate|].
    intros [= _ <-]. simpl.
    destruct (Z.ltb_spec size i); apply andb_true_iff; split;
      try apply andb_true_iff; try split; apply Z.leb_le; lia.
  - destruct (strconv.ParseInt (textproto.TrimString first)) as [i|]; [|discriminate].
    destruct (Z.ltb_spec i 0); [discriminate|].
    destruct (Z.leb_spec size i); [discriminate|].
    destruct (Str.is_empty (textproto.TrimString last)).
    + intros [= _ <-]. simpl. apply andb_true_iff; split;
        try apply andb_true_iff; try split; apply Z.leb_le; lia.
    + destruct (strconv.ParseInt (textproto.TrimString last)) as [j|]; [|discriminate].
      destruct (Z.ltb_spec j i); [discriminate|].
      intros [= _ <-]. simpl.
      destruct (Z.leb_spec size j); apply andb_true_iff; split;
        try apply andb_true_iff; try split; apply Z.leb_le; lia.
Qed.

Lemma parse_ranges_within (size : Z) (pieces : list string) (noOverlap : bool)
  (acc ranges : list httpRange) :
  0 <= size -> forallb (ranges.within size) acc = true ->
  parse_ranges size pieces noOverlap acc = inr ranges ->
  forallb (ranges.within size) ranges = true.
Proof.
  intros Hs. revert noOverlap acc.
  induction pieces as [|ra pieces IH]; intros noOverlap acc Hacc; simpl.
  - destruct (noOverlap && _); [discriminate|]. now intros [= <-].
  - destruct (parse_one_range size ra) as [e|[b [r|]]] eqn:E; [discriminate| |].
    + apply IH. rewrite forallb_app, Hacc. simpl.
      now rewrite (parse_one_range_within size ra b r Hs E).
    + now apply IH.
Qed.

(** The ranges [parseRange] returns lie inside the content. *)
Lemma parseRange_within (s : string) (size : Z) (ranges : list httpRange) :
  0 <= size -> parseRange s size = inr ranges ->
  forallb (ranges.within size) ranges = true.
Proof.
  intros Hs. unfold parseRange.
  destruct (Str.is_empty s); [now intros [= <-]|].
  destruct (negb _); [discriminate|].
  now apply parse_ranges_within.
Qed.

Lemma substring_length (n m : nat) (s : string) :
  (n + m <= String.length s)%nat -> String.length (String.substring n m s) = m.
Proof.
  revert n m. induction s as [|c s IH]; intros n m H; simpl in H.
  - destruct n, m; simpl; lia.
  - destruct n as [|n].
    + destruct m as [|m]; [reflexivity|]. simpl. f_equal. apply IH. lia.
    + simpl. apply IH. lia.
Qed.

(** The bytes of a range inside the content are as many as its length. *)
Lemma slice_length (content : string) (ra : httpRange) :
  ranges.within (Z.of_nat (String.length content)) ra = true ->
  Z.of_nat (String.length (slice content ra)) = length ra.
Proof.
  unfold ranges.within, slice. rewrite !andb_true_iff, !Z.leb_le.
  intros [[H1 H2] H3]. rewrite substring_length by lia. lia.
Qed.

End RangesWithin.

(** A request without preconditions whose [Range] header parses to one
    range is answered with 206 and exactly the bytes of that range: the
    range lies inside the file, the body has as many bytes as
    [Content-Length] says, and [Content-Range] names the range and the
    size of the file. *)
Theorem single_range_is_served_exactly (W : World) (mediaDir : string)
  (r : http.Request) (f : File) (ra : http.httpRange) :
  os_Open W (filepath.Join [mediaDir; Str.TrimPrefix (http.URLPath r) "/media/"])
  = inr (Regular f) ->
  http.Header_get (http.Header r) "If-Match" = EmptyString ->
  http.Header_get (http.Header r) "If-Unmodified-Since" = EmptyString ->
  http.Header_get (http.Header r) "If-None-Match" = EmptyString ->
  http.Header_get (http.Header r) "If-Modified-Since" = EmptyString ->
  http.Header_get (http.Header r) "If-Range" = EmptyString ->
  http.parseRange (http.Header_get (http.Header r) "Range")
    (Z.of_nat (String.length (Data f))) = inr [ra] ->
  http.Method r <> "HEAD" ->
  ranges.within (Z.of_nat (String.length (Data f))) ra = true
  /\ http.status (web.respond W mediaDir r) = 206
  /\ http.Body (web.respond W mediaDir r) = http.slice (Data f) ra
  /\ Z.of_nat (String.length (http.Body (web.respond W mediaDir r)))
     = http.length ra
  /\ http.Hdr (web.respond W mediaDir r) !! "Content-Length"
     = Some (strconv.FormatInt (http.length ra))
  /\ http.Hdr (web.respond W mediaDir r) !! "Content-Range"
     = Some (http.contentRange ra (Z.of_nat (String.length (Data f)))).
Proof.
  intros Ho H1 H2 H3 H4 H5 Hp Hm.
  assert (Hw : ranges.within (Z.of_nat (String.length (Data f))) ra = true).
  { pose proof (parseRange_within _ _ _ (Nat2Z.is_nonneg _) Hp) as H.
    simpl in H. now rewrite andb_true_r in H. }
  split; [exact Hw|].
  rewrite (respond_unconditional W mediaDir r f Ho H1 H2 H3 H4 H5).
  assert (Hle : http.length ra <= Z.of_nat (String.length (Data f))).
  { unfold ranges.within in Hw. rewrite !andb_true_iff, !Z.leb_le in Hw. lia. }
  rewrite (serveRanges_single W r (Data f) _ _ _ ra Hp Hle).
  match goal with |- context [http.setLastModified W ?t (http.Header_Set _ ?m _)] =>
    destruct (prepared_writer W t m) as (Hc & Hb & _ & Hce & _);
    set (w0 := http.setLastModified W t _) in *
  end.
  set (w1 := http.Header_Set "Content-Range" _ w0).
  destruct (send_fresh r http.StatusPartialContent (http.length ra)
              (http.slice (Data f) ra) true w1 Hc) as (Hc' & Hb' & Hh').
  destruct (send_headers r http.StatusPartialContent (http.length ra)
              (http.slice (Data f) ra) true w1) as (_ & Hcl).
  apply String.eqb_neq in Hm.
  unfold http.status.
  rewrite Hc', Hb', Hm, (Hh' "Content-Range") by discriminate.
  change (http.Body w1) with (http.Body w0). rewrite Hb.
  split; [reflexivity|]. split; [reflexivity|].
  split; [now apply slice_length|]. split.
  - apply Hcl. subst w1. simpl. now rewrite lookup_insert_ne.
  - subst w1. apply lookup_insert_eq.
Qed.

Lemma single_range_is_served_exactly_witness :
  http.Body (web.respond sample.media_world "/srv/media"
               (sample.GET "/media/test.txt" [("Range", "bytes=-5")])) = "World"
  /\ http.Hdr (web.respond sample.media_world "/srv/media"
                 (sample.GET "/media/test.txt" [("Range", "bytes=-5")]))
       !! "Content-Range" = Some "bytes 6-10/11".
Proof.
  destruct (single_range_is_served_exactly sample.media_world "/srv/media"
              (sample.GET "/media/test.txt" [("Range", "bytes=-5")])
              sample.hello (http.mkRange 6 5))
    as (_ & _ & H3 & _ & _ & H6); [reflexivity .. | discriminate |].
  split; [exact H3 | exact H6].
Defined.

(** ** The headers of a response *)

Section Headers.

Import http.

Variable W : World.

(** [writeNotModified] on a writer without entity tag and content encoding
    takes away the content type and length and nothing else. *)
Lemma writeNotModified_headers (w : ResponseWriter) (k : string) :
  Hdr w !! "Etag" = None -> Hdr w !! "Content-Encoding" = None ->
  k <> "Content-Type" -> k <> "Content-Length" ->
  Hdr (writeNotModified w) !! k = Hdr w !! k.
Proof.
  intros He Hce H1 H2. unfold writeNotModified.
  assert (Hg : Str.is_empty
                 (Header_get (Hdr (Header_Del "Content-Encoding"
                    (Header_Del "Content-Length" (Header_Del "Content-Type" w))))
                    "Etag") = true).
  { unfold Header_get. simpl. rewrite !lookup_delete_ne by discriminate.
    now rewrite He. }
  rewrite Hg, Hdr_WriteHeader. simpl.
  destruct (decide (k = "Content-Encoding")) as [->|Hk].
  - now rewrite lookup_delete_eq, Hce.
  - now rewrite !lookup_delete_ne by congruence.
Qed.

(** A header that is none of the five the end of [ServeContent] writes is
    as it was, unless it is one of the four an error answer clears. *)
Local Abbreviation kept_or_cleared w' w k :=
  (Hdr w' !! k%string
   = (if error_status (status w') && cleared k%string then None
      else Hdr w !! k%string)).

Lemma send_kept (r : Request) (code n : Z) (body : string) (ranged : bool)
  (w' w : ResponseWriter) (k : string) :
  Code w' = None -> error_status code = false ->
  k <> "Content-Length" -> k <> "Accept-Ranges" ->
  Hdr w' !! k = Hdr w !! k ->
  kept_or_cleared (send r code n body ranged w') w k.
Proof.
  intros Hc He H1 H2 Hk.
  destruct (send_fresh r code n body ranged w' Hc) as (Hc' & _ & Hh).
  unfold status. rewrite Hc'.
  change (default StatusOK (Some code)) with code. rewrite He. cbn [andb].
  now rewrite Hh by assumption.
Qed.

Lemma serveError_cleared (msg : string) (code : Z) (w' w : ResponseWriter)
  (k : string) :
  Code w' = None -> error_status code = true ->
  k <> "Content-Length" -> k <> "Content-Type" -> k <> "X-Content-Type-Options" ->
  Hdr w' !! k = Hdr w !! k ->
  kept_or_cleared (serveError msg code w') w k.
Proof.
  intros Hc He H1 H2 H3 Hk.
  destruct (serveError_fresh msg code w' Hc) as (Hc' & _).
  rewrite serveError_headers by assumption.
  unfold status. rewrite Hc'.
  change (default StatusOK (Some code)) with code. rewrite He. cbn [andb].
  now rewrite Hk.
Qed.

Lemma serveRanges_headers (r : Request) (content ctype rangeReq : string)
  (w : ResponseWriter) (k : string) :
  Code w = None ->
  k <> "Content-Type" -> k <> "Content-Length" -> k <> "Content-Range" ->
  k <> "Accept-Ranges" -> k <> "X-Content-Type-Options" ->
  kept_or_cleared (serveRanges W r content ctype rangeReq w) w k.
Proof.
  intros Hc H1 H2 H3 H4 H5.
  assert (Hd : forall ranges,
             kept_or_cleared (deliver W r content ctype ranges w) w k).
  { intros ranges. unfold deliver.
    destruct (if _ <? _ then [] else ranges) as [|ra [|ra' rest]]; cbv zeta;
      apply send_kept; try assumption; try reflexivity;
      simpl; now rewrite lookup_insert_ne by congruence. }
  unfold serveRanges.
  destruct (parseRange rangeReq _) as [[|]|ranges]; [| |apply Hd].
  - now apply serveError_cleared.
  - destruct (_ =? 0); [apply Hd|].
    apply serveError_cleared; try assumption; try reflexivity.
    simpl. now rewrite lookup_insert_ne by congruence.
Qed.

Lemma serveDirRanges_headers (r : Request) (d : Dir) (ctype rangeReq : string)
  (w : ResponseWriter) (k : string) :
  Code w = None ->
  k <> "Content-Type" -> k <> "Content-Length" -> k <> "Content-Range" ->
  k <> "Accept-Ranges" -> k <> "X-Content-Type-Options" ->
  kept_or_cleared (serveDirRanges W r d ctype rangeReq w) w k.
Proof.
  intros Hc H1 H2 H3 H4 H5.
  assert (Hd : forall size ranges,
             kept_or_cleared (deliverDir W r d size ctype ranges w) w k).
  { intros size ranges. unfold deliverDir.
    destruct (if _ <? _ then [] else ranges) as [|ra [|ra' rest]]; cbv zeta;
      [ | destruct (DirSeek d (start ra)); [now apply serveError_cleared|] | ];
      apply send_kept; try assumption; try reflexivity;
      simpl; now rewrite lookup_insert_ne by congruence. }
  unfold serveDirRanges.
  destruct (DirSize d) as [size|]; [|now apply serveError_cleared].
  destruct (size <? 0); [now apply serveError_cleared|].
  destruct (parseRange rangeReq size) as [[|]|ranges]; [| |apply Hd].
  - now apply serveError_cleared.
  - destruct (size =? 0); [apply Hd|].
    apply serveError_cleared; try assumption; try reflexivity.
    simpl. now rewrite lookup_insert_ne by congruence.
Qed.

(** What [checkPreconditions] answers when it is done is no error answer
    and clears no header but the two of a 304. *)
Lemma done_headers (w0 w1 : ResponseWriter) (r : Request) (modtime : Time)
  (rangeReq k : string) :
  Code w0 = None -> Hdr w0 !! "Etag" = None -> Hdr w0 !! "Content-Encoding" = None ->
  k <> "Content-Type" -> k <> "Content-Length" ->
  checkPreconditions W w0 r modtime = (w1, true, rangeReq) ->
  kept_or_cleared w1 w0 k.
Proof.
  intros Hc He Hce H1 H2 Heq.
  pose proof (checkPreconditions_cases W w0 r modtime Hc) as Hpre.
  pose proof (checkPreconditions_writer W w0 r modtime) as Hwr.
  rewrite Heq in Hpre, Hwr.
  assert (Hs : error_status (status w1) = false)
    by (unfold status; destruct Hpre as [[H|H] _]; rewrite H; reflexivity).
  rewrite Hs. simpl.
  destruct Hwr as [-> | [-> | ->]];
    [reflexivity | now rewrite Hdr_WriteHeader |].
  now apply writeNotModified_headers.
Qed.

(** [ServeContent], called as the handler calls it. *)
Lemma handler_ServeContent_headers (r : Request) (name : string) (modtime : Time)
  (content m k : string) :
  k <> "Content-Type" -> k <> "Content-Length" -> k <> "Content-Range" ->
  k <> "Accept-Ranges" -> k <> "X-Content-Type-Options" ->
  kept_or_cleared
    (ServeContent W (Header_Set "Content-Type" m NewRecorder) r name modtime content)
    (setLastModified W modtime (Header_Set "Content-Type" m NewRecorder)) k.
Proof.
  intros H1 H2 H3 H4 H5.
  rewrite (ServeContent_handler W (Header_Set "Content-Type" m NewRecorder) r name
             modtime content m eq_refl (lookup_insert_eq _ _ _)).
  destruct (prepared_writer W modtime m) as (Hc & _ & _ & Hce & He & _).
  set (w0 := setLastModified W modtime _) in *.
  destruct (checkPreconditions W w0 r modtime) as [[w1 done] rangeReq] eqn:Heq.
  destruct done.
  - now apply (done_headers w0 w1 r modtime rangeReq k).
  - now apply serveRanges_headers.
Qed.

Lemma handler_ServeContentDir_headers (r : Request) (name : string) (modtime : Time)
  (d : Dir) (m k : string) :
  k <> "Content-Type" -> k <> "Content-Length" -> k <> "Content-Range" ->
  k <> "Accept-Ranges" -> k <> "X-Content-Type-Options" ->
  kept_or_cleared
    (ServeContentDir W (Header_Set "Content-Type" m NewRecorder) r name modtime d)
    (setLastModified W modtime (Header_Set "Content-Type" m NewRecorder)) k.
Proof.
  intros H1 H2 H3 H4 H5.
  rewrite (ServeContentDir_handler W (Header_Set "Content-Type" m NewRecorder) r
             name modtime d m eq_refl (lookup_insert_eq _ _ _)).
  destruct (prepared_writer W modtime m) as (Hc & _ & _ & Hce & He & _).
  set (w0 := setLastModified W modtime _) in *.
  destruct (checkPreconditions W w0 r modtime) as [[w1 done] rangeReq] eqn:Heq.
  destruct done.
  - now apply (done_headers w0 w1 r modtime rangeReq k).
  - now apply serveDirRanges_headers.
Qed.

(** The headers of the response to a request whose target opened. *)
Lemma respond_headers (mediaDir : string) (r : Request) (h : Handle) (k : string) :
  os_Open W (filepath.Join [mediaDir; Str.TrimPrefix (URLPath r) "/media/"])
  = inr h ->
  k <> "Content-Type" -> k <> "Content-Length" -> k <> "Content-Range" ->
  k <> "Accept-Ranges" -> k <> "X-Content-Type-Options" ->
  exists m,
    kept_or_cleared (web.respond W mediaDir r)
      (setLastModified W (Handle_ModTime h)
         (Header_Set "Content-Type" m NewRecorder)) k.
Proof.
  intros Ho H1 H2 H3 H4 H5. destruct h as [f|d].
  - rewrite (respond_open_ok W mediaDir r f Ho). eexists.
    now apply handler_ServeContent_headers.
  - rewrite (respond_open_dir W mediaDir r d Ho). eexists.
    now apply handler_ServeContentDir_headers.
Qed.

End Headers.

(** Whatever the request, the response carries no header beyond
    [Content-Type], [Content-Length], [Content-Range], [Accept-Ranges],
    [Last-Modified] and [X-Content-Type-Options]: in particular the handler
    never sends an entity tag or a cache directive. *)
Theorem response_headers_are_six (W : World) (mediaDir : string)
  (r : http.Request) (k : string) :
  ~ In k ["Content-Type"; "Content-Length"; "Content-Range"; "Accept-Ranges";
          "Last-Modified"; "X-Content-Type-Options"] ->
  http.Hdr (web.respond W mediaDir r) !! k = None.
Proof.
  intros Hk.
  assert (Hne : k <> "Content-Type" /\ k <> "Content-Length"
                /\ k <> "Content-Range" /\ k <> "Accept-Ranges"
                /\ k <> "Last-Modified" /\ k <> "X-Content-Type-Options").
  { repeat split; intros ->; apply Hk; simpl; tauto. }
  destruct Hne as (H1 & H2 & H3 & H4 & H5 & H6).
  destruct (os_Open W (filepath.Join
              [mediaDir; Str.TrimPrefix (http.URLPath r) "/media/"]))
    as [e|h] eqn:Ho.
  - unfold web.respond. rewrite (handler_open_fails W mediaDir _ r [] e Ho).
    simpl fst. unfold http.NotFound. rewrite Error_headers by assumption.
    apply lookup_empty.
  - destruct (respond_headers W mediaDir r h k Ho H1 H2 H3 H4 H6) as (m & ->).
    destruct (_ && _); [reflexivity|].
    match goal with |- context [http.setLastModified W ?t ?w] =>
      destruct (isZeroTime_setLastModified W t w) as (_ & _ & Hh)
    end.
    rewrite Hh by assumption. simpl. now rewrite lookup_insert_ne.
Qed.

Lemma response_headers_are_six_witness :
  http.Hdr (web.respond sample.media_world "/srv/media"
              (sample.GET "/media/test.txt" [])) !! "Etag" = None
  /\ http.Hdr (web.respond sample.media_world "/srv/media"
                 (sample.GET "/media/test.txt" [])) !! "Cache-Control" = None.
Proof.
  split;
    apply (response_headers_are_six sample.media_world "/srv/media"
             (sample.GET "/media/test.txt" []));
    intros H; repeat (destruct H as [H|H]; [discriminate H|]); exact H.
Defined.

(** Every answer about a file or a directory that opened tells its
    modification time in [Last-Modified], unless that time is the zero time
    or the Unix epoch, and unless the answer is an error answer (416, or
    500 for a directory), from which the header is taken away again; a 404
    has no [Last-Modified]. *)
Theorem last_modified_of_opened_file (W : World) (mediaDir : string)
  (r : http.Request) :
  match os_Open W (filepath.Join
                     [mediaDir; Str.TrimPrefix (http.URLPath r) "/media/"]) with
  | inr h =>
      http.Hdr (web.respond W mediaDir r) !! "Last-Modified"
      = (if (http.status (web.respond W mediaDir r) =? 416)
            || (http.status (web.respond W mediaDir r) =? 500)
         then None
         else if http.isZeroTime (Handle_ModTime h) then None
         else Some (FormatTime W (Handle_ModTime h)))
  | inl _ => http.Hdr (web.respond W mediaDir r) !! "Last-Modified" = None
  end.
Proof.
  destruct (os_Open W _) as [e|h] eqn:Ho.
  - unfold web.respond. rewrite (handler_open_fails W mediaDir _ r [] e Ho).
    simpl fst. unfold http.NotFound. rewrite Error_headers by discriminate.
    apply lookup_empty.
  - destruct (respond_headers W mediaDir r h "Last-Modified" Ho)
      as (m & ->); try discriminate.
    change (http.cleared "Last-Modified") with true. rewrite andb_true_r.
    unfold http.error_status.
    change http.StatusRequestedRangeNotSatisfiable with 416.
    change http.StatusInternalServerError with 500.
    destruct (_ || _); [reflexivity|].
    now destruct (prepared_writer W (Handle_ModTime h) m) as (_ & _ & _ & _ & _ & ->).
Qed.

(** The header goes with a 200 and is gone from a 416. *)
Example last_modified_sample :
  http.Hdr (web.respond sample.media_world "/srv/media"
              (sample.GET "/media/test.txt" [])) !! "Last-Modified"
  = Some "Wed, 21 Oct 2015 07:28:00 GMT"
  /\ http.status (web.respond sample.media_world "/srv/media"
                    (sample.GET "/media/test.txt" [("Range", "bytes=100-200")]))
     = 416
  /\ http.Hdr (web.respond sample.media_world "/srv/media"
                 (sample.GET "/media/test.txt" [("Range", "bytes=100-200")]))
       !! "Last-Modified" = None.
Proof. repeat split; vm_compute; reflexivity. Qed.

(** ** Entity tags the handler never sets *)

Section NoEntityTag.

Import http paths.

Lemma contains_cons (c d : ascii) (s : string) :
  contains c (String d s) = Ascii.eqb c d || contains c s.
Proof. reflexivity. Qed.

Lemma contains_trim_left (c : ascii) (s : string) :
  contains c s = false -> contains c (textproto.trim_left s) = false.
Proof.
  induction s as [|d s IH]; [auto|]. rewrite contains_cons.
  intros H. apply orb_false_iff in H as [H1 H2]. simpl.
  destruct (textproto.isASCIISpace d); [auto|]. now rewrite contains_cons, H1, H2.
Qed.

Lemma contains_trim_right (c : ascii) (s : string) :
  contains c s = false -> contains c (textproto.trim_right s) = false.
Proof.
  induction s as [|d s IH]; [auto|]. rewrite contains_cons.
  intros H. apply orb_false_iff in H as [H1 H2]. simpl.
  specialize (IH H2).
  destruct (textproto.trim_right s) as [|e t].
  - destruct (textproto.isASCIISpace d); [reflexivity|].
    now rewrite contains_cons, H1.
  - now rewrite contains_cons, H1, IH.
Qed.

Lemma contains_TrimString (c : ascii) (s : string) :
  contains c s = false -> contains c (textproto.TrimString s) = false.
Proof.
  intros H. unfold textproto.TrimString.
  now apply contains_trim_right, contains_trim_left.
Qed.

Lemma contains_drop (c : ascii) (n : nat) (s : string) :
  contains c s = false -> contains c (Str.drop n s) = false.
Proof.
  revert s. induction n as [|n IH]; intros [|d s] H; simpl; auto.
  rewrite contains_cons in H. apply orb_false_iff in H as [_ H]. now apply IH.
Qed.

Lemma contains_scan_quoted (c : ascii) (s tag remain : string) :
  scan_quoted s = Some (tag, remain) -> contains c s = false ->
  contains c remain = false.
Proof.
  revert tag. induction s as [|d s IH]; intros tag; simpl; [discriminate|].
  rewrite contains_cons. intros Hs H. apply orb_false_iff in H as [_ H].
  destruct (etag_char d).
  - destruct (scan_quoted s) as [[t r]|]; [|discriminate].
    injection Hs as _ <-. now apply (IH t).
  - destruct (Ascii.eqb d dquote); [|discriminate]. now injection Hs as _ <-.
Qed.

(** The entity tag [scan_opaque] finds begins with a quote; what is left
    holds no byte the input did not hold. *)
Lemma scan_opaque_shape (c : ascii) (q tag remain : string) :
  scan_opaque q = Some (tag, remain) ->
  (exists t, tag = String dquote t)
  /\ (contains c q = false -> contains c remain = false).
Proof.
  destruct q as [|a [|b q]]; try discriminate. unfold scan_opaque.
  destruct (Ascii.eqb_spec a dquote) as [->|]; [|discriminate].
  destruct (scan_quoted (String b q)) as [[t r]|] eqn:E; [|discriminate].
  intros [= <- <-]. split; [eauto|].
  rewrite contains_cons. intros H. apply orb_false_iff in H as [_ H].
  exact (contains_scan_quoted c _ _ _ E H).
Qed.

(** Against a response without entity tag no scanned tag matches, weakly
    or strongly. *)
Lemma scanETag_never_matches (c : ascii) (weak : bool) (s : string) :
  (Str.is_empty (fst (scanETag s)) = false ->
   (if weak then etagWeakMatch (fst (scanETag s)) EmptyString
    else etagStrongMatch (fst (scanETag s)) EmptyString) = false)
  /\ (contains c s = false -> contains c (snd (scanETag s)) = false).
Proof.
  unfold scanETag.
  destruct (scan_opaque _) as [[tag remain]|] eqn:E.
  - destruct (scan_opaque_shape c _ _ _ E) as [[t ->] Hc]. split.
    + intros _.
      destruct (Str.HasPrefix (textproto.TrimString s) "W/"), weak; reflexivity.
    + intros H. apply Hc.
      destruct (Str.HasPrefix (textproto.TrimString s) "W/");
        [apply contains_drop|]; now apply contains_TrimString.
  - split; [discriminate | reflexivity].
Qed.

(** A list of entity tags without a star matches nothing when the response
    has no entity tag. *)
Lemma etag_list_no_star (fuel : nat) (weak : bool) (list : string) :
  contains "*" list = false ->
  etag_list_matches fuel weak EmptyString list = false.
Proof.
  revert list. induction fuel as [|fuel IH]; intros list H; [reflexivity|].
  simpl. pose proof (contains_TrimString "*" list H) as Ht.
  destruct (textproto.TrimString list) as [|c rest]; [reflexivity|].
  pose proof Ht as Ht'. rewrite contains_cons in Ht'.
  apply orb_false_iff in Ht' as [Hc Hrest].
  destruct (Ascii.eqb c ","); [now apply IH|].
  rewrite Ascii.eqb_sym, Hc.
  destruct (scanETag_never_matches "*" weak (String c rest)) as [Hm Hr].
  destruct (scanETag (String c rest)) as [etag remain]. simpl in Hm, Hr.
  destruct (Str.is_empty etag); [reflexivity|].
  rewrite (Hm eq_refl). apply IH, Hr, Ht.
Qed.

End NoEntityTag.

(** Since the handler sets no entity tag, a request with an [If-Match]
    header that has no star in it is refused with 412 Precondition Failed
    and an empty body, whatever the file and the other headers. *)
Theorem if_match_without_star_is_412 (W : World) (mediaDir : string)
  (r : http.Request) (f : File) :
  os_Open W (filepath.Join [mediaDir; Str.TrimPrefix (http.URLPath r) "/media/"])
  = inr (Regular f) ->
  http.Header_get (http.Header r) "If-Match" <> EmptyString ->
  paths.contains "*" (http.Header_get (http.Header r) "If-Match") = false ->
  http.status (web.respond W mediaDir r) = 412
  /\ http.Body (web.respond W mediaDir r) = EmptyString.
Proof.
  intros Ho Hne Hstar.
  rewrite (respond_open_ok W mediaDir r f Ho). unfold http.ServeContent.
  match goal with |- context [http.setLastModified W ?t (http.Header_Set _ ?m _)] =>
    destruct (prepared_writer W t m) as (Hc & Hb & _ & _ & He & _);
    set (w0 := http.setLastModified W t _) in *
  end.
  assert (Hpre : http.checkPreconditions W w0 r (ModTime f)
                 = (http.WriteHeader http.StatusPreconditionFailed w0, true,
                    EmptyString)).
  { unfold http.checkPreconditions, http.checkIfMatch.
    apply is_empty_false in Hne. rewrite Hne.
    assert (Hg : http.Header_get (http.Hdr w0) "Etag" = EmptyString)
      by (unfold http.Header_get; now rewrite He).
    rewrite Hg. now rewrite etag_list_no_star. }
  rewrite Hpre. unfold http.status.
  rewrite (Code_WriteHeader_fresh _ _ Hc), Body_WriteHeader, Hb. auto.
Qed.

Lemma if_match_without_star_is_412_witness :
  http.status
    (web.respond sample.media_world "/srv/media"
       (sample.GET "/media/test.txt" [("If-Match", "W/latest, v2")])) = 412.
Proof.
  apply (if_match_without_star_is_412 sample.media_world "/srv/media"
           (sample.GET "/media/test.txt" [("If-Match", "W/latest, v2")])
           sample.hello); [reflexivity | discriminate | reflexivity].
Defined.

(** For the same reason an [If-None-Match] header without a star never
    leads to 304: with it (and no [If-Match], [If-Unmodified-Since] or
    [Range]) the whole file is sent with 200, whatever [If-Modified-Since]
    says. *)
Theorem if_none_match_without_star_gets_file (W : World) (mediaDir : string)
  (r : http.Request) (f : File) :
  os_Open W (filepath.Join [mediaDir; Str.TrimPrefix (http.URLPath r) "/media/"])
  = inr (Regular f) ->
  http.Header_get (http.Header r) "If-Match" = EmptyString ->
  http.Header_get (http.Header r) "If-Unmodified-Since" = EmptyString ->
  http.Header_get (http.Header r) "If-None-Match" <> EmptyString ->
  paths.contains "*" (http.Header_get (http.Header r) "If-None-Match") = false ->
  http.Header_get (http.Header r) "Range" = EmptyString ->
  http.status (web.respond W mediaDir r) = 200
  /\ http.Body (web.respond W mediaDir r)
     = (if String.eqb (http.Method r) "HEAD" then EmptyString else Data f).
Proof.
  intros Ho H1 H2 Hne Hstar Hr.
  rewrite (respond_open_ok W mediaDir r f Ho). unfold http.ServeContent.
  match goal with |- context [http.setLastModified W ?t (http.Header_Set _ ?m _)] =>
    destruct (prepared_writer W t m) as (Hc & Hb & Hct & _ & He & _);
    set (w0 := http.setLastModified W t _) in *
  end.
  assert (Hpre : http.checkPreconditions W w0 r (ModTime f)
                 = (w0, false, EmptyString)).
  { unfold http.checkPreconditions, http.checkIfMatch,
      http.checkIfUnmodifiedSince, http.checkIfNoneMatch.
    rewrite H1, H2, Hr. simpl Str.is_empty. cbv iota.
    apply is_empty_false in Hne. rewrite Hne.
    assert (Hg : http.Header_get (http.Hdr w0) "Etag" = EmptyString)
      by (unfold http.Header_get; now rewrite He).
    rewrite Hg. now rewrite etag_list_no_star. }
  rewrite Hpre.
  destruct (resolveContentType_writer W
              (Str.TrimPrefix (http.URLPath r) "/media/") (Data f) w0)
    as (_ & _ & Hrc).
  rewrite (Hrc _ Hct), serveRanges_none.
  destruct (send_fresh r http.StatusOK (Z.of_nat (String.length (Data f)))
              (Data f) false w0 Hc) as (Hc' & Hb' & _).
  unfold http.status. rewrite Hc', Hb', Hb. split; [reflexivity|].
  now destruct (String.eqb _ _).
Qed.

Lemma if_none_match_without_star_gets_file_witness :
  http.status
    (web.respond sample.media_world "/srv/media"
       (sample.GET "/media/test.txt"
          [("If-None-Match", "v1");
           ("If-Modified-Since", "Wed, 21 Oct 2015 07:28:00 GMT")])) = 200.
Proof.
  apply (if_none_match_without_star_gets_file sample.media_world "/srv/media"
           (sample.GET "/media/test.txt"
              [("If-None-Match", "v1");
               ("If-Modified-Since", "Wed, 21 Oct 2015 07:28:00 GMT")])
           sample.hello);
    [reflexivity | reflexivity | reflexivity | discriminate | reflexivity
    | reflexivity].
Defined.

(** ** The tests of the handler *)

Section Tests.

Variables (lib : World) (tmp : string).

Lemma test_target :
  filepath.Join [filepath.Join [tmp; "media"];
                 Str.TrimPrefix (http.URLPath webtest.req) "/media/"]
  = filepath.Join [filepath.Join [tmp; "media"]; "test.txt"].
Proof. reflexivity. Qed.

Lemma world_of_Open (fs : gmap string File) (path : string) :
  os_Open (webtest.world_of lib fs) path
  = match fs !! path with Some f => inr (Regular f) | None => inl ENOENT end.
Proof. reflexivity. Qed.

Lemma TestNewMediaHandler_respond (W : World) :
  webtest.TestNewMediaHandler W tmp
  = let rr := web.respond W (filepath.Join [tmp; "media"]) webtest.req in
    if http.status rr =? http.StatusNotFound then []
    else ["expected status code " +:+ strconv.FormatInt http.StatusNotFound
          +:+ ", got " +:+ strconv.FormatInt (http.status rr)].
Proof.
  unfold webtest.TestNewMediaHandler, web.respond.
  now destruct (web.NewMediaHandler _ _ _ _ _).
Qed.

Lemma TestMediaHandler_respond (fs : gmap string File) (now : Time) :
  webtest.TestMediaHandler lib tmp fs now
  = let rr :=
      web.respond
        (webtest.world_of lib
           (<[filepath.Join [filepath.Join [tmp; "media"]; "test.txt"]
              := mkFile "Hello World" now]> fs))
        (filepath.Join [tmp; "media"]) webtest.req in
    ((if http.status rr =? http.StatusOK then []
      else ["expected status code " +:+ strconv.FormatInt http.StatusOK
            +:+ ", got " +:+ strconv.FormatInt (http.status rr)])
     ++ (if String.eqb (http.Header_get (http.Hdr rr) "Content-Type") "text/plain"
         then []
         else ["expected content type text/plain, got "
               +:+ http.Header_get (http.Hdr rr) "Content-Type"]))%list.
Proof.
  unfold webtest.TestMediaHandler, web.respond.
  now destruct (web.NewMediaHandler _ _ _ _ _).
Qed.

(** The response [TestMediaHandler] looks at. *)
Lemma TestMediaHandler_response (fs : gmap string File) (now : Time) :
  let rr :=
    web.respond
      (webtest.world_of lib
         (<[filepath.Join [filepath.Join [tmp; "media"]; "test.txt"]
            := mkFile "Hello World" now]> fs))
      (filepath.Join [tmp; "media"]) webtest.req in
  http.status rr = 200
  /\ http.Header_get (http.Hdr rr) "Content-Type"
     = (if Str.is_empty (TypeByExtension lib ".txt")
        then "application/octet-stream" else TypeByExtension lib ".txt").
Proof.
  intros rr. subst rr.
  set (Wt := webtest.world_of lib _).
  assert (Ho : os_Open Wt
                 (filepath.Join [filepath.Join [tmp; "media"];
                    Str.TrimPrefix (http.URLPath webtest.req) "/media/"])
               = inr (Regular (mkFile "Hello World" now))).
  { rewrite test_target. subst Wt. rewrite world_of_Open.
    now rewrite lookup_insert_eq. }
  rewrite (respond_unconditional Wt _ webtest.req _ Ho eq_refl eq_refl eq_refl
             eq_refl eq_refl).
  change (http.Header_get (http.Header webtest.req) "Range") with EmptyString.
  rewrite serveRanges_none.
  match goal with |- context [http.setLastModified Wt ?t (http.Header_Set _ ?m _)] =>
    destruct (prepared_writer Wt t m) as (Hc & Hb & Hct & _);
    set (w0 := http.setLastModified Wt t _) in *
  end.
  destruct (send_fresh webtest.req http.StatusOK
              (Z.of_nat (String.length (Data (mkFile "Hello World" now))))
              (Data (mkFile "Hello World" now)) false w0 Hc) as (Hc' & _ & Hh').
  unfold http.status, http.Header_get.
  rewrite Hc', (Hh' "Content-Type"), Hct by discriminate. split; reflexivity.
Qed.

End Tests.

(** [TestNewMediaHandler] passes exactly when [test.txt] in the media
    directory under the temporary directory cannot be opened: it is not
    there, or it is there and cannot be read.  The test makes sure of the
    directory and does not empty it: a file or a directory of that name
    that opens fails the test, and the message tells the status. *)
Theorem TestNewMediaHandler_passes_iff (W : World) (tmp : string) :
  (webtest.TestNewMediaHandler W tmp = []
   <-> exists e,
         os_Open W (filepath.Join [filepath.Join [tmp; "media"]; "test.txt"])
         = inl e)
  /\ (forall h,
        os_Open W (filepath.Join [filepath.Join [tmp; "media"]; "test.txt"])
        = inr h ->
        webtest.TestNewMediaHandler W tmp
        = ["expected status code 404, got "
           +:+ strconv.FormatInt
                 (http.status
                    (web.respond W (filepath.Join [tmp; "media"]) webtest.req))]).
Proof.
  rewrite TestNewMediaHandler_respond. cbv zeta.
  pose proof (respond_404_iff W (filepath.Join [tmp; "media"]) webtest.req) as H.
  rewrite test_target in H.
  destruct (Z.eqb_spec (http.status (web.respond W
              (filepath.Join [tmp; "media"]) webtest.req)) http.StatusNotFound)
    as [Hs|Hs].
  - apply H in Hs as [e He]. split.
    + split; [eauto | reflexivity].
    + intros h Hh. congruence.
  - split.
    + split; [discriminate|]. intros He. exfalso. now apply Hs, H.
    + intros h Hh. reflexivity.
Qed.

(** A file the test cannot read passes it; a directory of that name fails
    it. *)
Example TestNewMediaHandler_sample :
  webtest.TestNewMediaHandler
    (mkWorld (fun path => if String.eqb path "/tmp/media/test.txt"
                          then inl EACCES else inl ENOENT)
       sample.typeByExtension (fun _ => "application/octet-stream")
       sample.parseTime sample.formatTime "b0undary") "/tmp" = []
  /\ webtest.TestNewMediaHandler
       (mkWorld (fun path => if String.eqb path "/tmp/media/test.txt"
                             then inr (Directory sample.albums) else inl ENOENT)
          sample.typeByExtension (fun _ => "application/octet-stream")
          sample.parseTime sample.formatTime "b0undary") "/tmp"
     = ["expected status code 404, got 200"].
Proof. split; vm_compute; reflexivity. Qed.


(** With the table of the sample world, where text types carry a charset,
    the second test reports the content type. *)
Example TestMediaHandler_sample :
  webtest.TestNewMediaHandler (sample.world []) "/tmp" = []
  /\ webtest.TestMediaHandler (sample.world []) "/tmp" ∅ (mkTime 1445412480 0)
     = ["expected content type text/plain, got text/plain; charset=utf-8"].
Proof. split; vm_compute; reflexivity. Qed.

(** ** More on statuses *)

Lemma writeNotModified_deletes (w : http.ResponseWriter) :
  http.Hdr (http.writeNotModified w) !! "Content-Type" = None
  /\ http.Hdr (http.writeNotModified w) !! "Content-Length" = None.
Proof.
  unfold http.writeNotModified. rewrite Hdr_WriteHeader.
  destruct (Str.is_empty _); simpl;
    rewrite ?lookup_delete_ne by discriminate; split;
    rewrite ?lookup_delete_ne by discriminate; apply lookup_delete_eq.
Qed.

(** A 304 has neither [Content-Type] nor [Content-Length] nor a body: the
    content type the handler has set is taken away again. *)
Theorem not_modified_has_no_entity_headers (W : World) (mediaDir : string)
  (r : http.Request) :
  http.status (web.respond W mediaDir r) = 304 ->
  http.Hdr (web.respond W mediaDir r) !! "Content-Type" = None
  /\ http.Hdr (web.respond W mediaDir r) !! "Content-Length" = None
  /\ http.Body (web.respond W mediaDir r) = EmptyString.
Proof.
  assert (Hdone : forall (w0 w1 : http.ResponseWriter) (t : Time) (rangeReq : string),
             http.Code w0 = None -> http.Body w0 = EmptyString ->
             http.checkPreconditions W w0 r t = (w1, true, rangeReq) ->
             http.status w1 = 304 ->
             http.Hdr w1 !! "Content-Type" = None
             /\ http.Hdr w1 !! "Content-Length" = None
             /\ http.Body w1 = EmptyString).
  { intros w0 w1 t rangeReq Hc Hb Heq. unfold http.status.
    pose proof (checkPreconditions_writer W w0 r t) as Hwr. rewrite Heq in Hwr.
    intros Hs. destruct Hwr as [-> | [-> | ->]].
    - rewrite Hc in Hs. discriminate.
    - rewrite (Code_WriteHeader_fresh _ _ Hc) in Hs. discriminate.
    - destruct (writeNotModified_deletes w0) as [Hd1 Hd2].
      destruct (writeNotModified_fresh w0 Hc) as [_ Hb'].
      rewrite Hd1, Hd2, Hb', Hb. auto. }
  destruct (os_Open W (filepath.Join
              [mediaDir; Str.TrimPrefix (http.URLPath r) "/media/"]))
    as [e|[f|d]] eqn:Ho.
  - intros Hs. exfalso.
    assert (H404 : http.status (web.respond W mediaDir r) = 404)
      by (apply respond_404_iff; eauto).
    congruence.
  - rewrite (respond_open_ok W mediaDir r f Ho).
    match goal with |- context [http.Header_Set "Content-Type" ?m http.NewRecorder] =>
      rewrite (ServeContent_handler W (http.Header_Set "Content-Type" m http.NewRecorder)
                 r _ (ModTime f) (Data f) m eq_refl (lookup_insert_eq _ _ _));
      destruct (prepared_writer W (ModTime f) m) as (Hc & Hb & _)
    end.
    set (w0 := http.setLastModified W (ModTime f) _) in *.
    destruct (http.checkPreconditions W w0 r (ModTime f))
      as [[w1 done] rangeReq] eqn:Heq.
    destruct done; [now apply (Hdone w0 w1 (ModTime f) rangeReq)|].
    unfold http.status.
    match goal with |- context [http.serveRanges W r ?c ?m ?q w0] =>
      destruct (serveRanges_outcome W r c m q w0 Hc Hb) as [(H & _)|[H|H]]
    end; rewrite H; discriminate.
  - rewrite (respond_open_dir W mediaDir r d Ho).
    match goal with |- context [http.Header_Set "Content-Type" ?m http.NewRecorder] =>
      rewrite (ServeContentDir_handler W
                 (http.Header_Set "Content-Type" m http.NewRecorder)
                 r _ (DirModTime d) d m eq_refl (lookup_insert_eq _ _ _));
      destruct (prepared_writer W (DirModTime d) m) as (Hc & Hb & _)
    end.
    set (w0 := http.setLastModified W (DirModTime d) _) in *.
    destruct (http.checkPreconditions W w0 r (DirModTime d))
      as [[w1 done] rangeReq] eqn:Heq.
    destruct done; [now apply (Hdone w0 w1 (DirModTime d) rangeReq)|].
    unfold http.status.
    match goal with |- context [http.serveDirRanges W r d ?m ?q w0] =>
      destruct (serveDirRanges_outcome W r d m q w0 Hc) as (c & H & Hcs)
    end.
    rewrite H. simpl. intros ->.
    repeat destruct Hcs as [Hcs|Hcs]; discriminate.
Qed.

Lemma not_modified_has_no_entity_headers_witness :
  http.Hdr
    (web.respond sample.media_world "/srv/media"
       (sample.GET "/media/test.txt"
          [("If-Modified-Since", "Wed, 21 Oct 2015 07:28:00 GMT")]))
    !! "Content-Type" = None.
Proof.
  apply (not_modified_has_no_entity_headers sample.media_world "/srv/media"
           (sample.GET "/media/test.txt"
              [("If-Modified-Since", "Wed, 21 Oct 2015 07:28:00 GMT")])).
  reflexivity.
Defined.

(** Ranges that add up to more bytes than the file has are ignored: the
    whole file is sent with 200 and without [Content-Range]. *)
Theorem oversized_ranges_are_ignored (W : World) (mediaDir : string)
  (r : http.Request) (f : File) (ranges : list http.httpRange) :
  os_Open W (filepath.Join [mediaDir; Str.TrimPrefix (http.URLPath r) "/media/"])
  = inr (Regular f) ->
  http.Header_get (http.Header r) "If-Match" = EmptyString ->
  http.Header_get (http.Header r) "If-Unmodified-Since" = EmptyString ->
  http.Header_get (http.Header r) "If-None-Match" = EmptyString ->
  http.Header_get (http.Header r) "If-Modified-Since" = EmptyString ->
  http.Header_get (http.Header r) "If-Range" = EmptyString ->
  http.parseRange (http.Header_get (http.Header r) "Range")
    (Z.of_nat (String.length (Data f))) = inr ranges ->
  Z.of_nat (String.length (Data f)) < http.sumRangesSize ranges ->
  http.status (web.respond W mediaDir r) = 200
  /\ http.Body (web.respond W mediaDir r)
     = (if String.eqb (http.Method r) "HEAD" then EmptyString else Data f)
  /\ http.Hdr (web.respond W mediaDir r) !! "Content-Range" = None.
Proof.
  intros Ho H1 H2 H3 H4 H5 Hp Hsum.
  rewrite (respond_unconditional W mediaDir r f Ho H1 H2 H3 H4 H5).
  unfold http.serveRanges. rewrite Hp. unfold http.deliver.
  apply Z.ltb_lt in Hsum. rewrite Hsum.
  match goal with |- context [http.setLastModified W ?t (http.Header_Set _ ?m _)] =>
    destruct (prepared_writer W t m) as (Hc & Hb & _);
    set (w0 := http.setLastModified W t _) in *
  end.
  destruct (send_fresh r http.StatusOK (Z.of_nat (String.length (Data f)))
              (Data f) false w0 Hc) as (Hc' & Hb' & Hh').
  unfold http.status. rewrite Hc', Hb', Hb, (Hh' "Content-Range") by discriminate.
  split; [reflexivity|]. split; [now destruct (String.eqb _ _)|].
  subst w0. unfold http.setLastModified.
  destruct (http.isZeroTime (ModTime f)); simpl;
    rewrite ?lookup_insert_ne by discriminate; apply lookup_empty.
Qed.

Lemma oversized_ranges_are_ignored_witness :
  http.status
    (web.respond sample.media_world "/srv/media"
       (sample.GET "/media/test.txt" [("Range", "bytes=0-10,0-10")])) = 200.
Proof.
  apply (oversized_ranges_are_ignored sample.media_world "/srv/media"
           (sample.GET "/media/test.txt" [("Range", "bytes=0-10,0-10")])
           sample.hello [http.mkRange 0 11; http.mkRange 0 11]); reflexivity.
Defined.

(** Several ranges that fit are sent as one [multipart/byteranges] body
    with 206: the [Content-Type] header then names the multipart type and
    its boundary, and the type of the file moves into the parts. *)
Theorem several_ranges_are_multipart (W : World) (mediaDir : string)
  (r : http.Request) (f : File) (ra1 ra2 : http.httpRange)
  (rest : list http.httpRange) :
  os_Open W (filepath.Join [mediaDir; Str.TrimPrefix (http.URLPath r) "/media/"])
  = inr (Regular f) ->
  http.Header_get (http.Header r) "If-Match" = EmptyString ->
  http.Header_get (http.Header r) "If-Unmodified-Since" = EmptyString ->
  http.Header_get (http.Header r) "If-None-Match" = EmptyString ->
  http.Header_get (http.Header r) "If-Modified-Since" = EmptyString ->
  http.Header_get (http.Header r) "If-Range" = EmptyString ->
  http.parseRange (http.Header_get (http.Header r) "Range")
    (Z.of_nat (String.length (Data f))) = inr (ra1 :: ra2 :: rest) ->
  http.sumRangesSize (ra1 :: ra2 :: rest) <= Z.of_nat (String.length (Data f)) ->
  http.Method r <> "HEAD" ->
  let byExt := TypeByExtension W
                 (filepath.Ext (Str.TrimPrefix (http.URLPath r) "/media/")) in
  http.status (web.respond W mediaDir r) = 206
  /\ http.Hdr (web.respond W mediaDir r) !! "Content-Type"
     = Some ("multipart/byteranges; boundary=" +:+ Boundary W)
  /\ http.Body (web.respond W mediaDir r)
     = http.multipart_parts (Boundary W)
         (if Str.is_empty byExt then "application/octet-stream" else byExt)
         (Data f) (Z.of_nat (String.length (Data f))) true (ra1 :: ra2 :: rest).
Proof.
  intros Ho H1 H2 H3 H4 H5 Hp Hsum Hm byExt. subst byExt.
  rewrite (respond_unconditional W mediaDir r f Ho H1 H2 H3 H4 H5).
  unfold http.serveRanges. rewrite Hp. unfold http.deliver.
  destruct (Z.ltb_spec (Z.of_nat (String.length (Data f)))
              (http.sumRangesSize (ra1 :: ra2 :: rest))); [lia|].
  cbv zeta.
  match goal with |- context [http.setLastModified W ?t (http.Header_Set _ ?m _)] =>
    destruct (prepared_writer W t m) as (Hc & Hb & _);
    set (w0 := http.setLastModified W t _) in *
  end.
  set (w1 := http.Header_Set "Content-Type" _ w0).
  set (body := http.multipart_parts _ _ _ _ _ _).
  set (n := http.rangesMIMESize _ _ _ _).
  destruct (send_fresh r http.StatusPartialContent n body true w1 Hc)
    as (Hc' & Hb' & Hh').
  apply String.eqb_neq in Hm.
  unfold http.status. rewrite Hc', Hb', Hm, (Hh' "Content-Type") by discriminate.
  change (http.Body w1) with (http.Body w0). rewrite Hb.
  split; [reflexivity|]. split; [|reflexivity].
  subst w1. apply lookup_insert_eq.
Qed.

Lemma several_ranges_are_multipart_witness :
  http.Hdr
    (web.respond sample.media_world "/srv/media"
       (sample.GET "/media/test.txt" [("Range", "bytes=0-1,3-4")]))
    !! "Content-Type" = Some "multipart/byteranges; boundary=b0undary".
Proof.
  destruct (several_ranges_are_multipart sample.media_world "/srv/media"
              (sample.GET "/media/test.txt" [("Range", "bytes=0-1,3-4")])
              sample.hello (http.mkRange 0 2) (http.mkRange 3 2) [])
    as (_ & H & _); [reflexivity .. | discriminate | discriminate |].
  exact H.
Defined.

Lemma zero_time_ignores_if_modified_since_witness :
  http.status
    (web.respond sample.epoch_world "/srv/media"
       (sample.GET "/media/test.txt"
          [("If-Modified-Since", "Thu, 01 Jan 1970 00:00:00 GMT")])) = 200.
Proof.
  apply (zero_time_ignores_if_modified_since sample.epoch_world "/srv/media"
           (sample.GET "/media/test.txt"
              [("If-Modified-Since", "Thu, 01 Jan 1970 00:00:00 GMT")])
           (mkFile "Hello World" time.unixEpochTime)); reflexivity.
Defined.

(** ** From [main] to the handler *)

(** The server [main] sets up keeps a request path without [..] at or
    below its root, unless the root is [/] itself. *)
Theorem served_target_below_configured_root (P : server.Process)
  (pattern root addr : string) (r : http.Request) :
  (forall d, server.Getwd P = Some d -> filepath.IsAbs d = true) ->
  server.main P = server.Serving pattern root addr ->
  root <> "/" ->
  web.has_dotdot (http.URLPath r) = false ->
  web.is_descendant root
    (filepath.Join [root; Str.TrimPrefix (http.URLPath r) "/media/"]) = true.
Proof.
  intros Hwd Hmain Hroot Hd. unfold server.main in Hmain.
  destruct (server.settings P) as [port mediaDir].
  destruct (filepath.Abs (server.Getwd P) mediaDir) as [abs|] eqn:Ea;
    [|discriminate].
  destruct (server.ListenAndServe P _); [discriminate|].
  injection Hmain as _ <- _.
  destruct (Abs_shape _ _ _ Hwd Ea) as (elems & -> & Hp).
  assert (He : elems <> []) by (intros ->; now apply Hroot).
  apply TrimPrefix_media_no_dotdot in Hd.
  rewrite (Join_no_dotdot elems _ He Hp Hd). now apply rooted_app_descendant.
Qed.

Lemma served_target_below_configured_root_witness :
  server.main (sample.process [("mediadir", "/srv/media/")] [])
  = server.Serving "/media/" "/srv/media" ":8080"
  /\ web.is_descendant "/srv/media"
       (filepath.Join ["/srv/media"; Str.TrimPrefix "/media/a/./b.mp4" "/media/"])
     = true.
Proof.
  split; [reflexivity|].
  apply (served_target_below_configured_root
           (sample.process [("mediadir", "/srv/media/")] [])
           "/media/" "/srv/media" ":8080" (sample.GET "/media/a/./b.mp4" [])).
  - intros d [= <-]. reflexivity.
  - reflexivity.
  - discriminate.
  - reflexivity.
Defined.

(** ** One transaction per request *)

Section Bodies.

Import http.

Variable W : World.

(** A substring lies in the string, after as many bytes as its offset. *)
Lemma substring_covers (n m : nat) (s : string) :
  (n + m <= String.length s)%nat ->
  exists before after : string,
    s = before +:+ String.substring n m s +:+ after
    /\ String.length before = n.
Proof.
  revert n m. induction s as [|c s IH]; intros n m H; simpl in H.
  - assert (n = O) by lia. assert (m = O) by lia. subst.
    exists EmptyString, EmptyString. split; reflexivity.
  - destruct n as [|n].
    + destruct m as [|m].
      * exists EmptyString, (String c s). split; reflexivity.
      * destruct (IH O m) as (before & after & Hs & Hl); [lia|].
        destruct before; [|discriminate].
        exists EmptyString, after. split; [|reflexivity].
        change (String c s = String c (String.substring 0 m s +:+ after)).
        f_equal. exact Hs.
    + destruct (IH n m) as (before & after & Hs & Hl); [lia|].
      exists (String c before), after. split; [|simpl; now rewrite Hl].
      change (String c s
              = String c (before +:+ String.substring n m s +:+ after)).
      f_equal. exact Hs.
Qed.

(** The bytes of a range inside the content are the bytes it covers. *)
Lemma slice_covers (content : string) (ra : httpRange) :
  ranges.within (Z.of_nat (String.length content)) ra = true ->
  ranges.covers content ra (slice content ra).
Proof.
  intros Hw. pose proof (slice_length content ra Hw) as Hl.
  unfold ranges.within in Hw. rewrite !andb_true_iff, !Z.leb_le in Hw.
  destruct Hw as [[H1 H2] H3].
  destruct (substring_covers (Z.to_nat (start ra)) (Z.to_nat (length ra)) content)
    as (before & after & Hs & Hb); [lia|].
  exists before, after. split; [exact Hs|]. split; [lia | exact Hl].
Qed.

(** The multipart body [multipart_parts] writes for ranges inside the
    content is one: its parts carry the bytes the ranges cover. *)
Lemma multipart_parts_spec (boundary ctype content : string) (first : bool)
  (ras : list httpRange) :
  forallb (ranges.within (Z.of_nat (String.length content))) ras = true ->
  ranges.multipart boundary ctype content first ras
    (multipart_parts boundary ctype content (Z.of_nat (String.length content))
       first ras).
Proof.
  revert first. induction ras as [|ra ras IH]; intros first Hw.
  - apply ranges.multipart_close.
  - cbn [forallb] in Hw. apply andb_true_iff in Hw as [Hra Hras].
    exact (ranges.multipart_part boundary ctype content first ra ras _ _
             (slice_covers content ra Hra) (IH false Hras)).
Qed.

Lemma length_append (a b : string) :
  String.length (a +:+ b) = (String.length a + String.length b)%nat.
Proof.
  induction a as [|c a IH]; [reflexivity|].
  change (S (String.length (a +:+ b)) = S (String.length a + String.length b)).
  now rewrite IH.
Qed.

(** For ranges inside the content the size [rangesMIMESize] counts is the
    length of the multipart body: [io.CopyN] copies all of it. *)
Lemma rangesMIMESize_body (boundary ctype content : string) (size : Z)
  (first : bool) (ras : list httpRange) :
  forallb (ranges.within (Z.of_nat (String.length content))) ras = true ->
  rangesMIMESize_from boundary ctype size first ras
  = Z.of_nat (String.length
                (multipart_parts boundary ctype content size first ras)).
Proof.
  revert first. induction ras as [|ra ras IH]; intros first Hw;
    cbn [multipart_parts rangesMIMESize_from]; [reflexivity|].
  cbn [forallb] in Hw. apply andb_true_iff in Hw as [Hra Hras].
  rewrite !length_append, (IH false Hras), !Nat2Z.inj_add.
  rewrite (slice_length content ra Hra). lia.
Qed.

(** The three ways [deliver] answers, for ranges inside the content: the
    whole content with 200, the bytes one range covers with 206, a
    multipart body of several ranges with 206; a HEAD gets no body. *)
Local Abbreviation delivered w' r content ctype :=
  ((Code w' = Some StatusOK
    /\ Body w' = if String.eqb (Method r) "HEAD" then EmptyString
                 else content%string)
   \/ (Code w' = Some StatusPartialContent
       /\ exists (ra : httpRange) (bytes : string),
            ranges.covers content ra bytes
            /\ Body w' = if String.eqb (Method r) "HEAD" then EmptyString
                         else bytes)
   \/ (Code w' = Some StatusPartialContent
       /\ exists (ras : list httpRange) (body : string),
            (2 <= List.length ras)%nat
            /\ ranges.multipart (Boundary W) ctype content true ras body
            /\ Body w' = if String.eqb (Method r) "HEAD" then EmptyString
                         else body)).

Lemma deliver_shape (r : Request) (content ctype : string)
  (ranges : list httpRange) (w : ResponseWriter) :
  Code w = None -> Body w = EmptyString ->
  forallb (ranges.within (Z.of_nat (String.length content))) ranges = true ->
  delivered (deliver W r content ctype ranges w) r content ctype.
Proof.
  intros Hc Hb Hw. unfold deliver.
  assert (Hw' : forallb (ranges.within (Z.of_nat (String.length content)))
                  (if Z.of_nat (String.length content) <? sumRangesSize ranges
                   then [] else ranges) = true)
    by (destruct (_ <? _); [reflexivity | exact Hw]).
  destruct (if _ <? _ then [] else ranges) as [|ra [|ra' rest]]; cbv zeta.
  - left.
    destruct (send_fresh r StatusOK (Z.of_nat (String.length content)) content
                false w Hc) as (H1 & H2 & _).
    rewrite H1, H2, Hb. auto.
  - right; left.
    cbn [forallb] in Hw'. apply andb_true_iff in Hw' as [Hra _].
    match goal with |- context [send r ?c ?n ?b ?g ?w'] =>
      destruct (send_fresh r c n b g w' Hc) as (H1 & H2 & _)
    end.
    rewrite H1, H2. change (Body (Header_Set _ _ w)) with (Body w). rewrite Hb.
    split; [reflexivity|]. exists ra, (slice content ra).
    split; [now apply slice_covers | reflexivity].
  - right; right.
    match goal with |- context [send r ?c ?n ?b ?g ?w'] =>
      destruct (send_fresh r c n b g w' Hc) as (H1 & H2 & _)
    end.
    rewrite H1, H2. change (Body (Header_Set _ _ w)) with (Body w). rewrite Hb.
    split; [reflexivity|]. eexists (ra :: ra' :: rest), _.
    split; [simpl; lia|]. split; [|reflexivity].
    now apply multipart_parts_spec.
Qed.

(** ... and [serveRanges] adds the 416 with the text of the error. *)
Lemma serveRanges_shape (r : Request) (content ctype rangeReq : string)
  (w : ResponseWriter) :
  Code w = None -> Body w = EmptyString ->
  delivered (serveRanges W r content ctype rangeReq w) r content ctype
  \/ (Code (serveRanges W r content ctype rangeReq w)
      = Some StatusRequestedRangeNotSatisfiable
      /\ exists e, Body (serveRanges W r content ctype rangeReq w)
                   = rangeError_text e +:+ LF).
Proof.
  intros Hc Hb. unfold serveRanges.
  destruct (parseRange rangeReq _) as [[|]|ranges] eqn:Hp.
  - right. destruct (serveError_fresh (rangeError_text errInvalidRange)
                       StatusRequestedRangeNotSatisfiable w Hc) as (H1 & H2 & _).
    rewrite H1, H2, Hb. split; [reflexivity|]. now exists errInvalidRange.
  - destruct (_ =? 0).
    + left. now apply deliver_shape.
    + right.
      match goal with |- context [serveError ?m ?c ?w'] =>
        destruct (serveError_fresh m c w' Hc) as (H1 & H2 & _)
      end.
      rewrite H1, H2. change (Body (Header_Set _ _ w)) with (Body w). rewrite Hb.
      split; [reflexivity|]. now exists errNoOverlap.
  - left. apply deliver_shape; [assumption .. |].
    exact (parseRange_within _ _ _ (Nat2Z.is_nonneg _) Hp).
Qed.

End Bodies.




(** ** A directory as the target *)

Section DirectoryTarget.

Variable W : World.
Variable mediaDir : string.

(** The response to a request without conditional headers whose target is
    a directory. *)
Lemma respond_dir_unconditional (r : http.Request) (d : Dir) :
  os_Open W (filepath.Join [mediaDir; Str.TrimPrefix (http.URLPath r) "/media/"])
  = inr (Directory d) ->
  http.Header_get (http.Header r) "If-Match" = EmptyString ->
  http.Header_get (http.Header r) "If-Unmodified-Since" = EmptyString ->
  http.Header_get (http.Header r) "If-None-Match" = EmptyString ->
  http.Header_get (http.Header r) "If-Modified-Since" = EmptyString ->
  http.Header_get (http.Header r) "If-Range" = EmptyString ->
  exists m,
    web.respond W mediaDir r
    = http.serveDirRanges W r d m (http.Header_get (http.Header r) "Range")
        (http.setLastModified W (DirModTime d)
           (http.Header_Set "Content-Type" m http.NewRecorder)).
Proof.
  intros Ho H1 H2 H3 H4 H5. rewrite (respond_open_dir W mediaDir r d Ho).
  match goal with |- context [http.Header_Set "Content-Type" ?m http.NewRecorder] =>
    exists m;
    rewrite (ServeContentDir_handler W
               (http.Header_Set "Content-Type" m http.NewRecorder) r _
               (DirModTime d) d m eq_refl (lookup_insert_eq _ _ _))
  end.
  now rewrite (checkPreconditions_unconditional W _ r _ H1 H2 H3 H4 H5).
Qed.

End DirectoryTarget.

(** A request whose target is a directory is not refused: [os.Open] opens
    the directory and the handler hands it to [ServeContent] like a file.
    The answer is never a 404.  To a request without precondition headers
    it is a 500 with the text [seeker can't seek] where the file system
    does not position directories; where it does, and reports a size, a
    request without [Range] header gets a 200 that announces that size in
    [Content-Length] and has no body. *)
Theorem directory_is_served_not_refused (W : World) (mediaDir : string)
  (r : http.Request) (d : Dir) :
  os_Open W (filepath.Join [mediaDir; Str.TrimPrefix (http.URLPath r) "/media/"])
  = inr (Directory d) ->
  http.status (web.respond W mediaDir r) <> 404
  /\ http.served_dir_status (http.status (web.respond W mediaDir r))
  /\ (http.Header_get (http.Header r) "If-Match" = EmptyString ->
      http.Header_get (http.Header r) "If-Unmodified-Since" = EmptyString ->
      http.Header_get (http.Header r) "If-None-Match" = EmptyString ->
      http.Header_get (http.Header r) "If-Modified-Since" = EmptyString ->
      http.Header_get (http.Header r) "If-Range" = EmptyString ->
      (DirSize d = None ->
       http.status (web.respond W mediaDir r) = 500
       /\ http.Body (web.respond W mediaDir r) = "seeker can't seek" +:+ http.LF)
      /\ (forall size, DirSize d = Some size -> 0 <= size ->
          http.Header_get (http.Header r) "Range" = EmptyString ->
          http.status (web.respond W mediaDir r) = 200
          /\ http.Body (web.respond W mediaDir r) = EmptyString
          /\ http.Hdr (web.respond W mediaDir r) !! "Content-Length"
             = Some (strconv.FormatInt size))).
Proof.
  intros Ho.
  destruct (respond_dir_served W mediaDir r d Ho) as (c & Hc & Hs).
  assert (Hst : http.status (web.respond W mediaDir r) = c)
    by (unfold http.status; now rewrite Hc).
  split; [|split].
  - rewrite Hst. intros ->.
    unfold http.served_dir_status, http.served_status in Hs.
    repeat destruct Hs as [Hs|Hs]; discriminate.
  - now rewrite Hst.
  - intros H1 H2 H3 H4 H5.
    destruct (respond_dir_unconditional W mediaDir r d Ho H1 H2 H3 H4 H5)
      as (m & ->).
    destruct (prepared_writer W (DirModTime d) m) as (Hc0 & Hb0 & _ & Hce & _).
    set (w0 := http.setLastModified W (DirModTime d) _) in *.
    unfold http.serveDirRanges. split.
    + intros ->.
      destruct (serveError_fresh "seeker can't seek"
                  http.StatusInternalServerError w0 Hc0) as (Hc' & Hb' & _).
      unfold http.status. rewrite Hc', Hb', Hb0. split; reflexivity.
    + intros size -> Hsize ->.
      destruct (Z.ltb_spec size 0) as [|_]; [lia|].
      unfold http.parseRange, http.deliverDir. cbn [Str.is_empty].
      unfold http.sumRangesSize. cbn [fold_left].
      destruct (Z.ltb_spec size 0) as [|_]; [lia|].
      destruct (send_fresh r http.StatusOK size EmptyString false w0 Hc0)
        as (Hc' & Hb' & _).
      destruct (send_headers r http.StatusOK size EmptyString false w0)
        as (_ & Hcl).
      unfold http.status. rewrite Hc', Hb', Hb0, (Hcl Hce).
      split; [reflexivity|]. split; [now destruct (String.eqb _ _) | reflexivity].
Qed.

Lemma directory_is_served_not_refused_witness :
  http.status (web.respond sample.dir_world "/srv/media"
                 (sample.GET "/media/albums" [])) <> 404
  /\ http.status (web.respond sample.dir_world "/srv/media"
                    (sample.GET "/media/cache" [])) <> 404.
Proof.
  split.
  - apply (directory_is_served_not_refused sample.dir_world "/srv/media"
             (sample.GET "/media/albums" []) sample.albums). reflexivity.
  - apply (directory_is_served_not_refused sample.dir_world "/srv/media"
             (sample.GET "/media/cache" []) sample.cache). reflexivity.
Defined.
